(** * utilities.py: metrics, feature selection, k-fold cross-validation and
      grid search, embedded shallowly and checked against the specification.

    Conventions of the embedding.
    - A Python float is a [pyfloat]: NaN, a signed infinity, or a finite value
      held as an exact rational (rounding is not modelled; signed zeros are
      identified).
    - A raised exception is the [Raise] branch of [result].
    - A one-dimensional label array is a [list Z]; a boolean array is a
      [list bool]; an index array is a [list nat].
    - A two-dimensional array is a [matrix]: its shape and a cell accessor.
    - [np.random] is an abstract generator state threaded explicitly.
    - A [dict] with string keys is a [gmap string V]. *)

From Stdlib Require Import ZArith QArith Qabs Qround Lia Lqa.
From stdpp Require Import base option list sorting gmap strings.

Local Open Scope Z_scope.

(** ** Python values *)

Inductive pyfloat : Type :=
  | NaN
  | Inf (neg : bool)
  | Fin (q : Q).

Inductive exn : Type :=
  | AssertionError (msg : string)
  | IndexError
  | ValueError
  | ZeroDivisionError
  | OtherError (msg : string).

Inductive result (A : Type) : Type :=
  | Ok (a : A)
  | Raise (e : exn).
Arguments Ok {A} a.
Arguments Raise {A} e.

Definition is_Ok {A} (r : result A) : bool :=
  match r with Ok _ => true | Raise _ => false end.

Module Float.

Definition of_Z (z : Z) : pyfloat := Fin (inject_Z z).
Definition of_nat (n : nat) : pyfloat := of_Z (Z.of_nat n).

Definition zero : pyfloat := Fin 0.

Definition Qneg (q : Q) : bool := negb (Qle_bool 0 q).
Definition Qzero (q : Q) : bool := Qeq_bool q 0.

Definition isnan (x : pyfloat) : bool :=
  match x with NaN => true | _ => false end.

Definition add (x y : pyfloat) : pyfloat :=
  match x, y with
  | NaN, _ | _, NaN => NaN
  | Inf s, Inf s' => if Bool.eqb s s' then Inf s else NaN
  | Inf s, Fin _ | Fin _, Inf s => Inf s
  | Fin a, Fin b => Fin (a + b)
  end.

Definition mul (x y : pyfloat) : pyfloat :=
  match x, y with
  | NaN, _ | _, NaN => NaN
  | Inf s, Inf s' => Inf (xorb s s')
  | Inf s, Fin q | Fin q, Inf s =>
      if Qzero q then NaN else Inf (xorb s (Qneg q))
  | Fin a, Fin b => Fin (a * b)
  end.

(** numpy true division: a zero divisor gives NaN or an infinity (with a
    warning), never an exception. *)
Definition div (x y : pyfloat) : pyfloat :=
  match x, y with
  | NaN, _ | _, NaN => NaN
  | Inf _, Inf _ => NaN
  | Inf s, Fin q => Inf (xorb s (Qneg q))
  | Fin _, Inf _ => Fin 0
  | Fin a, Fin b =>
      if Qzero b then (if Qzero a then NaN else Inf (Qneg a))
      else Fin (a / b)
  end.

Definition abs (x : pyfloat) : pyfloat :=
  match x with
  | NaN => NaN
  | Inf _ => Inf false
  | Fin q => Fin (Qabs q)
  end.

(** [x == y], [x != y], [x >= y], [x > y]: every ordered comparison with
    NaN is false, and [!=] with NaN is true. *)
Definition eqb (x y : pyfloat) : bool :=
  match x, y with
  | NaN, _ | _, NaN => false
  | Inf s, Inf s' => Bool.eqb s s'
  | Fin a, Fin b => Qeq_bool a b
  | _, _ => false
  end.

Definition neb (x y : pyfloat) : bool := negb (eqb x y).

Definition geb (x y : pyfloat) : bool :=
  match x, y with
  | NaN, _ | _, NaN => false
  | Inf s, Inf s' => implb s s'
  | Inf s, Fin _ => negb s
  | Fin _, Inf s => s
  | Fin a, Fin b => Qle_bool b a
  end.

Definition gtb (x y : pyfloat) : bool :=
  match x, y with
  | NaN, _ | _, NaN => false
  | Inf s, Inf s' => negb s && s'
  | Inf s, Fin _ => negb s
  | Fin _, Inf s => s
  | Fin a, Fin b => negb (Qle_bool a b)
  end.

Definition neg (x : pyfloat) : pyfloat :=
  match x with
  | NaN => NaN
  | Inf s => Inf (negb s)
  | Fin q => Fin (- q)
  end.

Definition sub (x y : pyfloat) : pyfloat := add x (neg y).

Definition sum (l : list pyfloat) : pyfloat := foldl add zero l.

(** [np.mean] of a one-dimensional float array; the mean of an empty array
    is NaN (0/0). *)
Definition mean (l : list pyfloat) : pyfloat :=
  div (sum l) (of_nat (length l)).

End Float.

(** ** numpy helpers on one-dimensional arrays *)

(** [a == c] for an array [a] and a scalar [c]. *)
Definition np_eq_scalar (a : list Z) (c : Z) : list bool :=
  map (fun x => x =? c) a.

(** [np.logical_and(a, b)] on arrays of equal length. *)
Definition np_logical_and (a b : list bool) : list bool :=
  zip_with andb a b.

(** [np.sum] of a boolean array: the number of [True] entries. *)
Definition np_sum (a : list bool) : Z :=
  Z.of_nat (length (filter (fun b => b = true) a)).

(** ** Metric engine *)

(** [compute_f1], lines 184-223. *)
Definition compute_f1 (y_true y_pred : list Z) : result pyfloat :=
  if negb (length y_true =? length y_pred)%nat
  then Raise (AssertionError "Mismatched length between y_true and y_pred.")
  else
    let TP := np_sum (np_logical_and (np_eq_scalar y_pred 1) (np_eq_scalar y_true 1)) in
    let FP := np_sum (np_logical_and (np_eq_scalar y_pred 1) (np_eq_scalar y_true 0)) in
    let FN := np_sum (np_logical_and (np_eq_scalar y_pred 0) (np_eq_scalar y_true 1)) in
    let precision :=
      if negb (TP + FP =? 0) then Float.div (Float.of_Z TP) (Float.of_Z (TP + FP))
      else Float.zero in
    let recall :=
      if negb (TP + FN =? 0) then Float.div (Float.of_Z TP) (Float.of_Z (TP + FN))
      else Float.zero in
    let f1 :=
      if Float.neb (Float.add precision recall) Float.zero
      then Float.div (Float.mul (Float.of_Z 2) (Float.mul precision recall))
                     (Float.add precision recall)
      else Float.zero in
    Ok f1.

(** [calculate_metrics], lines 371-395: one pass over [zip(y_true, y_pred)]
    updating the four counters (TP, FP, TN, FN). *)
Definition metrics_step (acc : Z * Z * Z * Z) (p : Z * Z) : Z * Z * Z * Z :=
  let '(TP, FP, TN, FN) := acc in
  let '(yt, yp) := p in
  if (yt =? 1) && (yp =? 1) then (TP + 1, FP, TN, FN)
  else if (yt =? 0) && (yp =? 1) then (TP, FP + 1, TN, FN)
  else if (yt =? 1) && (yp =? 0) then (TP, FP, TN, FN + 1)
  else if (yt =? 0) && (yp =? 0) then (TP, FP, TN + 1, FN)
  else (TP, FP, TN, FN).

Definition calculate_metrics (y_true y_pred : list Z) : Z * Z * Z * Z :=
  foldl metrics_step (0, 0, 0, 0) (zip y_true y_pred).

(** ** Two-dimensional arrays *)

Record matrix : Type := Matrix {
  shape0 : nat;                       (* number of rows    *)
  shape1 : nat;                       (* number of columns *)
  cell : nat -> nat -> pyfloat;       (* cell r c, meaningful inside the shape *)
}.

(** [X[:, j]] *)
Definition column (X : matrix) (j : nat) : list pyfloat :=
  map (fun r => cell X r j) (seq 0 (shape0 X)).

(** [X[r, :]] *)
Definition row (X : matrix) (r : nat) : list pyfloat :=
  map (fun c => cell X r c) (seq 0 (shape1 X)).

(** The matrix made of the listed columns of [X], in that order. *)
Definition select_columns (X : matrix) (cols : list nat) : matrix :=
  {| shape0 := shape0 X;
     shape1 := length cols;
     cell r c := cell X r (nth c cols 0%nat) |}.

(** The matrix made of the listed rows of [X], in that order. *)
Definition select_rows (X : matrix) (rows : list nat) : matrix :=
  {| shape0 := length rows;
     shape1 := shape1 X;
     cell r c := cell X (nth r rows 0%nat) c |}.

(** Positions of the [True] entries of a boolean array. *)
Definition np_flatnonzero (m : list bool) : list nat :=
  filter (fun j => m !! j = Some true) (seq 0 (length m)).

(** [X[:, m]] for a boolean array [m]: numpy raises IndexError unless [m]
    has exactly one entry per column. *)
Definition bool_index_columns (X : matrix) (m : list bool) : result matrix :=
  if negb (length m =? shape1 X)%nat then Raise IndexError
  else Ok (select_columns X (np_flatnonzero m)).

(** [X[idx]] for an integer index array: IndexError on an index outside the
    rows of [X]. *)
Definition int_index_rows (X : matrix) (idx : list nat) : result matrix :=
  if forallb (fun i => i <? shape0 X)%nat idx then Ok (select_rows X idx)
  else Raise IndexError.

(** [y[idx]] for a one-dimensional array. *)
Definition int_index {A} (y : list A) (idx : list nat) : result (list A) :=
  match mapM (fun i => y !! i) idx with
  | Some l => Ok l
  | None => Raise IndexError
  end.

(** [a[lo:hi]] for [0 <= lo], [0 <= hi]: bounds are clamped to the array. *)
Definition slice {A} (lo hi : nat) (a : list A) : list A :=
  take (hi - lo) (drop lo a).

(** ** Feature selector *)

(** *** Sentinel / NaN density filter *)

(** [np.sum(col == c)] for a float column and an integer code. *)
Definition count_eq (col : list pyfloat) (c : Z) : Z :=
  np_sum (map (fun v => Float.eqb v (Float.of_Z c)) col).

(** The test of lines 326-348 for column [j]. *)
Definition column_flagged (x_data : matrix) (t : pyfloat) (j : nat) : bool :=
  let col := column x_data j in
  let num_nan := np_sum (map Float.isnan col) in
  let num_2729 := count_eq col 77 + count_eq col 99 in
  let num_3739 := count_eq col 777 + count_eq col 999 in
  let num_4749 := count_eq col 7777 + count_eq col 9999 in
  let num_6769 := count_eq col 777777 + count_eq col 999999 in
  let num_remove := num_nan + num_2729 + num_3739 + num_4749 + num_6769 in
  let per_remove := Float.div (Float.of_Z num_remove) (Float.of_nat (shape0 x_data)) in
  Float.geb per_remove t.

(** [columns_to_remove], lines 306-351. *)
Definition columns_to_remove (x_data : matrix) (t : pyfloat) : list nat :=
  foldl (fun remove j => if column_flagged x_data t j then remove ++ [j] else remove)
        [] (seq 0 (shape1 x_data)).

(** [np.delete(X, cols, 1)] for in-range column indices. *)
Definition np_delete_columns (X : matrix) (cols : list nat) : matrix :=
  select_columns X (filter (fun j => j ∉ cols) (seq 0 (shape1 X))).

(** [reduced_data], lines 354-367 (the default of [t] is 0.6). *)
Definition reduced_data (x_data : matrix) (t : pyfloat) : matrix :=
  np_delete_columns x_data (columns_to_remove x_data t).

(** *** Pairwise correlation filter *)

(** What [np.corrcoef(data, rowvar=False)] hands back: a square array, or a
    0-d array when numpy sees a single variable. *)
Inductive corr_array : Type :=
  | Corr0d (v : pyfloat)
  | Corr2d (n : nat) (c : nat -> nat -> pyfloat).

(** Lines 419-420 for the pair [(i, j)]: test the correlation and mark [j]. *)
Definition mark (c : nat -> nat -> pyfloat) (threshold : pyfloat)
    (i : nat) (drop_cols : list bool) (j : nat) : list bool :=
  if Float.gtb (Float.abs (c i j)) threshold
  then <[j := true]> drop_cols else drop_cols.

(** Inner loop, lines 418-420: [for j in range(i + 1, n)]. *)
Definition mark_after (c : nat -> nat -> pyfloat) (threshold : pyfloat)
    (n i : nat) (drop_cols : list bool) : list bool :=
  foldl (mark c threshold i) drop_cols (seq (i + 1) (n - (i + 1))).

(** Outer loop, lines 414-420, from the all-false mask. *)
Definition correlation_mask (c : nat -> nat -> pyfloat) (threshold : pyfloat)
    (n : nat) : list bool :=
  foldl (fun d i => mark_after c threshold n i d) (replicate n false) (seq 0 n).

(** [drop_test_correlated_features], lines 425-437. *)
Definition drop_test_correlated_features (x_test : matrix) (drop_cols : list bool)
    : result matrix :=
  bool_index_columns x_test (map negb drop_cols).

Section CorrelationFilter.
(** [np.corrcoef(., rowvar=False)], a numpy routine. *)
Variable np_corrcoef : matrix -> corr_array.

(** [drop_highly_correlated_features], lines 398-423 (the default of
    [threshold] is 0.95). [corr_matrix.shape[0]] raises IndexError on a 0-d
    array. *)
Definition drop_highly_correlated_features (data : matrix) (threshold : pyfloat)
    : result (matrix * list bool) :=
  match np_corrcoef data with
  | Corr0d _ => Raise IndexError
  | Corr2d n c =>
      let drop_cols := correlation_mask c threshold n in
      match bool_index_columns data (map negb drop_cols) with
      | Ok reduced => Ok (reduced, drop_cols)
      | Raise e => Raise e
      end
  end.
End CorrelationFilter.

(** ** State and exceptions *)

(** A computation over a mutable state [S] that may raise: the state reached
    is kept when an exception is raised. *)
Definition M (S A : Type) : Type := S -> result A * S.

Definition ret {S A} (a : A) : M S A := fun s => (Ok a, s).

Definition bind {S A B} (m : M S A) (f : A -> M S B) : M S B :=
  fun s => match m s with
           | (Ok a, s') => f a s'
           | (Raise e, s') => (Raise e, s')
           end.

Definition lift_result {S A} (r : result A) : M S A := fun s => (r, s).

Notation "'let*' x ':=' m 'in' k" := (bind m (fun x => k))
  (at level 10, x pattern, m at level 100, k at level 200, only parsing).

(** [for x in xs: acc = body(acc, x)] *)
Fixpoint for_each {S A B} (xs : list B) (body : A -> B -> M S A) (acc : A) : M S A :=
  match xs with
  | [] => ret acc
  | x :: xs' => bind (body acc x) (for_each xs' body)
  end.

(** ** Fold partitioner *)

(** [np.unique]: the distinct values, ascending. *)
Definition np_unique (a : list nat) : list nat :=
  merge_sort Nat.le (remove_dups a).

(** [np.setdiff1d(ar1, ar2)]: the distinct values of [ar1] that are not in
    [ar2], ascending. *)
Definition np_setdiff1d (ar1 ar2 : list nat) : list nat :=
  filter (fun x => x ∉ ar2) (np_unique ar1).

(** Lines 121-122 for fold [i]: (train_indices, test_indices). *)
Definition fold_split (indices : list nat) (fold_size i : nat) : list nat * list nat :=
  let test_indices := slice (i * fold_size) ((i + 1) * fold_size) indices in
  let train_indices := np_setdiff1d indices test_indices in
  (train_indices, test_indices).

(** ** Shuffling samples and labels together *)

Section Shuffling.
(** The state of numpy's global generator and [np.random.permutation(n)]. *)
Variable RNG : Type.
Variable np_random_permutation : nat -> RNG -> list nat * RNG.

(** [unison_shuffled_copies], lines 6-27, for a sample matrix [a] and a label
    array [b]. *)
Definition unison_shuffled_copies (a : matrix) (b : list Z) : M RNG (matrix * list Z) :=
  if negb (shape0 a =? length b)%nat then lift_result (Raise (AssertionError ""))
  else
    let* p := (fun g => let '(l, g') := np_random_permutation (shape0 a) g in
                        (Ok l, g')) in
    let* a_p := lift_result (int_index_rows a p) in
    let* b_p := lift_result (int_index b p) in
    ret (a_p, b_p).

End Shuffling.

(** ** Prediction *)

(** [X @ w] for a weight vector [w]: ValueError unless [w] has one entry per
    column. *)
Definition dot (u v : list pyfloat) : pyfloat :=
  Float.sum (zip_with Float.mul u v).

Definition matvec (X : matrix) (w : list pyfloat) : result (list pyfloat) :=
  if negb (length w =? shape1 X)%nat then Raise ValueError
  else Ok (map (fun r => dot (row X r) w) (seq 0 (shape0 X))).

(** [np.mean(y_pred == y_test)] for a boolean and a label array of the same
    length (numpy refuses arrays of different lengths). *)
Definition mean_agreement (y_pred : list bool) (y_test : list Z) : result pyfloat :=
  if negb (length y_pred =? length y_test)%nat then Raise ValueError
  else
    let hits := np_sum (zip_with (fun p t => Z.b2z p =? t) y_pred y_test) in
    Ok (Float.div (Float.of_Z hits) (Float.of_nat (length y_pred))).

Section CrossValidation.
(** The state of numpy's global generator and [np.random.shuffle], which
    reorders an index array and advances the generator. *)
Variable RNG : Type.
Variable np_random_shuffle : list nat -> RNG -> list nat * RNG.
(** The logistic function of [implementations], applied elementwise. *)
Variable sigmoid : pyfloat -> pyfloat.
(** Values held by the hyperparameter dictionary. *)
Variable V : Type.

(** The training routine handed in by the caller:
    [model(y_train, X_train, **model_params) -> (w, loss)]. *)
Definition model_fn : Type :=
  list Z -> matrix -> gmap string V -> M RNG (list pyfloat * pyfloat).

(** [predict_logistic], lines 67-78. *)
Definition predict_logistic (X : matrix) (w : list pyfloat) (threshold : pyfloat)
    : result (list bool) :=
  match matvec X w with
  | Ok z => Ok (map (fun s => Float.geb (sigmoid s) threshold) z)
  | Raise e => Raise e
  end.

(** Body of the loop of lines 119-136 for fold [i]. *)
Definition cv_fold (X : matrix) (y : list Z) (model : model_fn)
    (model_params : gmap string V) (threshold : pyfloat)
    (indices : list nat) (fold_size : nat)
    (acc : list pyfloat * list pyfloat) (i : nat)
    : M RNG (list pyfloat * list pyfloat) :=
  let '(accuracies, f1_scores) := acc in
  let '(train_indices, test_indices) := fold_split indices fold_size i in
  let* X_train := lift_result (int_index_rows X train_indices) in
  let* X_test := lift_result (int_index_rows X test_indices) in
  let* y_train := lift_result (int_index y train_indices) in
  let* y_test := lift_result (int_index y test_indices) in
  let* (w, loss) := model y_train X_train model_params in
  let* y_pred := lift_result (predict_logistic X_test w threshold) in
  let* accuracy := lift_result (mean_agreement y_pred y_test) in
  let* f1 := lift_result (compute_f1 y_test (map Z.b2z y_pred)) in
  ret (accuracies ++ [accuracy], f1_scores ++ [f1]).

(** [np.random.shuffle(indices)] as a computation on the generator. *)
Definition shuffled (indices : list nat) : M RNG (list nat) :=
  fun g => let '(l, g') := np_random_shuffle indices g in (Ok l, g').

(** [k_fold_cross_validation], lines 98-142 (the default of [threshold] is
    0.5). [num_samples // k] raises ZeroDivisionError for [k = 0]. *)
Definition k_fold_cross_validation (X : matrix) (y : list Z) (model : model_fn)
    (k : nat) (model_params : gmap string V) (threshold : pyfloat)
    : M RNG (pyfloat * pyfloat) :=
  let num_samples := shape0 X in
  let* indices := shuffled (seq 0 num_samples) in
  if (k =? 0)%nat then lift_result (Raise ZeroDivisionError)
  else
    let fold_size := (num_samples / k)%nat in
    let* (accuracies, f1_scores) :=
      for_each (seq 0 k)
               (cv_fold X y model model_params threshold indices fold_size)
               ([], []) in
    let mean_accuracy := Float.mean accuracies in
    let f1_score := Float.mean f1_scores in
    ret (mean_accuracy, f1_score).

(** *** Grid search *)

(** The running best of lines 160-163. *)
Record best : Type := Best {
  best_accuracy : pyfloat;
  best_f1_score : pyfloat;
  best_param_lambda : option V;
  best_param_gamma : option V;
}.

Definition best_init : best :=
  {| best_accuracy := Float.zero; best_f1_score := Float.zero;
     best_param_lambda := None; best_param_gamma := None |}.

(** Lines 171-175. *)
Definition update_best (b : best) (lambda_ gamma : V) (accuracy f1_score : pyfloat)
    : best :=
  if Float.geb f1_score (best_f1_score b) && Float.geb accuracy (best_accuracy b)
  then {| best_accuracy := accuracy; best_f1_score := f1_score;
          best_param_lambda := Some lambda_; best_param_gamma := Some gamma |}
  else b.

(** One progress line of lines 177-179: the values that are printed. *)
Record progress : Type := Progress {
  p_lambda : V; p_gamma : V; p_accuracy : pyfloat; p_f1_score : pyfloat;
}.

(** What the search reads and writes: the generator, the caller's
    [model_params] dictionary (mutated in place) and standard output. *)
Record world : Type := World {
  np_random : RNG;
  model_params : gmap string V;
  stdout : list progress;
}.

Definition set_param (key : string) (v : V) : M world unit :=
  fun s => (Ok tt, {| np_random := np_random s;
                      model_params := <[key := v]> (model_params s);
                      stdout := stdout s |}).

Definition print (line : progress) : M world unit :=
  fun s => (Ok tt, {| np_random := np_random s;
                      model_params := model_params s;
                      stdout := stdout s ++ [line] |}).

(** Run a cross-validation on the current dictionary. *)
Definition with_params {A} (m : gmap string V -> M RNG A) : M world A :=
  fun s => let '(r, g) := m (model_params s) (np_random s) in
           (r, {| np_random := g; model_params := model_params s;
                  stdout := stdout s |}).

(** Body of the inner loop, lines 167-179. *)
Definition tuning_step (X : matrix) (y : list Z) (model : model_fn) (k : nat)
    (gamma : V) (b : best) (lambda_ : V) : M world best :=
  let* _ := set_param "lambda_" lambda_ in
  let* _ := set_param "gamma" gamma in
  let* (accuracy, f1_score) :=
    with_params (fun params =>
      k_fold_cross_validation X y model k params (Fin (1 # 2))) in
  let b' := update_best b lambda_ gamma accuracy f1_score in
  let* _ := print {| p_lambda := lambda_; p_gamma := gamma;
                     p_accuracy := accuracy; p_f1_score := f1_score |} in
  ret b'.

(** [hyperparameter_tuning], lines 145-181 (the default of [k] is 5). *)
Definition hyperparameter_tuning (X : matrix) (y : list Z) (model : model_fn)
    (lambdas gammas : list V) (k : nat) : M world (option V * option V) :=
  let* b :=
    for_each gammas
      (fun b gamma => for_each lambdas (tuning_step X y model k gamma) b)
      best_init in
  ret (best_param_lambda b, best_param_gamma b).

End CrossValidation.

(** ** Vocabulary of the specification *)

(** Number of positions where the true label is [t] and the predicted one is
    [p]: TP is [confusion_count 1 1], FP is [confusion_count 0 1], FN is
    [confusion_count 1 0]. *)
Definition confusion_count (t p : Z) (y_true y_pred : list Z) : Z :=
  Z.of_nat (length (filter (fun tp => (tp.1 =? t) && (tp.2 =? p) = true)
                           (zip y_true y_pred))).

(** The edge-case policy of the F1 score: a ratio with a zero denominator is
    replaced by 0. *)
Definition f1_policy (TP FP FN : Z) : Q :=
  let precision := if TP + FP =? 0 then 0%Q else (inject_Z TP / inject_Z (TP + FP))%Q in
  let recall := if TP + FN =? 0 then 0%Q else (inject_Z TP / inject_Z (TP + FN))%Q in
  if Qeq_bool (precision + recall) 0 then 0%Q
  else (2 * (precision * recall) / (precision + recall))%Q.

(** The sentinel codes standing for a missing answer. *)
Definition sentinels : list Z := [77; 99; 777; 999; 7777; 9999; 777777; 999999].

(** A cell is missing when it is NaN or equals a sentinel code. *)
Definition is_missing (v : pyfloat) : bool :=
  Float.isnan v || existsb (fun c => Float.eqb v (Float.of_Z c)) sentinels.

(** Number of missing cells of column [j]. *)
Definition missing_count (X : matrix) (j : nat) : nat :=
  length (filter (fun v => is_missing v = true) (column X j)).

(** [|corr(i, j)| > threshold] *)
Definition correlated (c : nat -> nat -> pyfloat) (threshold : pyfloat) (i j : nat) : Prop :=
  Float.gtb (Float.abs (c i j)) threshold = true.

(** Columns that a drop mask keeps, ascending. *)
Definition kept_columns (drop_cols : list bool) : list nat :=
  filter (fun j => drop_cols !! j = Some false) (seq 0 (length drop_cols)).

(** Share of missing cells in column [j], for a matrix with at least one row. *)
Definition missing_fraction (X : matrix) (j : nat) : Q :=
  (inject_Z (Z.of_nat (missing_count X j)) / inject_Z (Z.of_nat (shape0 X)))%Q.

(** A training routine that raises nothing and returns one weight per
    feature. *)
Definition well_behaved {RNG V : Type} (model : model_fn RNG V) : Prop :=
  forall y_train X_train params g,
    exists w loss g',
      model y_train X_train params g = (Ok (w, loss), g')
      /\ length w = shape1 X_train.

(** A float that is neither NaN nor an infinity. *)
Definition is_finite (x : pyfloat) : Prop := exists q, x = Fin q.

(** A score that is a finite number between 0 and 1. *)
Definition in_unit (x : pyfloat) : Prop :=
  exists q, x = Fin q /\ (0 <= q <= 1)%Q.

(** ** Vocabulary of the grid search *)

Section GridVocabulary.
Context {V : Type}.

(** The grid points [(lambda, gamma)] in the order the search visits them:
    [gamma] in the outer loop, [lambda] in the inner loop. *)
Definition grid (lambdas gammas : list V) : list (V * V) :=
  flat_map (fun gamma => map (fun lambda_ => (lambda_, gamma)) lambdas) gammas.

(** The dictionary after the two assignments of lines 167-168. *)
Definition set_point (params : gmap string V) (lambda_ gamma : V) : gmap string V :=
  <["gamma" := gamma]> (<["lambda_" := lambda_]> params).

(** The grid point a progress line reports. *)
Definition point (p : progress V) : V * V := (p_lambda V p, p_gamma V p).

(** The running best once the grid point of line [p] has replaced it. *)
Definition record_of (p : progress V) : best V :=
  {| best_accuracy := p_accuracy V p; best_f1_score := p_f1_score V p;
     best_param_lambda := Some (p_lambda V p);
     best_param_gamma := Some (p_gamma V p) |}.

(** The comparison of line 171 between the scores of line [q] and the scores
    [accuracy], [f1_score] of the running best. *)
Definition reaches (q : progress V) (accuracy f1_score : pyfloat) : bool :=
  Float.geb (p_f1_score V q) f1_score && Float.geb (p_accuracy V q) accuracy.

(** Python's [==] on both scores of two progress lines. *)
Definition same_scores (p q : progress V) : bool :=
  Float.eqb (p_accuracy V p) (p_accuracy V q)
  && Float.eqb (p_f1_score V p) (p_f1_score V q).

(** The running best after the grid points of the lines [ps], in order. *)
Definition select (b : best V) (ps : list (progress V)) : best V :=
  foldl (fun b p => update_best V b (p_lambda V p) (p_gamma V p)
                      (p_accuracy V p) (p_f1_score V p)) b ps.

End GridVocabulary.

(** ** Concrete inputs used in the examples *)

Module Demo.

(** Five rows, two columns: three of the five cells of column 0 are 999;
    column 1 holds one NaN and one 77. *)
Definition survey : matrix :=
  {| shape0 := 5; shape1 := 2;
     cell r c :=
       match c, r with
       | O, O | O, 1%nat | O, 2%nat => Fin 999
       | O, _ => Fin (inject_Z (Z.of_nat r))
       | _, O => NaN
       | _, 1%nat => Fin 77
       | _, _ => Fin (inject_Z (Z.of_nat r))
       end |}.

(** Four rows, three columns; column 2 is twice column 0. *)
Definition features : matrix :=
  {| shape0 := 4; shape1 := 3;
     cell r c :=
       match c with
       | O => Fin (inject_Z (Z.of_nat r))
       | 1%nat => Fin (inject_Z (Z.of_nat (r mod 2)))
       | _ => Fin (inject_Z (2 * Z.of_nat r))
       end |}.

(** A test matrix of three unrelated columns. *)
Definition features_test : matrix :=
  {| shape0 := 2; shape1 := 3;
     cell r c := Fin (inject_Z (Z.of_nat (r * r + c))) |}.

(** A correlation table on which columns 0 and 2 are perfectly correlated and
    every other pair is uncorrelated, and a stand-in for [np.corrcoef] that
    returns it. *)
Definition table (i j : nat) : pyfloat :=
  if (i =? j)%nat then Fin 1
  else if ((i =? 0)%nat && (j =? 2)%nat) || ((i =? 2)%nat && (j =? 0)%nat)
       then Fin 1 else Fin 0.

Definition corrcoef (X : matrix) : corr_array := Corr2d (shape1 X) table.


(** Two samples with one feature, labelled 1 and 0. *)
Definition samples : matrix :=
  {| shape0 := 2; shape1 := 1;
     cell r c := match r with O => Fin 1 | _ => Fin (-1) end |}.

Definition labels : list Z := [1; 0].

(** A generator without state whose shuffle reverses the array. *)
Definition shuffle (l : list nat) (g : unit) : list nat * unit := (rev l, g).

(** A stand-in for the logistic function, which has no rational values: the
    curve 1/2 + z / (2 (1 + |z|)) has the same limits, the same value 1/2
    at 0 and is increasing, so it is [>= 1/2] exactly when the logistic
    function is. *)
Definition squash (z : pyfloat) : pyfloat :=
  match z with
  | NaN => NaN
  | Inf true => Fin 0
  | Inf false => Fin 1
  | Fin q => Fin (1 / 2 + q / (2 * (1 + Qabs q)))
  end.

(** A stand-in for the training routine: the single weight is the value of
    [lambda_], and the loss is 0. *)
Definition model : model_fn unit Q :=
  fun y_train X_train params g =>
    match params !! "lambda_" with
    | Some v => (Ok ([Fin v], Fin 0), g)
    | None => (Raise (OtherError "lambda_ is required"), g)
    end.

(** A stand-in for a training routine that never fails: every weight is 1
    and the loss is 0, whatever the hyperparameters. *)
Definition ones_model : model_fn unit Q :=
  fun y_train X_train params g =>
    (Ok (replicate (shape1 X_train) (Fin 1), Fin 0), g).

(** The caller's dictionary before the search. *)
Definition params : gmap string Q := {[ "max_iters" := 100%Q ]}.

Definition start : world unit Q :=
  {| np_random := tt; model_params := params; stdout := [] |}.

(** A search over two values of [lambda_] and two of [gamma], with one fold. *)
Definition search : result (option Q * option Q) * world unit Q :=
  hyperparameter_tuning unit shuffle squash Q samples labels model
    [1; 0]%Q [1 # 10; 1 # 5]%Q 1 start.

End Demo.

(** ** Train/test split *)

(** Python's [round] on a float: the nearest integer, a tie going to the even
    one; NaN and the infinities cannot be rounded. *)
Definition py_round (x : pyfloat) : result Z :=
  match x with
  | NaN => Raise ValueError
  | Inf _ => Raise (OtherError "OverflowError")
  | Fin q =>
      let f := Qfloor q in
      match (q - inject_Z f ?= 1 # 2)%Q with
      | Lt => Ok f
      | Gt => Ok (f + 1)
      | Eq => Ok (if Z.even f then f else f + 1)
      end
  end.

(** Where a slice bound [s] falls in an array of length [n]: a negative
    bound counts from the end, and every bound is clamped to the array. *)
Definition slice_bound (s : Z) (n : nat) : nat :=
  if s <? 0 then Z.to_nat (Z.max 0 (Z.of_nat n + s))
  else Nat.min (Z.to_nat s) n.

(** The first magnitude that binary64 rounds to an infinity, halfway between
    the largest double and [2^1024]. *)
Definition overflow_bound : Q := inject_Z (2 ^ 1024 - 2 ^ 970).

(** A float result that leaves the range of binary64 is an infinity (the
    rounding of a result that stays in range is not modelled). *)
Definition overflow (x : pyfloat) : pyfloat :=
  match x with
  | Fin q => if Qle_bool overflow_bound (Qabs q) then Inf (Float.Qneg q) else x
  | _ => x
  end.

(** [n * ratio] for the [int] [n] and the [float] [ratio]: the integer is
    first converted to a float, which raises OverflowError when it is out of
    range. *)
Definition int_times_float (n : nat) (ratio : pyfloat) : result pyfloat :=
  if Qle_bool overflow_bound (inject_Z (Z.of_nat n))
  then Raise (OtherError "OverflowError")
  else Ok (overflow (Float.mul (Float.of_nat n) ratio)).

Section Splitting.
(** The state of numpy's global generator: [np_random_seed seed] is the state
    that [np.random.seed] installs for a seed it accepts, and
    [np.random.permutation] draws from the state. *)
Variable RNG : Type.
Variable np_random_seed : Z -> RNG.
Variable np_random_permutation : nat -> RNG -> list nat * RNG.

(** [np.random.seed(seed)] for an integer: ValueError unless the seed is
    between 0 and [2^32 - 1], and then the generator is left as it was. *)
Definition seed_generator (seed : Z) : M RNG unit :=
  fun g => if (0 <=? seed) && (seed <? 2 ^ 32)
           then (Ok tt, np_random_seed seed)
           else (Raise ValueError, g).

(** [split_data], lines 30-64 (the default of [seed] is 1), for a sample
    matrix [x] and a label array [y]. *)
Definition split_data (x : matrix) (y : list Z) (ratio : pyfloat) (seed : Z)
    : M RNG (matrix * matrix * list Z * list Z) :=
  let* _ := seed_generator seed in
  let* (x_shuffle, y_shuffle) :=
    unison_shuffled_copies RNG np_random_permutation x y in
  let* product := lift_result (int_times_float (shape0 x_shuffle) ratio) in
  let* split_pos := lift_result (py_round product) in
  let x_pos := slice_bound split_pos (shape0 x_shuffle) in
  let y_pos := slice_bound split_pos (length y_shuffle) in
  ret (select_rows x_shuffle (seq 0 x_pos),
       select_rows x_shuffle (seq x_pos (shape0 x_shuffle - x_pos)),
       take y_pos y_shuffle,
       drop y_pos y_shuffle).

End Splitting.

(** ** Cleaning *)

(** [data[:, 1:]] *)
Definition drop_first_column (data : matrix) : matrix :=
  {| shape0 := shape0 data;
     shape1 := shape1 data - 1;
     cell r c := cell data r (c + 1) |}.

(** [data[np.isnan(data)] = fill]: every NaN cell is overwritten, the value
    written into column [c] being [fill c]. *)
Definition fill_nan (data : matrix) (fill : nat -> pyfloat) : matrix :=
  {| shape0 := shape0 data;
     shape1 := shape1 data;
     cell r c := if Float.isnan (cell data r c) then fill c else cell data r c |}.

(** [np.hstack((np.ones((n, 1)), data))] *)
Definition prepend_ones (data : matrix) : matrix :=
  {| shape0 := shape0 data;
     shape1 := 1 + shape1 data;
     cell r c := match c with O => Fin 1 | S c' => cell data r c' end |}.

(** [np.nanmean] of a column: the mean of the entries that are not NaN. *)
Definition np_nanmean (col : list pyfloat) : pyfloat :=
  Float.mean (filter (fun v => Float.isnan v = false) col).

(** The literal [10e-300]. *)
Definition epsilon : Q := 1 # 10 ^ 299.

Section Cleaning.
(** [np.std] and [np.nanmedian] of a column, numpy routines. *)
Variable np_std : list pyfloat -> pyfloat.
Variable np_nanmedian : list pyfloat -> pyfloat.

(** [normalize], lines 81-95. *)
Definition normalize (data : matrix) : matrix :=
  {| shape0 := shape0 data;
     shape1 := shape1 data;
     cell r c :=
       let mean := Float.mean (column data c) in
       let std := np_std (column data c) in
       Float.div (Float.sub (cell data r c) mean) (Float.add std (Fin epsilon)) |}.

(** [clean_X_0], lines 226-242. *)
Definition clean_X_0 (data : matrix) : matrix :=
  let data_copied := drop_first_column data in
  let data_copied := fill_nan data_copied (fun _ => Float.zero) in
  let data_copied := normalize data_copied in
  prepend_ones data_copied.

(** [clean_X_mean], lines 245-265. *)
Definition clean_X_mean (data : matrix) : matrix :=
  let data_copied := drop_first_column data in
  let column_means c := np_nanmean (column data_copied c) in
  let data_copied := fill_nan data_copied column_means in
  let data_copied := normalize data_copied in
  prepend_ones data_copied.

(** [clean_X_median], lines 268-286. *)
Definition clean_X_median (data : matrix) : matrix :=
  let data_copied := drop_first_column data in
  let column_medians c := np_nanmedian (column data_copied c) in
  let data_copied := fill_nan data_copied column_medians in
  normalize data_copied.

End Cleaning.

(** [clean_Y], lines 289-303: column 1 of the array, with every -1 turned
    into 0. Indexing column 1 raises IndexError on an array with fewer than
    two columns. *)
Definition clean_Y (y_data : matrix) : result (list pyfloat) :=
  if (shape1 y_data <=? 1)%nat then Raise IndexError
  else Ok (map (fun v => if Float.eqb v (Float.of_Z (-1)) then Float.zero else v)
               (column y_data 1)).

(** ** More concrete inputs *)

Module Demo2.

(** A generator without state: every seed gives the same state, and the
    permutation of [n] positions is their reversal. *)
Definition seed (s : Z) : unit := tt.
Definition permutation (n : nat) (g : unit) : list nat * unit := (rev (seq 0 n), g).

(** Three samples with their ids and raw labels -1, 1, -1. *)
Definition raw_labels : matrix :=
  {| shape0 := 3; shape1 := 2;
     cell r c := match c, r with
                 | O, _ => Fin (inject_Z (Z.of_nat r))
                 | _, 1%nat => Fin 1
                 | _, _ => Fin (-1)
                 end |}.

(** Two samples with an id, a feature that is never observed and a feature
    with one missing value. *)
Definition blank : matrix :=
  {| shape0 := 2; shape1 := 3;
     cell r c := match c, r with
                 | O, _ => Fin (inject_Z (Z.of_nat r))
                 | 1%nat, _ => NaN
                 | _, O => Fin 4
                 | _, _ => NaN
                 end |}.

(** A stand-in for [np.std]: always 1. *)
Definition std (col : list pyfloat) : pyfloat := Fin 1.

End Demo2.

(** * Metric engine *)

Lemma np_sum_cons (b : bool) (l : list bool) :
  np_sum (b :: l) = Z.b2z b + np_sum l.
Proof.
  unfold np_sum. destruct b.
  - rewrite filter_cons_True by done. cbn [length Z.b2z]. lia.
  - rewrite filter_cons_False by done. cbn [Z.b2z]. lia.
Qed.

Lemma np_sum_nonneg (l : list bool) : 0 <= np_sum l.
Proof. unfold np_sum. lia. Qed.

Lemma np_sum_map_cons {A} (f : A -> bool) (x : A) (l : list A) :
  np_sum (map f (x :: l)) = Z.b2z (f x) + np_sum (map f l).
Proof. cbn [map]. apply np_sum_cons. Qed.

(** The vectorised counts of [compute_f1] are the confusion counts. *)
Lemma np_count_confusion (t p : Z) (y_true y_pred : list Z) :
  np_sum (np_logical_and (np_eq_scalar y_pred p) (np_eq_scalar y_true t))
  = confusion_count t p y_true y_pred.
Proof.
  unfold confusion_count, np_logical_and, np_eq_scalar.
  revert y_pred. induction y_true as [|yt y_true IH]; intros [|yp y_pred]; try done.
  cbn [map zip_with]. rewrite np_sum_cons, IH.
  destruct ((yp =? p) && (yt =? t)) eqn:E.
  - rewrite filter_cons_True; [cbn [length Z.b2z]; lia|].
    cbn. apply andb_prop in E as [-> ->]. done.
  - rewrite filter_cons_False; [cbn [Z.b2z]; lia|].
    cbn. rewrite andb_comm, E. done.
Qed.

Lemma Qzero_inject_Z (z : Z) : z <> 0 -> Float.Qzero (inject_Z z) = false.
Proof.
  intros H. unfold Float.Qzero. apply not_true_is_false. intros E.
  apply Qeq_bool_iff in E. unfold Qeq in E. cbn in E. lia.
Qed.

Lemma compute_f1_mismatch (y_true y_pred : list Z) :
  length y_true <> length y_pred ->
  compute_f1 y_true y_pred
  = Raise (AssertionError "Mismatched length between y_true and y_pred.").
Proof.
  intros H. unfold compute_f1.
  destruct (Nat.eqb_spec (length y_true) (length y_pred)); [done|]. reflexivity.
Qed.

Lemma compute_f1_value (y_true y_pred : list Z) :
  length y_true = length y_pred ->
  compute_f1 y_true y_pred
  = Ok (Fin (f1_policy (confusion_count 1 1 y_true y_pred)
                       (confusion_count 0 1 y_true y_pred)
                       (confusion_count 1 0 y_true y_pred))).
Proof.
  intros H. unfold compute_f1. rewrite H, Nat.eqb_refl. cbn [negb].
  rewrite !np_count_confusion. unfold f1_policy.
  set (TP := confusion_count 1 1 y_true y_pred).
  set (FP := confusion_count 0 1 y_true y_pred).
  set (FN := confusion_count 1 0 y_true y_pred).
  f_equal.
  assert (Hp : (if negb (TP + FP =? 0)
                then Float.div (Float.of_Z TP) (Float.of_Z (TP + FP))
                else Float.zero)
               = Fin (if TP + FP =? 0 then 0%Q
                      else (inject_Z TP / inject_Z (TP + FP))%Q)).
  { destruct (Z.eqb_spec (TP + FP) 0) as [|Hne]; [done|].
    cbn [negb]. unfold Float.div, Float.of_Z. by rewrite Qzero_inject_Z. }
  assert (Hr : (if negb (TP + FN =? 0)
                then Float.div (Float.of_Z TP) (Float.of_Z (TP + FN))
                else Float.zero)
               = Fin (if TP + FN =? 0 then 0%Q
                      else (inject_Z TP / inject_Z (TP + FN))%Q)).
  { destruct (Z.eqb_spec (TP + FN) 0) as [|Hne]; [done|].
    cbn [negb]. unfold Float.div, Float.of_Z. by rewrite Qzero_inject_Z. }
  rewrite Hp, Hr. clear Hp Hr.
  set (p := if TP + FP =? 0 then _ else _).
  set (r := if TP + FN =? 0 then _ else _).
  unfold Float.neb, Float.add, Float.eqb, Float.zero.
  destruct (Qeq_bool (p + r) 0) eqn:E; cbn [negb]; [done|].
  unfold Float.mul, Float.of_Z, Float.div, Float.Qzero. by rewrite E.
Qed.

Lemma confusion_count_zero_true (p : Z) (y_true y_pred : list Z) :
  Forall (fun t => t = 0) y_true -> confusion_count 1 p y_true y_pred = 0.
Proof.
  intros H. unfold confusion_count.
  replace (filter _ (zip y_true y_pred)) with (@nil (Z * Z)); [done|].
  symmetry. revert y_pred.
  induction H as [|t y_true -> _ IH]; intros [|q y_pred]; try done.
  cbn [zip zip_with]. rewrite filter_cons_False by (cbn; done). apply IH.
Qed.

Lemma confusion_count_zero_pred (t : Z) (y_true y_pred : list Z) :
  Forall (fun p => p = 0) y_pred -> confusion_count t 1 y_true y_pred = 0.
Proof.
  intros H. unfold confusion_count.
  replace (filter _ (zip y_true y_pred)) with (@nil (Z * Z)); [done|].
  symmetry. revert y_true.
  induction H as [|q y_pred -> _ IH]; intros [|t' y_true]; try done.
  cbn [zip zip_with]. rewrite filter_cons_False; [apply IH|].
  cbn. rewrite andb_false_r. done.
Qed.

(** C4. For label sequences of equal length [compute_f1] raises nothing and
    returns a finite number, the F1 score under the zero-denominator policy:
    precision is 0 when TP+FP = 0, recall is 0 when TP+FN = 0, the score is 0
    when precision+recall = 0 and 2*precision*recall/(precision+recall)
    otherwise; all-zero labels and predictions give exactly 0. *)
Theorem compute_f1_returns_number (y_true y_pred : list Z) :
  length y_true = length y_pred ->
  let TP := confusion_count 1 1 y_true y_pred in
  let FP := confusion_count 0 1 y_true y_pred in
  let FN := confusion_count 1 0 y_true y_pred in
  let precision := if TP + FP =? 0 then 0%Q else (inject_Z TP / inject_Z (TP + FP))%Q in
  let recall := if TP + FN =? 0 then 0%Q else (inject_Z TP / inject_Z (TP + FN))%Q in
  compute_f1 y_true y_pred
  = Ok (Fin (if Qeq_bool (precision + recall) 0 then 0%Q
             else (2 * (precision * recall) / (precision + recall))%Q))
  /\ (Forall (fun t => t = 0) y_true -> Forall (fun p => p = 0) y_pred ->
      compute_f1 y_true y_pred = Ok (Fin 0)).
Proof.
  intros H TP FP FN precision recall. split.
  - apply (compute_f1_value _ _ H).
  - intros Ht Hp. rewrite (compute_f1_value _ _ H).
    rewrite !confusion_count_zero_true by done.
    rewrite confusion_count_zero_pred by done. reflexivity.
Qed.

Lemma compute_f1_returns_number_witness :
  length [1; 1; 0; 0] = length [1; 0; 0; 1]
  /\ compute_f1 [1; 1; 0; 0] [1; 0; 0; 1] = Ok (Fin (2 * ((1 / 2) * (1 / 2)) / (1 / 2 + 1 / 2))).
Proof.
  split; [reflexivity|].
  exact (proj1 (compute_f1_returns_number [1; 1; 0; 0] [1; 0; 0; 1] eq_refl)).
Defined.

Lemma calculate_metrics_truncates (y_true y_pred : list Z) :
  calculate_metrics y_true y_pred
  = calculate_metrics (take (length y_pred) y_true) (take (length y_true) y_pred).
Proof.
  unfold calculate_metrics. f_equal.
  revert y_pred. induction y_true as [|t y_true IH]; intros [|p y_pred]; try done.
  cbn. f_equal. apply IH.
Qed.

(** C3. On the labels [1, 1, 0] and the single prediction [1],
    [compute_f1] raises its length-mismatch assertion, while
    [calculate_metrics] raises nothing and returns the counts of the first
    pair alone, those of the inputs cut to the shorter length. *)
Theorem calculate_metrics_accepts_mismatch :
  compute_f1 [1; 1; 0] [1]
  = Raise (AssertionError "Mismatched length between y_true and y_pred.")
  /\ calculate_metrics [1; 1; 0] [1] = (1, 0, 0, 0)
  /\ calculate_metrics [1; 1; 0] [1] = calculate_metrics [1] [1].
Proof. repeat split. Qed.

(** * Feature selector: sentinel and NaN density *)

Lemma foldl_append_filter (p : nat -> bool) (l acc : list nat) :
  foldl (fun remove j => if p j then remove ++ [j] else remove) acc l
  = acc ++ filter (fun j => p j = true) l.
Proof.
  revert acc. induction l as [|j l IH]; intros acc; cbn [foldl].
  - by rewrite app_nil_r.
  - rewrite IH. destruct (p j) eqn:E.
    + rewrite filter_cons_True by done. by rewrite <- app_assoc.
    + rewrite filter_cons_False by congruence. done.
Qed.

Lemma columns_to_remove_filter (x_data : matrix) (t : pyfloat) :
  columns_to_remove x_data t
  = filter (fun j => column_flagged x_data t j = true) (seq 0 (shape1 x_data)).
Proof. unfold columns_to_remove. by rewrite foldl_append_filter. Qed.

Lemma filter_seq_sorted (P : nat -> Prop) `{forall j, Decision (P j)} (a n : nat) :
  StronglySorted lt (filter P (seq a n)).
Proof.
  revert a. induction n as [|n IH]; intros a; cbn [seq].
  - constructor.
  - assert (Hall : Forall (lt a) (filter P (seq (S a) n))).
    { apply Forall_forall. intros x Hx.
      apply list_elem_of_filter in Hx as [_ Hx]. apply elem_of_seq in Hx. lia. }
    destruct (decide (P a)).
    + rewrite filter_cons_True by done. by constructor.
    + rewrite filter_cons_False by done. apply IH.
Qed.

Lemma Qeq_bool_codes (q : Q) (a b : Z) :
  a <> b -> Qeq_bool q (inject_Z a) = true -> Qeq_bool q (inject_Z b) = false.
Proof.
  intros Hab Ha. apply not_true_is_false. intros Hb.
  apply Qeq_bool_iff in Ha, Hb. rewrite Ha in Hb.
  unfold Qeq in Hb. cbn in Hb. lia.
Qed.

(** Once [q] is known to equal the code [a], every other test is false. *)
Local Ltac settle q a :=
  repeat match goal with
  | |- context [Qeq_bool q (inject_Z ?b)] =>
      lazymatch b with
      | a => fail
      | _ => rewrite (Qeq_bool_codes q a b) by (assumption || discriminate)
      end
  end;
  cbn [Z.b2z orb]; lia.

(** A cell adds one to exactly one of the nine counters when it is missing and
    to none otherwise. *)
Lemma missing_counted_once (v : pyfloat) :
  Z.b2z (Float.isnan v)
  + (Z.b2z (Float.eqb v (Float.of_Z 77)) + Z.b2z (Float.eqb v (Float.of_Z 99)))
  + (Z.b2z (Float.eqb v (Float.of_Z 777)) + Z.b2z (Float.eqb v (Float.of_Z 999)))
  + (Z.b2z (Float.eqb v (Float.of_Z 7777)) + Z.b2z (Float.eqb v (Float.of_Z 9999)))
  + (Z.b2z (Float.eqb v (Float.of_Z 777777)) + Z.b2z (Float.eqb v (Float.of_Z 999999)))
  = Z.b2z (is_missing v).
Proof.
  destruct v as [| s | q]; [reflexivity | reflexivity |].
  unfold is_missing, sentinels, existsb, Float.isnan, Float.eqb, Float.of_Z.
  destruct (Qeq_bool q (inject_Z 77)) eqn:E1; [settle q 77|].
  destruct (Qeq_bool q (inject_Z 99)) eqn:E2; [settle q 99|].
  destruct (Qeq_bool q (inject_Z 777)) eqn:E3; [settle q 777|].
  destruct (Qeq_bool q (inject_Z 999)) eqn:E4; [settle q 999|].
  destruct (Qeq_bool q (inject_Z 7777)) eqn:E5; [settle q 7777|].
  destruct (Qeq_bool q (inject_Z 9999)) eqn:E6; [settle q 9999|].
  destruct (Qeq_bool q (inject_Z 777777)) eqn:E7; [settle q 777777|].
  destruct (Qeq_bool q (inject_Z 999999)) eqn:E8; [settle q 999999|].
  reflexivity.
Qed.

Lemma counters_sum_missing (col : list pyfloat) :
  np_sum (map Float.isnan col)
  + (count_eq col 77 + count_eq col 99)
  + (count_eq col 777 + count_eq col 999)
  + (count_eq col 7777 + count_eq col 9999)
  + (count_eq col 777777 + count_eq col 999999)
  = Z.of_nat (length (filter (fun v => is_missing v = true) col)).
Proof.
  unfold count_eq. induction col as [|v col IH]; [reflexivity|].
  rewrite !np_sum_map_cons.
  pose proof (missing_counted_once v) as Hv.
  destruct (is_missing v) eqn:E.
  - rewrite filter_cons_True by done. cbn [length Z.b2z] in *. lia.
  - rewrite filter_cons_False by congruence. cbn [Z.b2z] in *. lia.
Qed.

Lemma column_flagged_fraction (x_data : matrix) (t : pyfloat) (j : nat) :
  column_flagged x_data t j
  = Float.geb (Float.div (Float.of_nat (missing_count x_data j))
                         (Float.of_nat (shape0 x_data))) t.
Proof.
  unfold column_flagged. cbv zeta. rewrite counters_sum_missing. reflexivity.
Qed.

(** For any threshold, NaN and infinities included, and any row count. *)
Lemma elem_of_columns_to_remove (x_data : matrix) (t : pyfloat) (j : nat) :
  j ∈ columns_to_remove x_data t
  <-> (j < shape1 x_data)%nat
      /\ Float.geb (Float.div (Float.of_nat (missing_count x_data j))
                              (Float.of_nat (shape0 x_data))) t = true.
Proof.
  rewrite columns_to_remove_filter, list_elem_of_filter, elem_of_seq.
  rewrite column_flagged_fraction. intuition lia.
Qed.

(** C7. For a matrix with at least one row and a finite threshold [t],
    [columns_to_remove] lists column [j] exactly when the share of its cells
    that are NaN or a sentinel code is at least [t] (a share equal to [t] is
    listed, a smaller one is not), and the list is strictly ascending. *)
Theorem columns_to_remove_spec (x_data : matrix) (t : Q) :
  (0 < shape0 x_data)%nat ->
  (forall j, j ∈ columns_to_remove x_data (Fin t)
             <-> (j < shape1 x_data)%nat /\ (t <= missing_fraction x_data j)%Q)
  /\ StronglySorted lt (columns_to_remove x_data (Fin t)).
Proof.
  intros Hrows. split.
  - intros j. rewrite elem_of_columns_to_remove.
    unfold Float.div, Float.of_nat, Float.of_Z, missing_fraction.
    rewrite Qzero_inject_Z by lia. cbn [Float.geb].
    by rewrite Qle_bool_iff.
  - rewrite columns_to_remove_filter. apply filter_seq_sorted.
Qed.

Lemma columns_to_remove_spec_witness :
  (0 < shape0 Demo.survey)%nat
  /\ (0%nat ∈ columns_to_remove Demo.survey (Fin (3 # 5))
      <-> (0 < shape1 Demo.survey)%nat
          /\ (3 # 5 <= missing_fraction Demo.survey 0)%Q).
Proof.
  assert (H : (0 < shape0 Demo.survey)%nat) by (cbn; lia).
  split; [exact H|].
  exact (proj1 (columns_to_remove_spec Demo.survey (3 # 5) H) 0%nat).
Defined.

(** * Feature selector: pairwise correlation *)

Section Marking.
Variable c : nat -> nat -> pyfloat.
Variable threshold : pyfloat.

Lemma mark_length (i j : nat) (d : list bool) : length (mark c threshold i d j) = length d.
Proof. unfold mark. destruct (Float.gtb _ _); [apply length_insert | done]. Qed.

Lemma mark_lookup (i j j' : nat) (d : list bool) :
  mark c threshold i d j !! j' = Some true
  <-> d !! j' = Some true
      \/ (j' = j /\ (j' < length d)%nat /\ correlated c threshold i j').
Proof.
  unfold mark, correlated. destruct (Float.gtb (Float.abs (c i j)) threshold) eqn:E.
  - rewrite list_lookup_insert_Some. split.
    + intros [(-> & _ & Hlt) | [_ H]]; [right | left]; done.
    + intros [H | (-> & Hlt & _)].
      * destruct (decide (j = j')) as [->|]; [left | right]; [|done].
        repeat split. by eapply lookup_lt_Some.
      * left. done.
  - split; [by left|]. intros [H | (-> & _ & H)]; [done | congruence].
Qed.

Lemma marks_length (i : nat) (js : list nat) (d : list bool) :
  length (foldl (mark c threshold i) d js) = length d.
Proof.
  revert d. induction js as [|j js IH]; intros d; [done|].
  cbn [foldl]. by rewrite IH, mark_length.
Qed.

Lemma marks_lookup (i : nat) (js : list nat) (d : list bool) (j' : nat) :
  foldl (mark c threshold i) d js !! j' = Some true
  <-> d !! j' = Some true
      \/ (j' ∈ js /\ (j' < length d)%nat /\ correlated c threshold i j').
Proof.
  revert d. induction js as [|j js IH]; intros d; cbn [foldl].
  - split; [by left|]. intros [H | (H & _)]; [done | by apply elem_of_nil in H].
  - rewrite IH, mark_lookup, mark_length, elem_of_cons. tauto.
Qed.

Lemma mark_after_length (n i : nat) (d : list bool) :
  length (mark_after c threshold n i d) = length d.
Proof. apply marks_length. Qed.

Lemma mark_after_lookup (n i j : nat) (d : list bool) :
  mark_after c threshold n i d !! j = Some true
  <-> d !! j = Some true
      \/ ((i < j < n)%nat /\ (j < length d)%nat /\ correlated c threshold i j).
Proof.
  unfold mark_after. rewrite marks_lookup, elem_of_seq.
  split; (intros [H | (H1 & H2 & H3)]; [by left | right; repeat split; [lia.. | done]]).
Qed.

Lemma mark_rows_length (n : nat) (rows : list nat) (d : list bool) :
  length (foldl (fun d i => mark_after c threshold n i d) d rows) = length d.
Proof.
  revert d. induction rows as [|i rows IH]; intros d; [done|].
  cbn [foldl]. by rewrite IH, mark_after_length.
Qed.

Lemma mark_rows_lookup (n : nat) (rows : list nat) (d : list bool) (j : nat) :
  foldl (fun d i => mark_after c threshold n i d) d rows !! j = Some true
  <-> d !! j = Some true
      \/ exists i, i ∈ rows /\ (i < j < n)%nat /\ (j < length d)%nat
                   /\ correlated c threshold i j.
Proof.
  revert d. induction rows as [|i rows IH]; intros d; cbn [foldl].
  - split; [by left|]. intros [H | (i & H & _)]; [done | by apply elem_of_nil in H].
  - rewrite IH, mark_after_lookup, mark_after_length. split.
    + intros [[H | H] | (i' & Hi' & H)]; [by left | right; exists i | right; exists i'].
      * split; [left | done].
      * split; [by right | done].
    + intros [H | (i' & Hi' & H)]; [by left; left|].
      apply elem_of_cons in Hi' as [-> | Hi']; [left; right; done|].
      right. exists i'. done.
Qed.

Lemma correlation_mask_length (n : nat) :
  length (correlation_mask c threshold n) = n.
Proof. unfold correlation_mask. by rewrite mark_rows_length, length_replicate. Qed.

(** Column [j] is marked exactly when an earlier column is correlated with
    it beyond the threshold. *)
Lemma correlation_mask_lookup (n j : nat) :
  correlation_mask c threshold n !! j = Some true
  <-> (j < n)%nat /\ exists i, (i < j)%nat /\ correlated c threshold i j.
Proof.
  unfold correlation_mask. rewrite mark_rows_lookup, length_replicate. split.
  - intros [H | (i & Hi & Hij & Hj & H)].
    + apply lookup_replicate in H as [? _]. done.
    + split; [lia|]. exists i. split; [lia | done].
  - intros (Hj & i & Hij & H). right. exists i.
    rewrite elem_of_seq. repeat split; [lia.. | done].
Qed.

End Marking.

Lemma flatnonzero_negation (drop_cols : list bool) :
  np_flatnonzero (map negb drop_cols) = kept_columns drop_cols.
Proof.
  unfold np_flatnonzero, kept_columns. rewrite length_map.
  apply list_filter_iff. intros j.
  change (map negb drop_cols) with (negb <$> drop_cols).
  rewrite list_lookup_fmap.
  destruct (drop_cols !! j) as [[|]|]; cbn; naive_solver.
Qed.

Lemma bool_index_negation (X : matrix) (drop_cols : list bool) :
  length drop_cols = shape1 X ->
  bool_index_columns X (map negb drop_cols)
  = Ok (select_columns X (kept_columns drop_cols)).
Proof.
  intros H. unfold bool_index_columns.
  rewrite length_map, H, Nat.eqb_refl. cbn [negb].
  by rewrite flatnonzero_negation.
Qed.


Section Filter.
Variable np_corrcoef : matrix -> corr_array.

Lemma drop_highly_correlated_features_run
    (data : matrix) (threshold : pyfloat) (c : nat -> nat -> pyfloat) :
  np_corrcoef data = Corr2d (shape1 data) c ->
  let drop_cols := correlation_mask c threshold (shape1 data) in
  drop_highly_correlated_features np_corrcoef data threshold
  = Ok (select_columns data (kept_columns drop_cols), drop_cols).
Proof.
  intros H drop_cols. unfold drop_highly_correlated_features. rewrite H.
  fold drop_cols. rewrite bool_index_negation; [done|].
  apply correlation_mask_length.
Qed.

(** A returned mask has one entry per column of the input, and the reduced
    matrix is the input restricted to the columns the mask keeps. *)
Lemma drop_highly_correlated_features_Ok
    (data : matrix) (threshold : pyfloat) (reduced : matrix) (drop_cols : list bool) :
  drop_highly_correlated_features np_corrcoef data threshold = Ok (reduced, drop_cols) ->
  length drop_cols = shape1 data
  /\ reduced = select_columns data (kept_columns drop_cols).
Proof.
  unfold drop_highly_correlated_features.
  destruct (np_corrcoef data) as [v | n c]; [done|].
  unfold bool_index_columns. rewrite length_map.
  destruct (Nat.eqb_spec (length (correlation_mask c threshold n)) (shape1 data)) as [E|];
    [|done].
  cbn [negb]. intros [= <- <-]. split; [done|].
  by rewrite flatnonzero_negation.
Qed.

(** C5. When numpy returns the square correlation table [c] of the columns,
    [drop_highly_correlated_features] returns a mask with one entry per
    original column, in which column [j] is marked exactly when some column
    [i < j] has [|c i j| > threshold], and the matrix made of the unmarked
    columns in their original order. *)
Theorem drop_highly_correlated_features_spec
    (data : matrix) (threshold : pyfloat) (c : nat -> nat -> pyfloat) :
  np_corrcoef data = Corr2d (shape1 data) c ->
  exists reduced drop_cols,
    drop_highly_correlated_features np_corrcoef data threshold = Ok (reduced, drop_cols)
    /\ length drop_cols = shape1 data
    /\ (forall j, drop_cols !! j = Some true
                  <-> (j < shape1 data)%nat
                      /\ exists i, (i < j)%nat /\ correlated c threshold i j)
    /\ reduced = select_columns data (kept_columns drop_cols).
Proof.
  intros H. eexists _, _. split; [by apply drop_highly_correlated_features_run|].
  split; [apply correlation_mask_length|].
  split; [intros j; apply correlation_mask_lookup | done].
Qed.



(** C6. The mask returned for a training matrix, applied by
    [drop_test_correlated_features] to a test matrix with the same number of
    columns, raises nothing and leaves exactly the columns the mask keeps, as
    many as the reduced training matrix has; the correlation routine plays no
    part in it. *)
Theorem drop_test_correlated_features_aligned
    (X_train X_test : matrix) (threshold : pyfloat)
    (X_train_reduced : matrix) (drop_cols : list bool) :
  drop_highly_correlated_features np_corrcoef X_train threshold
  = Ok (X_train_reduced, drop_cols) ->
  shape1 X_test = shape1 X_train ->
  exists X_test_reduced,
    drop_test_correlated_features X_test drop_cols = Ok X_test_reduced
    /\ shape1 X_test_reduced = shape1 X_train_reduced
    /\ X_test_reduced = select_columns X_test (kept_columns drop_cols).
Proof.
  intros H Hcols.
  apply drop_highly_correlated_features_Ok in H as [Hlen ->].
  eexists. unfold drop_test_correlated_features.
  rewrite bool_index_negation by congruence. done.
Qed.

End Filter.

Lemma drop_highly_correlated_features_spec_witness :
  Demo.corrcoef Demo.features
  = Corr2d (shape1 Demo.features) Demo.table
  /\ exists reduced drop_cols,
       drop_highly_correlated_features Demo.corrcoef Demo.features (Fin (95 # 100))
       = Ok (reduced, drop_cols)
       /\ length drop_cols = 3%nat.
Proof.
  split; [reflexivity|].
  destruct (drop_highly_correlated_features_spec Demo.corrcoef Demo.features
              (Fin (95 # 100)) _ eq_refl) as (reduced & drop_cols & H1 & H2 & _).
  exists reduced, drop_cols. split; [exact H1 | exact H2].
Defined.



Lemma drop_test_correlated_features_aligned_witness :
  drop_highly_correlated_features Demo.corrcoef Demo.features (Fin (95 # 100))
  = Ok (select_columns Demo.features [0; 1]%nat, [false; false; true])
  /\ shape1 Demo.features_test = shape1 Demo.features
  /\ exists X_test_reduced,
       drop_test_correlated_features Demo.features_test [false; false; true]
       = Ok X_test_reduced
       /\ shape1 X_test_reduced = 2%nat.
Proof.
  assert (H : drop_highly_correlated_features Demo.corrcoef Demo.features (Fin (95 # 100))
              = Ok (select_columns Demo.features [0; 1]%nat, [false; false; true]))
    by reflexivity.
  split; [exact H|]. split; [reflexivity|].
  destruct (drop_test_correlated_features_aligned Demo.corrcoef Demo.features
              Demo.features_test (Fin (95 # 100)) _ _ H eq_refl)
    as (t & H1 & H2 & _).
  exists t. split; [exact H1 | exact H2].
Defined.

(** * Fold partitioner *)

Section Folds.
Local Open Scope nat_scope.

Lemma seq_sorted (a n : nat) : Sorted Nat.le (seq a n).
Proof.
  revert a. induction n as [|n IH]; intros a; cbn [seq]; constructor; [apply IH|].
  destruct n; cbn [seq]; constructor. lia.
Qed.

(** [np.unique] of a shuffled index range is the range itself. *)
Lemma np_unique_shuffled (N : nat) (indices : list nat) :
  indices ≡ₚ seq 0 N -> np_unique indices = seq 0 N.
Proof.
  intros Hperm. unfold np_unique.
  apply (Sorted_unique Nat.le).
  - apply Sorted_merge_sort. intros x y. unfold Nat.le. lia.
  - apply seq_sorted.
  - rewrite merge_sort_Permutation.
    apply NoDup_Permutation; [apply NoDup_remove_dups | apply NoDup_seq |].
    intros x. by rewrite elem_of_remove_dups, Hperm.
Qed.

Lemma elem_of_slice {A} (lo hi : nat) (l : list A) (x : A) :
  x ∈ slice lo hi l <-> exists p, lo <= p < hi /\ l !! p = Some x.
Proof.
  unfold slice. rewrite elem_of_take. split.
  - intros (i & Hi & Hlt). rewrite lookup_drop in Hi.
    exists (lo + i). split; [lia | done].
  - intros (p & Hp & Hx). exists (p - lo). rewrite lookup_drop.
    replace (lo + (p - lo)) with p by lia. split; [done | lia].
Qed.

Lemma slice_fold {A} (fold_size i : nat) (l : list A) :
  slice (i * fold_size) ((i + 1) * fold_size) l
  = take fold_size (drop (i * fold_size) l).
Proof. unfold slice. f_equal. lia. Qed.

(** The first [k] test folds, one after the other, are the first
    [k * fold_size] shuffled indices. *)
Lemma concat_test_folds {A} (fold_size k : nat) (l : list A) :
  concat (map (fun i => slice (i * fold_size) ((i + 1) * fold_size) l) (seq 0 k))
  = take (k * fold_size) l.
Proof.
  induction k as [|k IH]; [done|].
  rewrite seq_S, map_app, concat_app, IH. cbn [map concat plus].
  rewrite app_nil_r, slice_fold, take_take_drop. f_equal. lia.
Qed.

Lemma fold_size_fits (N k : nat) : k * (N / k) <= N.
Proof.
  destruct k as [|k]; [cbn; lia|]. apply Nat.Div0.mul_div_le.
Qed.

Lemma fold_split_test (indices : list nat) (fold_size i : nat) :
  (fold_split indices fold_size i).2
  = slice (i * fold_size) ((i + 1) * fold_size) indices.
Proof. reflexivity. Qed.

Lemma fold_split_train (N : nat) (indices : list nat) (fold_size i : nat) :
  indices ≡ₚ seq 0 N ->
  (fold_split indices fold_size i).1
  = filter (fun x => (x ∉ (fold_split indices fold_size i).2)) (seq 0 N).
Proof.
  intros Hperm. unfold fold_split. cbn [fst snd]. unfold np_setdiff1d.
  by rewrite (np_unique_shuffled N).
Qed.

(** C2. For a shuffled index range of [N] samples and [1 <= k <= N] folds of
    size [N / k]: fold [i] tests the slice [i*size, (i+1)*size) of the
    shuffled indices and trains on the ascending complement of that slice in
    [0, N), which shares no index with it; distinct folds test disjoint
    indices; the test folds together hold [k * (N / k)] distinct indices; and
    the last [N mod k] shuffled indices are tested by no fold and belong to
    every training set. *)
Theorem fold_partition (N k : nat) (indices : list nat) :
  indices ≡ₚ seq 0 N ->
  1 <= k <= N ->
  let fold_size := N / k in
  let train i := (fold_split indices fold_size i).1 in
  let test i := (fold_split indices fold_size i).2 in
  (forall i, i < k ->
     test i = slice (i * fold_size) ((i + 1) * fold_size) indices
     /\ length (test i) = fold_size
     /\ train i = filter (fun x => (x ∉ test i)) (seq 0 N)
     /\ StronglySorted lt (train i)
     /\ forall x, x ∈ test i -> x ∉ train i)
  /\ (forall i j x, i < k -> j < k -> i <> j -> x ∈ test i -> (x ∉ test j))
  /\ NoDup (concat (map test (seq 0 k)))
  /\ length (concat (map test (seq 0 k))) = k * fold_size
  /\ length (drop (k * fold_size) indices) = N mod k
  /\ (forall x, x ∈ drop (k * fold_size) indices ->
        forall i, i < k -> (x ∉ test i) /\ (x ∈ train i)).
Proof.
  intros Hperm Hk fold_size train test.
  assert (Hlen : length indices = N).
  { by rewrite Hperm, length_seq. }
  assert (Hnodup : NoDup indices).
  { rewrite Hperm. apply NoDup_seq. }
  assert (Hfit : k * fold_size <= N) by apply fold_size_fits.
  assert (Htrain : forall i, train i = filter (fun x => (x ∉ test i)) (seq 0 N)).
  { intros i. by apply fold_split_train. }
  assert (Hdisj : forall i j x, i < k -> j < k -> i <> j -> x ∈ test i -> x ∉ test j).
  { intros i j x Hi Hj Hij Hxi Hxj. unfold test in Hxi, Hxj.
    rewrite fold_split_test in Hxi, Hxj.
    apply elem_of_slice in Hxi as (p & Hp & Hxp).
    apply elem_of_slice in Hxj as (q & Hq & Hxq).
    assert (p = q) by (eapply NoDup_lookup; eauto). subst q.
    assert (i < j \/ j < i) as [Hlt | Hlt] by lia; nia. }
  split; [|split; [exact Hdisj|]].
  - intros i Hi. split; [reflexivity|]. split; [|split; [apply Htrain|split]].
    + unfold test. rewrite fold_split_test, slice_fold, length_take, length_drop. nia.
    + rewrite Htrain. apply filter_seq_sorted.
    + intros x Hx. rewrite Htrain, list_elem_of_filter. tauto.
  - change (map test (seq 0 k))
      with (map (fun i => slice (i * fold_size) ((i + 1) * fold_size) indices) (seq 0 k)).
    rewrite concat_test_folds.
    split; [|split; [|split]].
    + eapply sublist_NoDup; [done | apply sublist_take].
    + rewrite length_take. lia.
    + rewrite length_drop, Hlen. unfold fold_size.
      pose proof (Nat.div_mod_eq N k). lia.
    + intros x Hx i Hi.
      apply list_elem_of_lookup in Hx as (q & Hq). rewrite lookup_drop in Hq.
      assert (Hnot : x ∉ test i).
      { unfold test. rewrite fold_split_test. intros Hin.
        apply elem_of_slice in Hin as (p & Hp & Hxp).
        assert (p = k * fold_size + q) by (eapply NoDup_lookup; eauto). nia. }
      split; [done|]. rewrite Htrain, list_elem_of_filter. split; [done|].
      rewrite <- Hperm. apply list_elem_of_lookup. eauto.
Qed.

Lemma fold_partition_witness :
  [3; 1; 4; 0; 2] ≡ₚ seq 0 5
  /\ 1 <= 2 <= 5
  /\ (fold_split [3; 1; 4; 0; 2] (5 / 2) 1).1 = [1; 2; 3]
  /\ length (drop (2 * (5 / 2)) [3; 1; 4; 0; 2]) = 5 mod 2.
Proof.
  assert (Hperm : [3; 1; 4; 0; 2] ≡ₚ seq 0 5).
  { apply NoDup_Permutation; [| apply NoDup_seq |].
    { repeat (apply NoDup_cons; split;
                [rewrite ?elem_of_cons, elem_of_nil; lia|]).
      apply NoDup_nil_2. }
    intros x. rewrite elem_of_seq, !elem_of_cons, elem_of_nil. lia. }
  assert (Hk : 1 <= 2 <= 5) by lia.
  split; [exact Hperm|]. split; [exact Hk|].
  destruct (fold_partition 5 2 [3; 1; 4; 0; 2] Hperm Hk) as (Hfold & _ & _ & _ & Hrest & _).
  split; [|exact Hrest].
  destruct (Hfold 1) as (_ & _ & Htrain & _); [lia|].
  rewrite Htrain. reflexivity.
Defined.

End Folds.

(** * Loops in the state-and-exception monad *)

(** Invariant rule for a loop that runs to its end: [I done acc s] relates
    the items already processed to the accumulator and the state. *)
Lemma for_each_invariant {S A B} (I : list B -> A -> S -> Prop)
    (body : A -> B -> M S A) (xs : list B) (a : A) (s : S) (a' : A) (s' : S) :
  I [] a s ->
  (forall done x a s a' s',
     I done a s -> body a x s = (Ok a', s') -> I (done ++ [x]) a' s') ->
  for_each xs body a s = (Ok a', s') ->
  I xs a' s'.
Proof.
  revert I a s. induction xs as [|x xs IH]; intros I a s H0 Hstep Hrun.
  - cbn in Hrun. injection Hrun as <- <-. exact H0.
  - cbn [for_each] in Hrun. unfold bind in Hrun.
    destruct (body a x s) as [[a1 | e] s1] eqn:E; [|done].
    apply (IH (fun done => I (x :: done)) a1 s1).
    + apply (Hstep [] x a s a1 s1 H0 E).
    + intros done x' b t b' t' Hb Hx'. apply (Hstep (x :: done) x' b t b' t' Hb Hx').
    + exact Hrun.
Qed.

(** * Grid search *)

Section Tuning.
Context {V : Type}.

Lemma set_point_absorb (m : gmap string V) (a b c d : V) :
  set_point (set_point m a b) c d = set_point m c d.
Proof.
  unfold set_point.
  rewrite (insert_insert_ne _ "lambda_" "gamma") by done.
  by rewrite !insert_insert_eq.
Qed.

Lemma set_points_absorb (l : list (V * V)) (m : gmap string V) (c d : V) :
  set_point (foldl (fun m p => set_point m p.1 p.2) m l) c d = set_point m c d.
Proof.
  revert m. induction l as [|[a b] l IH]; intros m; [done|].
  cbn [foldl fst snd]. by rewrite IH, set_point_absorb.
Qed.

Lemma grid_snoc (lambdas gammas : list V) (gamma : V) :
  grid lambdas (gammas ++ [gamma])
  = grid lambdas gammas ++ map (fun lambda_ => (lambda_, gamma)) lambdas.
Proof. unfold grid. rewrite flat_map_app. cbn [flat_map]. by rewrite app_nil_r. Qed.

Lemma grid_last (lambdas gammas : list V) (lambda_ gamma : V) :
  last lambdas = Some lambda_ -> last gammas = Some gamma ->
  exists front, grid lambdas gammas = front ++ [(lambda_, gamma)].
Proof.
  intros Hl Hg.
  apply last_Some in Hl as [ls ->]. apply last_Some in Hg as [gs ->].
  rewrite grid_snoc, map_app. cbn [map]. rewrite app_assoc. eauto.
Qed.

Lemma select_snoc (b : best V) (ps : list (progress V)) (q : progress V) :
  select b (ps ++ [q])
  = update_best V (select b ps) (p_lambda V q) (p_gamma V q)
                (p_accuracy V q) (p_f1_score V q).
Proof. unfold select. by rewrite foldl_snoc. Qed.

Lemma update_best_rule (b : best V) (q : progress V) :
  update_best V b (p_lambda V q) (p_gamma V q) (p_accuracy V q) (p_f1_score V q)
  = if reaches q (best_accuracy V b) (best_f1_score V b) then record_of q else b.
Proof. reflexivity. Qed.

(** Either no line reached the initial record, or the final record is that of
    a line that no later line reaches. *)
Lemma select_last_winner (b0 : best V) (ps : list (progress V)) :
  (select b0 ps = b0
   /\ forall q, q ∈ ps -> reaches q (best_accuracy V b0) (best_f1_score V b0) = false)
  \/ exists i p,
       ps !! i = Some p
       /\ select b0 ps = record_of p
       /\ forall j q, (i < j)%nat -> ps !! j = Some q ->
            reaches q (p_accuracy V p) (p_f1_score V p) = false.
Proof.
  induction ps as [|q ps IH] using rev_ind.
  - left. split; [done|]. intros q Hq. by apply elem_of_nil in Hq.
  - rewrite select_snoc, update_best_rule.
    destruct (reaches q _ _) eqn:E.
    + right. exists (length ps), q. split; [|split; [done|]].
      * by rewrite lookup_app_r, Nat.sub_diag by lia.
      * intros j q' Hj Hq'. apply lookup_lt_Some in Hq'.
        rewrite length_app in Hq'. cbn in Hq'. lia.
    + destruct IH as [[Hb Hall] | (i & p & Hp & Hb & Hlater)].
      * left. split; [done|]. intros q' Hq'.
        apply elem_of_app in Hq' as [Hq' | Hq']; [by apply Hall|].
        apply list_elem_of_singleton in Hq' as ->. by rewrite Hb in E.
      * right. exists i, p. split; [|split; [done|]].
        { apply lookup_app_l_Some. done. }
        intros j q' Hj Hq'.
        destruct (decide (j < length ps)%nat) as [Hlt | Hge].
        { rewrite lookup_app_l in Hq' by done. by eapply Hlater. }
        rewrite lookup_app_r in Hq' by lia.
        destruct (j - length ps)%nat eqn:Ej; [|by destruct n].
        cbn in Hq'. injection Hq' as <-. by rewrite Hb in E.
Qed.

Lemma eqb_geb (x y : pyfloat) : Float.eqb x y = true -> Float.geb y x = true.
Proof.
  destruct x as [| s | a], y as [| s' | b]; cbn; try done.
  - destruct s, s'; done.
  - intros H. apply Qeq_bool_iff in H. apply Qle_bool_iff. rewrite H. apply Qle_refl.
Qed.

Lemma eqb_geb_l (x y : pyfloat) : Float.eqb x y = true -> Float.geb x y = true.
Proof.
  destruct x as [| s | a], y as [| s' | b]; cbn; try done.
  - destruct s, s'; done.
  - intros H. apply Qeq_bool_iff in H. apply Qle_bool_iff. rewrite H. apply Qle_refl.
Qed.

Lemma same_scores_reaches (p q : progress V) :
  same_scores p q = true -> reaches q (p_accuracy V p) (p_f1_score V p) = true.
Proof.
  unfold same_scores, reaches. intros [Ha Hf]%andb_prop.
  by rewrite (eqb_geb _ _ Ha), (eqb_geb _ _ Hf).
Qed.

Variable RNG : Type.
Variable np_random_shuffle : list nat -> RNG -> list nat * RNG.
Variable sigmoid : pyfloat -> pyfloat.

Local Abbreviation step := (tuning_step RNG np_random_shuffle sigmoid V).
Local Abbreviation tuning := (hyperparameter_tuning RNG np_random_shuffle sigmoid V).

(** One grid point: the dictionary receives both values, one line is printed
    with the scores, and the running best is updated from that line. *)
Lemma tuning_step_Ok (X : matrix) (y : list Z) (model : model_fn RNG V) (k : nat)
    (gamma lambda_ : V) (b b' : best V) (w w' : world RNG V) :
  step X y model k gamma b lambda_ w = (Ok b', w') ->
  exists q,
    point q = (lambda_, gamma)
    /\ stdout RNG V w' = stdout RNG V w ++ [q]
    /\ b' = select b [q]
    /\ model_params RNG V w' = set_point (model_params RNG V w) lambda_ gamma.
Proof.
  unfold tuning_step, bind, set_param, with_params, print, ret. cbn.
  destruct (k_fold_cross_validation _ _ _ _ _ _ _ _ _ _ _) as [[[accuracy f1_score] | e] g];
    [|done].
  intros [= <- <-]. cbn.
  by exists {| p_lambda := lambda_; p_gamma := gamma;
               p_accuracy := accuracy; p_f1_score := f1_score |}.
Qed.

(** What a completed search leaves behind: one progress line per grid point
    in iteration order, the record selected from those lines, and a
    dictionary that went through every grid point. *)
Lemma hyperparameter_tuning_Ok (X : matrix) (y : list Z) (model : model_fn RNG V)
    (lambdas gammas : list V) (k : nat) (w w' : world RNG V)
    (res : option V * option V) :
  tuning X y model lambdas gammas k w = (Ok res, w') ->
  exists ps,
    stdout RNG V w' = stdout RNG V w ++ ps
    /\ map point ps = grid lambdas gammas
    /\ res = (best_param_lambda V (select (best_init V) ps),
              best_param_gamma V (select (best_init V) ps))
    /\ model_params RNG V w'
       = foldl (fun m p => set_point m p.1 p.2) (model_params RNG V w)
               (grid lambdas gammas).
Proof.
  unfold hyperparameter_tuning, bind, ret.
  destruct (for_each gammas _ _ w) as [[b | e] w1] eqn:Hrun; [|done].
  intros [= <- <-].
  pose (I := fun (b0 : best V) (w0 : world RNG V) (pts : list (V * V))
                 (b1 : best V) (w1 : world RNG V) =>
    exists ps, stdout RNG V w1 = stdout RNG V w0 ++ ps
               /\ map point ps = pts
               /\ b1 = select b0 ps
               /\ model_params RNG V w1
                  = foldl (fun m p => set_point m p.1 p.2) (model_params RNG V w0) pts).
  assert (Hinner : forall gamma b0 w0 b1 w1,
            for_each lambdas (step X y model k gamma) b0 w0 = (Ok b1, w1) ->
            I b0 w0 (map (fun lambda_ => (lambda_, gamma)) lambdas) b1 w1).
  { intros gamma b0 w0 b1 w2.
    apply (for_each_invariant
             (fun done b1 w1 => I b0 w0 (map (fun lambda_ => (lambda_, gamma)) done) b1 w1)).
    - exists []. by rewrite app_nil_r.
    - intros done lambda_ b2 w3 b3 w4 (ps & Hout & Hpts & Hb & Hparams) Hstep.
      apply tuning_step_Ok in Hstep as (q & Hq & Hout' & Hb' & Hparams').
      exists (ps ++ [q]). rewrite !map_app, foldl_app. cbn [map foldl fst snd].
      rewrite Hout', Hout, Hpts, Hq, Hparams', Hparams, Hb', Hb, app_assoc.
      unfold select. by rewrite foldl_app. }
  enough (I (best_init V) w (grid lambdas gammas) b w1) as (ps & ? & ? & -> & ?)
    by (exists ps; done).
  revert Hrun.
  apply (for_each_invariant
           (fun done b1 w1 => I (best_init V) w (grid lambdas done) b1 w1)).
  - exists []. by rewrite app_nil_r.
  - intros done gamma b2 w3 b3 w4 (ps & Hout & Hpts & Hb & Hparams) Hstep.
    apply Hinner in Hstep as (qs & Hout' & Hpts' & Hb' & Hparams').
    exists (ps ++ qs). rewrite grid_snoc, map_app, foldl_app.
    rewrite Hout', Hout, Hpts, Hpts', Hparams', Hparams, Hb', Hb, app_assoc.
    unfold select. by rewrite foldl_app.
Qed.

(** The record held when line [n] is evaluated, for every [n] up to the
    number of lines. *)
Lemma select_history (b0 : best V) (ps : list (progress V)) :
  let bs := map (fun n => select b0 (take n ps)) (seq 0 (S (length ps))) in
  length bs = S (length ps)
  /\ bs !! 0%nat = Some b0
  /\ bs !! length ps = Some (select b0 ps)
  /\ forall n q b, ps !! n = Some q -> bs !! n = Some b ->
       bs !! S n
       = Some (update_best V b (p_lambda V q) (p_gamma V q)
                 (p_accuracy V q) (p_f1_score V q)).
Proof.
  intros bs.
  assert (Hbs : forall n, (n <= length ps)%nat ->
            bs !! n = Some (select b0 (take n ps))).
  { intros n Hn. unfold bs. rewrite list_lookup_fmap, lookup_seq_lt by lia. done. }
  split; [unfold bs; by rewrite length_map, length_seq|].
  split; [rewrite Hbs by lia; by rewrite take_0|].
  split; [rewrite Hbs by lia; by rewrite firstn_all|].
  intros n q b Hq Hb.
  pose proof (lookup_lt_Some _ _ _ Hq) as Hn.
  rewrite Hbs in Hb by lia. injection Hb as <-.
  rewrite Hbs by lia. by rewrite (take_S_r _ _ _ Hq), select_snoc.
Qed.

(** C1. A completed search prints one line per grid point in iteration order
    ([gamma] outer, [lambda_] inner) and goes through a sequence of records
    [bs], one before each line and one after the last: it starts from
    (0, 0, None, None); at each line the candidate replaces the record if its
    f1 is [>=] the record's f1 and its accuracy is [>=] the record's
    accuracy, and the record is kept otherwise; the parameters of the last
    record are returned. Hence a candidate with the scores of the current
    record replaces it, and the returned point is one that no later point
    reaches on both scores: of two grid points with identical
    (accuracy, f1), the earlier one is never the one returned, and when all
    the grid points have identical scores that reach (0, 0) the one iterated
    last is returned. *)
Theorem grid_search_selection (X : matrix) (y : list Z) (model : model_fn RNG V)
    (lambdas gammas : list V) (k : nat) (w w' : world RNG V)
    (res : option V * option V) :
  hyperparameter_tuning RNG np_random_shuffle sigmoid V
    X y model lambdas gammas k w = (Ok res, w') ->
  exists (ps : list (progress V)) (bs : list (best V)),
    stdout RNG V w' = stdout RNG V w ++ ps
    /\ map point ps = grid lambdas gammas
    /\ length bs = S (length ps)
    /\ bs !! 0%nat
       = Some {| best_accuracy := Float.zero; best_f1_score := Float.zero;
                 best_param_lambda := None; best_param_gamma := None |}
    /\ (forall n q b, ps !! n = Some q -> bs !! n = Some b ->
          bs !! S n
          = Some (if Float.geb (p_f1_score V q) (best_f1_score V b)
                     && Float.geb (p_accuracy V q) (best_accuracy V b)
                  then {| best_accuracy := p_accuracy V q;
                          best_f1_score := p_f1_score V q;
                          best_param_lambda := Some (p_lambda V q);
                          best_param_gamma := Some (p_gamma V q) |}
                  else b))
    /\ (exists b, bs !! length ps = Some b
                  /\ res = (best_param_lambda V b, best_param_gamma V b))
    /\ (forall n q b, ps !! n = Some q -> bs !! n = Some b ->
          Float.eqb (p_accuracy V q) (best_accuracy V b) = true ->
          Float.eqb (p_f1_score V q) (best_f1_score V b) = true ->
          bs !! S n = Some (record_of q))
    /\ ((res = (None, None)
         /\ forall q, q ∈ ps -> reaches q Float.zero Float.zero = false)
        \/ exists i p,
             ps !! i = Some p
             /\ res = (Some (p_lambda V p), Some (p_gamma V p))
             /\ (forall j q, (i < j)%nat -> ps !! j = Some q ->
                   reaches q (p_accuracy V p) (p_f1_score V p) = false)
             /\ (forall j q, (i < j)%nat -> ps !! j = Some q ->
                   same_scores p q = false))
    /\ (forall q, last ps = Some q ->
          reaches q Float.zero Float.zero = true ->
          (forall p, p ∈ ps -> same_scores p q = true) ->
          res = (Some (p_lambda V q), Some (p_gamma V q))).
Proof.
  intros Hrun.
  apply hyperparameter_tuning_Ok in Hrun as (ps & Hout & Hpts & -> & _).
  destruct (select_history (best_init V) ps) as (Hlen & H0 & Hlast & Hstep).
  exists ps, (map (fun n => select (best_init V) (take n ps)) (seq 0 (S (length ps)))).
  split; [done|]. split; [done|]. split; [done|]. split; [exact H0|].
  split; [intros n q b Hq Hb; exact (Hstep n q b Hq Hb)|].
  split; [eexists; split; [exact Hlast | reflexivity]|].
  split.
  { intros n q b Hq Hb Ha Hf. rewrite (Hstep n q b Hq Hb), update_best_rule.
    unfold reaches. cbn [p_f1_score p_accuracy].
    by rewrite (eqb_geb_l _ _ Hf), (eqb_geb_l _ _ Ha). }
  destruct (select_last_winner (best_init V) ps) as [[-> Hall] | (i & p & Hp & -> & Hlater)].
  - split; [left; done|].
    intros q Hq Hreach _. apply last_Some_elem_of, Hall in Hq.
    cbn [best_init best_accuracy best_f1_score] in Hq. congruence.
  - assert (Hties : forall j q, (i < j)%nat -> ps !! j = Some q ->
              same_scores p q = false).
    { intros j q Hj Hq. apply not_true_is_false. intros Hsame.
      apply same_scores_reaches in Hsame. by rewrite (Hlater j q Hj Hq) in Hsame. }
    split; [right; exists i, p; done|].
    intros q Hq _ Hsame. rewrite last_lookup in Hq.
    pose proof (lookup_lt_Some _ _ _ Hp) as Hi.
    destruct (decide (i = pred (length ps))) as [-> | Hne].
    + rewrite Hp in Hq. by injection Hq as ->.
    + pose proof (Hsame p (list_elem_of_lookup_2 _ _ _ Hp)) as Htie.
      rewrite (Hties (pred (length ps)) q) in Htie; [done | lia | done].
Qed.

(** C10. After a completed search over non-empty value lists, the caller's
    dictionary is the one it passed in with ["lambda_"] and ["gamma"] set to
    the last value of each list, the last grid point visited: these two keys
    hold those values and every other key is as before. *)
Theorem model_params_left_at_last_point (X : matrix) (y : list Z)
    (model : model_fn RNG V) (lambdas gammas : list V) (k : nat)
    (w w' : world RNG V) (res : option V * option V) (lambda_ gamma : V) :
  hyperparameter_tuning RNG np_random_shuffle sigmoid V
    X y model lambdas gammas k w = (Ok res, w') ->
  last lambdas = Some lambda_ ->
  last gammas = Some gamma ->
  model_params RNG V w'
  = <["gamma" := gamma]> (<["lambda_" := lambda_]> (model_params RNG V w))
  /\ model_params RNG V w' !! "lambda_" = Some lambda_
  /\ model_params RNG V w' !! "gamma" = Some gamma
  /\ forall key, key <> "lambda_" -> key <> "gamma" ->
       model_params RNG V w' !! key = model_params RNG V w !! key.
Proof.
  intros Hrun Hl Hg.
  apply hyperparameter_tuning_Ok in Hrun as (ps & _ & _ & _ & Hparams).
  destruct (grid_last _ _ _ _ Hl Hg) as [front Hgrid].
  rewrite Hgrid, foldl_snoc in Hparams. cbn [fst snd] in Hparams.
  rewrite set_points_absorb in Hparams. unfold set_point in Hparams.
  rewrite Hparams. split; [done|]. split; [|split].
  - rewrite lookup_insert_ne by done. apply lookup_insert_eq.
  - apply lookup_insert_eq.
  - intros key H1 H2. by rewrite !lookup_insert_ne.
Qed.

End Tuning.

(** * Cross-validation and labels of the wrong length *)

Lemma for_each_ext {S A B} (body1 body2 : A -> B -> M S A) (xs : list B) (a : A) (s : S) :
  (forall a x s, x ∈ xs -> body1 a x s = body2 a x s) ->
  for_each xs body1 a s = for_each xs body2 a s.
Proof.
  revert a s. induction xs as [|x xs IH]; intros a s H; [done|].
  cbn [for_each]. unfold bind. rewrite H by apply list_elem_of_here.
  destruct (body2 a x s) as [[a1 | e] s1]; [|done].
  apply IH. intros b x' t Hx'. apply H. by apply list_elem_of_further.
Qed.

(** Indexing sees only the entries the indices reach. *)
Lemma int_index_app {A} (y extra : list A) (idx : list nat) :
  Forall (fun i => (i < length y)%nat) idx ->
  int_index (y ++ extra) idx = int_index y idx.
Proof.
  intros H. unfold int_index.
  replace (mapM (fun i => (y ++ extra) !! i) idx) with (mapM (fun i => y !! i) idx);
    [done|].
  induction H as [|i idx Hi _ IH]; [done|].
  cbn [mapM]. by rewrite IH, lookup_app_l.
Qed.

Lemma fold_split_in_range (N : nat) (indices : list nat) (fold_size i : nat) :
  indices ≡ₚ seq 0 N ->
  Forall (fun j => (j < N)%nat) (fold_split indices fold_size i).1
  /\ Forall (fun j => (j < N)%nat) (fold_split indices fold_size i).2.
Proof.
  intros Hperm. split; apply Forall_forall; intros j Hj.
  - rewrite (fold_split_train N) in Hj by done.
    apply list_elem_of_filter in Hj as [_ Hj]. apply elem_of_seq in Hj. lia.
  - rewrite fold_split_test in Hj. apply elem_of_slice in Hj as (p & _ & Hp).
    assert (Hin : j ∈ seq 0 N).
    { rewrite <- Hperm. apply list_elem_of_lookup. eauto. }
    apply elem_of_seq in Hin. lia.
Qed.

Section Labels.
Variable RNG : Type.
Variable np_random_shuffle : list nat -> RNG -> list nat * RNG.
Variable sigmoid : pyfloat -> pyfloat.
Variable V : Type.
Hypothesis shuffle_permutes : forall l g, (np_random_shuffle l g).1 ≡ₚ l.

(** Labels beyond the row count of [X] are never read: cross-validation gives
    the same outcome as on the labels cut to that length. *)
Lemma k_fold_ignores_extra_labels (X : matrix) (y extra : list Z)
    (model : model_fn RNG V) (k : nat) (params : gmap string V)
    (threshold : pyfloat) (g : RNG) :
  length y = shape0 X ->
  k_fold_cross_validation RNG np_random_shuffle sigmoid V
    X (y ++ extra) model k params threshold g
  = k_fold_cross_validation RNG np_random_shuffle sigmoid V
    X y model k params threshold g.
Proof.
  intros Hlen. unfold k_fold_cross_validation, bind, shuffled.
  pose proof (shuffle_permutes (seq 0 (shape0 X)) g) as Hperm.
  destruct (np_random_shuffle (seq 0 (shape0 X)) g) as [indices g1]. cbn [fst] in Hperm.
  destruct (k =? 0)%nat; [done|].
  rewrite (for_each_ext
             (cv_fold RNG sigmoid V X (y ++ extra) model params threshold indices
                      (shape0 X / k)%nat)
             (cv_fold RNG sigmoid V X y model params threshold indices
                      (shape0 X / k)%nat)); [done|].
  intros [accuracies f1_scores] i g2 _. unfold cv_fold.
  destruct (fold_split_in_range (shape0 X) indices (shape0 X / k)%nat i Hperm)
    as [Htrain Htest].
  destruct (fold_split indices (shape0 X / k)%nat i) as [train_indices test_indices].
  cbn [fst snd] in Htrain, Htest. rewrite <- Hlen in Htrain, Htest.
  by rewrite !int_index_app.
Qed.

End Labels.

(** The sibling that shuffles samples and labels for [split_data] does check
    the two lengths. *)
Lemma unison_shuffled_copies_mismatch (RNG : Type)
    (np_random_permutation : nat -> RNG -> list nat * RNG)
    (a : matrix) (b : list Z) (g : RNG) :
  shape0 a <> length b ->
  unison_shuffled_copies RNG np_random_permutation a b g
  = (Raise (AssertionError ""), g).
Proof.
  intros H. unfold unison_shuffled_copies.
  destruct (Nat.eqb_spec (shape0 a) (length b)); [done|]. reflexivity.
Qed.

(** C8. On a matrix of two rows and a label array of three entries,
    [k_fold_cross_validation] raises nothing: it trains and scores both folds
    and returns the scores it returns for the first two labels alone. *)
Theorem k_fold_accepts_label_mismatch :
  shape0 Demo.samples = 2%nat
  /\ length [1; 0; 1] = 3%nat
  /\ is_Ok (k_fold_cross_validation unit Demo.shuffle Demo.squash Q
              Demo.samples [1; 0; 1] Demo.model 2 {[ "lambda_" := 1%Q ]}
              (Fin (1 # 2)) tt).1 = true
  /\ k_fold_cross_validation unit Demo.shuffle Demo.squash Q
       Demo.samples [1; 0; 1] Demo.model 2 {[ "lambda_" := 1%Q ]} (Fin (1 # 2)) tt
     = k_fold_cross_validation unit Demo.shuffle Demo.squash Q
         Demo.samples [1; 0] Demo.model 2 {[ "lambda_" := 1%Q ]} (Fin (1 # 2)) tt.
Proof.
  split; [reflexivity|]. split; [reflexivity|].
  split; vm_compute; reflexivity.
Qed.

(** With too few labels the first fold fails on an index, not on an
    assertion. *)
Example k_fold_short_labels :
  (k_fold_cross_validation unit Demo.shuffle Demo.squash Q
     Demo.samples [1] Demo.model 2 {[ "lambda_" := 1%Q ]} (Fin (1 # 2)) tt).1
  = Raise IndexError.
Proof. vm_compute. reflexivity. Qed.

(** * Completion of cross-validation and of the search *)

Lemma for_each_returns {S A B} (body : A -> B -> M S A) (xs : list B) (a : A) (s : S) :
  (forall a x s, x ∈ xs -> exists a' s', body a x s = (Ok a', s')) ->
  exists a' s', for_each xs body a s = (Ok a', s').
Proof.
  revert a s. induction xs as [|x xs IH]; intros a s H.
  - by exists a, s.
  - destruct (H a x s) as (a1 & s1 & E); [apply list_elem_of_here|].
    cbn [for_each]. unfold bind. rewrite E.
    apply IH. intros b x' t Hx'. apply H. by apply list_elem_of_further.
Qed.

Lemma int_index_rows_Ok (X : matrix) (idx : list nat) :
  Forall (fun i => (i < shape0 X)%nat) idx ->
  int_index_rows X idx = Ok (select_rows X idx).
Proof.
  intros H. unfold int_index_rows.
  replace (forallb _ idx) with true; [done|].
  symmetry. induction H as [|i idx Hi _ IH]; [done|].
  cbn [forallb]. rewrite IH. by apply Nat.ltb_lt in Hi as ->.
Qed.

Lemma int_index_Ok {A} (y : list A) (idx : list nat) :
  Forall (fun i => (i < length y)%nat) idx ->
  exists l, int_index y idx = Ok l /\ length l = length idx.
Proof.
  intros H. unfold int_index.
  destruct (mapM (fun i => y !! i) idx) as [l|] eqn:E.
  - exists l. split; [done|]. symmetry. by eapply length_mapM.
  - apply mapM_None_1, Exists_exists in E as (i & Hi & Hnone).
    rewrite Forall_forall in H. apply H in Hi.
    apply lookup_ge_None in Hnone. lia.
Qed.

Section Completion.
Variable RNG : Type.
Variable np_random_shuffle : list nat -> RNG -> list nat * RNG.
Variable sigmoid : pyfloat -> pyfloat.
Variable V : Type.
Hypothesis shuffle_permutes : forall l g, (np_random_shuffle l g).1 ≡ₚ l.

Lemma cv_fold_returns (X : matrix) (y : list Z) (model : model_fn RNG V)
    (params : gmap string V) (threshold : pyfloat) (indices : list nat)
    (fold_size : nat) (acc : list pyfloat * list pyfloat) (i : nat) (g : RNG) :
  indices ≡ₚ seq 0 (shape0 X) ->
  length y = shape0 X ->
  well_behaved model ->
  exists acc' g',
    cv_fold RNG sigmoid V X y model params threshold indices fold_size acc i g
    = (Ok acc', g').
Proof.
  intros Hperm Hlen Hmodel. unfold cv_fold. destruct acc as [accuracies f1_scores].
  destruct (fold_split_in_range (shape0 X) indices fold_size i Hperm) as [Htrain Htest].
  destruct (fold_split indices fold_size i) as [train_indices test_indices].
  cbn [fst snd] in Htrain, Htest.
  unfold bind, lift_result, ret.
  rewrite !int_index_rows_Ok by done.
  rewrite <- Hlen in Htrain, Htest.
  destruct (int_index_Ok y train_indices Htrain) as (y_train & -> & _).
  destruct (int_index_Ok y test_indices Htest) as (y_test & -> & Hy_test).
  destruct (Hmodel y_train (select_rows X train_indices) params g)
    as (w & loss & g' & -> & Hw).
  unfold predict_logistic, matvec. cbn [shape1 select_rows] in *.
  rewrite Hw, Nat.eqb_refl. cbn [negb].
  unfold mean_agreement. rewrite !length_map, length_seq. cbn [shape0 select_rows].
  rewrite Hy_test, Nat.eqb_refl. cbn [negb].
  rewrite compute_f1_value by (by rewrite !length_map, length_seq).
  eauto.
Qed.

(** With as many labels as rows, at least one fold and a well-behaved
    training routine, cross-validation raises nothing. *)
Lemma k_fold_cross_validation_returns (X : matrix) (y : list Z)
    (model : model_fn RNG V) (k : nat) (params : gmap string V)
    (threshold : pyfloat) (g : RNG) :
  length y = shape0 X ->
  k <> 0%nat ->
  well_behaved model ->
  exists scores g',
    k_fold_cross_validation RNG np_random_shuffle sigmoid V
      X y model k params threshold g = (Ok scores, g').
Proof.
  intros Hlen Hk Hmodel. unfold k_fold_cross_validation, bind, shuffled.
  pose proof (shuffle_permutes (seq 0 (shape0 X)) g) as Hperm.
  destruct (np_random_shuffle (seq 0 (shape0 X)) g) as [indices g1]. cbn [fst] in Hperm.
  destruct (Nat.eqb_spec k 0) as [|_]; [done|].
  destruct (for_each_returns
              (cv_fold RNG sigmoid V X y model params threshold indices
                       (shape0 X / k)%nat)
              (seq 0 k) ([], []) g1) as ([accuracies f1_scores] & g2 & ->).
  { intros acc i g' _. by apply cv_fold_returns. }
  unfold ret. eauto.
Qed.

(** Under the same conditions the search completes, for any two lists of
    values. *)
Lemma hyperparameter_tuning_returns (X : matrix) (y : list Z)
    (model : model_fn RNG V) (lambdas gammas : list V) (k : nat)
    (w : world RNG V) :
  length y = shape0 X ->
  k <> 0%nat ->
  well_behaved model ->
  exists res w',
    hyperparameter_tuning RNG np_random_shuffle sigmoid V
      X y model lambdas gammas k w = (Ok res, w').
Proof.
  intros Hlen Hk Hmodel. unfold hyperparameter_tuning, bind.
  destruct (for_each_returns
              (fun b gamma =>
                 for_each lambdas
                   (tuning_step RNG np_random_shuffle sigmoid V X y model k gamma) b)
              gammas (best_init V) w) as (b & w' & ->).
  { intros b gamma w0 _. apply for_each_returns.
    intros b' lambda_ w1 _.
    unfold tuning_step, bind, set_param, with_params, print, ret. cbn.
    destruct (k_fold_cross_validation_returns X y model k
                (<["gamma":=gamma]> (<["lambda_":=lambda_]> (model_params RNG V w1)))
                (Fin (1 # 2)) (np_random RNG V w1) Hlen Hk Hmodel)
      as ([accuracy f1_score] & g' & ->).
    eauto. }
  unfold ret. eauto.
Qed.

End Completion.

(** * The search on a concrete grid *)

Lemma search_outcome :
  hyperparameter_tuning unit Demo.shuffle Demo.squash Q Demo.samples Demo.labels
    Demo.model [1; 0]%Q [1 # 10; 1 # 5]%Q 1 Demo.start
  = (Ok (Some 1%Q, Some (1 # 5)%Q), Demo.search.2).
Proof. vm_compute. reflexivity. Qed.

(** On this grid the first and third points, (1, 1/10) and (1, 1/5), have
    identical scores, and the later one is returned. *)
Example later_tie_returned_at_the_top :
  exists p q,
    stdout unit Q Demo.search.2 !! 0%nat = Some p
    /\ stdout unit Q Demo.search.2 !! 2%nat = Some q
    /\ same_scores p q = true
    /\ Demo.search.1 = Ok (Some (p_lambda Q q), Some (p_gamma Q q)).
Proof.
  exists {| p_lambda := 1%Q; p_gamma := (1 # 10)%Q;
            p_accuracy := Fin (2 # 2); p_f1_score := Fin (2 # 2) |},
         {| p_lambda := 1%Q; p_gamma := (1 # 5)%Q;
            p_accuracy := Fin (2 # 2); p_f1_score := Fin (2 # 2) |}.
  split; [vm_compute; reflexivity|]. split; [vm_compute; reflexivity|].
  split; vm_compute; reflexivity.
Qed.

Lemma grid_search_selection_witness :
  hyperparameter_tuning unit Demo.shuffle Demo.squash Q Demo.samples Demo.labels
    Demo.model [1; 0]%Q [1 # 10; 1 # 5]%Q 1 Demo.start
  = (Ok (Some 1%Q, Some (1 # 5)%Q), Demo.search.2)
  /\ exists ps bs,
       stdout unit Q Demo.search.2 = stdout unit Q Demo.start ++ ps
       /\ map point ps = grid [1; 0]%Q [1 # 10; 1 # 5]%Q
       /\ length bs = S (length ps)
       /\ exists b, bs !! length ps = Some b
                    /\ (Some 1%Q, Some (1 # 5)%Q)
                       = (best_param_lambda Q b, best_param_gamma Q b).
Proof.
  split; [exact search_outcome|].
  destruct (grid_search_selection unit Demo.shuffle Demo.squash
              Demo.samples Demo.labels Demo.model [1; 0]%Q [1 # 10; 1 # 5]%Q 1
              Demo.start Demo.search.2 _ search_outcome)
    as (ps & bs & H1 & H2 & H3 & _ & _ & H4 & _).
  exists ps, bs. split; [exact H1|]. split; [exact H2|]. split; [exact H3 | exact H4].
Defined.

Lemma model_params_left_at_last_point_witness :
  hyperparameter_tuning unit Demo.shuffle Demo.squash Q Demo.samples Demo.labels
    Demo.model [1; 0]%Q [1 # 10; 1 # 5]%Q 1 Demo.start
  = (Ok (Some 1%Q, Some (1 # 5)%Q), Demo.search.2)
  /\ last [1; 0]%Q = Some 0%Q
  /\ last [1 # 10; 1 # 5]%Q = Some (1 # 5)%Q
  /\ model_params unit Q Demo.search.2 !! "lambda_" = Some 0%Q
  /\ model_params unit Q Demo.search.2 !! "max_iters"
     = model_params unit Q Demo.start !! "max_iters".
Proof.
  split; [exact search_outcome|]. split; [reflexivity|]. split; [reflexivity|].
  destruct (model_params_left_at_last_point unit Demo.shuffle Demo.squash
              Demo.samples Demo.labels Demo.model [1; 0]%Q [1 # 10; 1 # 5]%Q 1
              Demo.start Demo.search.2 _ 0%Q (1 # 5)%Q
              search_outcome eq_refl eq_refl) as (_ & H1 & _ & H2).
  split; [exact H1 | by apply H2].
Defined.

(** * The worked examples of the specification *)

Example metric_counts :
  calculate_metrics [1; 1; 0; 0] [1; 0; 0; 1] = (1, 1, 1, 1).
Proof. vm_compute. reflexivity. Qed.

(** The F1 score of that example equals 1/2 under Python's [==]. *)
Example metric_f1 :
  match compute_f1 [1; 1; 0; 0] [1; 0; 0; 1] with
  | Ok f1 => Float.eqb f1 (Fin (1 # 2))
  | Raise _ => false
  end = true.
Proof. vm_compute. reflexivity. Qed.

Example metric_f1_all_zero : compute_f1 [0; 0; 0] [0; 0; 0] = Ok (Fin 0).
Proof. vm_compute. reflexivity. Qed.

Example sentinel_boundary :
  columns_to_remove Demo.survey (Fin (3 # 5)) = [0%nat]
  /\ columns_to_remove Demo.survey (Fin (61 # 100)) = [].
Proof. split; vm_compute; reflexivity. Qed.

Example correlation_mask_features :
  match drop_highly_correlated_features Demo.corrcoef Demo.features (Fin (95 # 100)) with
  | Ok (reduced, drop_cols) =>
      drop_cols = [false; false; true] /\ shape1 reduced = 2%nat
  | Raise _ => False
  end.
Proof. vm_compute. split; reflexivity. Qed.

(** * Further properties of the metric engine *)

Lemma confusion_count_nonneg (t p : Z) (y_true y_pred : list Z) :
  0 <= confusion_count t p y_true y_pred.
Proof. unfold confusion_count. lia. Qed.

Lemma confusion_count_cons (t p a b : Z) (y_true y_pred : list Z) :
  confusion_count t p (a :: y_true) (b :: y_pred)
  = Z.b2z ((a =? t) && (b =? p)) + confusion_count t p y_true y_pred.
Proof.
  unfold confusion_count. cbn [zip zip_with].
  destruct ((a =? t) && (b =? p)) eqn:E.
  - rewrite filter_cons_True by (cbn; done). cbn [length Z.b2z]. lia.
  - rewrite filter_cons_False by (cbn; congruence). cbn [Z.b2z]. lia.
Qed.

Lemma confusion_count_swap (t p : Z) (y_true y_pred : list Z) :
  confusion_count t p y_true y_pred = confusion_count p t y_pred y_true.
Proof.
  revert y_pred. induction y_true as [|a y_true IH]; intros [|b y_pred]; try done.
  rewrite !confusion_count_cons, IH. by rewrite andb_comm.
Qed.

Lemma metrics_step_counts (TP FP TN FN yt yp : Z) :
  metrics_step (TP, FP, TN, FN) (yt, yp)
  = (TP + Z.b2z ((yt =? 1) && (yp =? 1)), FP + Z.b2z ((yt =? 0) && (yp =? 1)),
     TN + Z.b2z ((yt =? 0) && (yp =? 0)), FN + Z.b2z ((yt =? 1) && (yp =? 0))).
Proof.
  unfold metrics_step.
  destruct (Z.eqb_spec yt 1), (Z.eqb_spec yp 1), (Z.eqb_spec yt 0), (Z.eqb_spec yp 0);
    cbn [andb Z.b2z]; try lia; by rewrite !Z.add_0_r.
Qed.

Lemma metrics_fold (y_true y_pred : list Z) (TP FP TN FN : Z) :
  foldl metrics_step (TP, FP, TN, FN) (zip y_true y_pred)
  = (TP + confusion_count 1 1 y_true y_pred, FP + confusion_count 0 1 y_true y_pred,
     TN + confusion_count 0 0 y_true y_pred, FN + confusion_count 1 0 y_true y_pred).
Proof.
  revert y_pred TP FP TN FN.
  induction y_true as [|yt y_true IH]; intros [|yp y_pred] TP FP TN FN;
    try (cbn; by rewrite !Z.add_0_r).
  cbn [zip zip_with foldl]. rewrite metrics_step_counts.
  change (zip_with pair y_true y_pred) with (zip y_true y_pred).
  rewrite IH, !confusion_count_cons.
  repeat match goal with |- (_, _) = (_, _) => f_equal end; lia.
Qed.

(** X1. The loop of [calculate_metrics] returns the four confusion counts of
    the zipped pairs, in the order (TP, FP, TN, FN); its TP, FP and FN are the
    counts [compute_f1] obtains with its vectorised sums. *)
Theorem calculate_metrics_confusion (y_true y_pred : list Z) :
  calculate_metrics y_true y_pred
  = (confusion_count 1 1 y_true y_pred, confusion_count 0 1 y_true y_pred,
     confusion_count 0 0 y_true y_pred, confusion_count 1 0 y_true y_pred)
  /\ confusion_count 1 1 y_true y_pred
     = np_sum (np_logical_and (np_eq_scalar y_pred 1) (np_eq_scalar y_true 1))
  /\ confusion_count 0 1 y_true y_pred
     = np_sum (np_logical_and (np_eq_scalar y_pred 1) (np_eq_scalar y_true 0))
  /\ confusion_count 1 0 y_true y_pred
     = np_sum (np_logical_and (np_eq_scalar y_pred 0) (np_eq_scalar y_true 1)).
Proof.
  split; [|by rewrite !np_count_confusion].
  unfold calculate_metrics. by rewrite metrics_fold.
Qed.

(** ** The range of the F1 score *)

Section Ratio.
Local Open Scope Q_scope.

(** The guarded ratio [a / (a + b)] of two counts. *)
Local Abbreviation ratio a b :=
  (if (a + b =? 0)%Z then 0 else inject_Z a / inject_Z (a + b)).

Lemma ratio_facts (a b : Z) :
  (0 <= a)%Z -> (0 <= b)%Z ->
  0 <= ratio a b <= 1
  /\ (ratio a b == 0 <-> a = 0%Z)
  /\ (ratio a b == 1 <-> (0 < a)%Z /\ b = 0%Z).
Proof.
  intros Ha Hb.
  destruct (Z.eqb_spec (a + b) 0) as [E | E].
  - split; [lra|]. split; [split; [intros _; lia | intros _; reflexivity]|].
    split; [intros H; lra | lia].
  - assert (Hs : 0 < inject_Z (a + b)).
    { rewrite <- (Zlt_Qlt 0). lia. }
    assert (Ha' : 0 <= inject_Z a) by (rewrite <- (Zle_Qle 0); lia).
    assert (Hab : inject_Z a <= inject_Z (a + b)) by (rewrite <- Zle_Qle; lia).
    assert (Hp : inject_Z a / inject_Z (a + b) * inject_Z (a + b) == inject_Z a).
    { field. lra. }
    set (p := inject_Z a / inject_Z (a + b)) in *.
    assert (H0 : 0 <= p) by (apply Qle_shift_div_l; lra).
    assert (H1 : p <= 1) by (apply Qle_shift_div_r; lra).
    split; [done|]. split.
    + split.
      * intros H. rewrite H in Hp.
        assert (Hz : inject_Z a == inject_Z 0) by (change (inject_Z 0) with 0; lra).
        by apply (proj1 (inject_Z_injective _ _)) in Hz.
      * intros ->. unfold p. reflexivity.
    + split.
      * intros H. rewrite H in Hp.
        assert (Hz : inject_Z (a + b) == inject_Z a) by lra.
        apply (proj1 (inject_Z_injective _ _)) in Hz. lia.
      * intros [Hpos ->]. unfold p. rewrite Z.add_0_r. field.
        intros Hz. change 0 with (inject_Z 0) in Hz.
        apply (proj1 (inject_Z_injective _ _)) in Hz. lia.
Qed.

Lemma f1_policy_facts (TP FP FN : Z) :
  (0 <= TP)%Z -> (0 <= FP)%Z -> (0 <= FN)%Z ->
  0 <= f1_policy TP FP FN <= 1
  /\ (f1_policy TP FP FN == 0 <-> TP = 0%Z)
  /\ (f1_policy TP FP FN == 1 <-> (0 < TP)%Z /\ FP = 0%Z /\ FN = 0%Z).
Proof.
  intros HTP HFP HFN. unfold f1_policy.
  destruct (ratio_facts TP FP HTP HFP) as ([Hp0 Hp1] & Hpz & Hpo).
  destruct (ratio_facts TP FN HTP HFN) as ([Hr0 Hr1] & Hrz & Hro).
  set (p := if (TP + FP =? 0)%Z then 0 else inject_Z TP / inject_Z (TP + FP)) in *.
  set (r := if (TP + FN =? 0)%Z then 0 else inject_Z TP / inject_Z (TP + FN)) in *.
  destruct (Qeq_bool (p + r) 0) eqn:E.
  - apply Qeq_bool_iff in E. assert (Hp : p == 0) by lra.
    split; [lra|]. split.
    + split; [intros _; by apply Hpz | reflexivity].
    + split; [intros H; lra|]. intros (Hpos & _). apply Hpz in Hp. lia.
  - apply Qeq_bool_neq in E. assert (Hs : 0 < p + r) by lra.
    assert (Hf : 2 * (p * r) / (p + r) * (p + r) == 2 * (p * r)) by (field; lra).
    set (f := 2 * (p * r) / (p + r)) in *.
    assert (Hf0 : 0 <= f) by (apply Qle_shift_div_l; nra).
    assert (Hf1 : f <= 1) by (apply Qle_shift_div_r; nra).
    split; [done|]. split.
    + split.
      * intros H. rewrite H in Hf.
        assert (Hpr : p * r == 0) by lra.
        apply Qmult_integral in Hpr as [Hz | Hz]; [by apply Hpz | by apply Hrz].
      * intros HTP0. apply Hpz in HTP0 as Hp. apply Hrz in HTP0 as Hr. lra.
    + split.
      * intros H. rewrite H in Hf.
        assert (Hp : p == 1) by nra.
        assert (Hr : r == 1) by nra.
        apply Hpo in Hp. apply Hro in Hr. tauto.
      * intros (Hpos & HFP0 & HFN0).
        assert (Hp : p == 1) by (apply Hpo; done).
        assert (Hr : r == 1) by (apply Hro; done).
        unfold f. rewrite Hp, Hr. reflexivity.
Qed.

Lemma f1_policy_swap (TP FP FN : Z) :
  f1_policy TP FP FN == f1_policy TP FN FP.
Proof.
  unfold f1_policy.
  set (p := if (TP + FP =? 0)%Z then 0 else inject_Z TP / inject_Z (TP + FP)).
  set (r := if (TP + FN =? 0)%Z then 0 else inject_Z TP / inject_Z (TP + FN)).
  destruct (Qeq_bool (p + r) 0) eqn:E1, (Qeq_bool (r + p) 0) eqn:E2.
  - reflexivity.
  - apply Qeq_bool_iff in E1. apply Qeq_bool_neq in E2. lra.
  - apply Qeq_bool_iff in E2. apply Qeq_bool_neq in E1. lra.
  - apply Qeq_bool_neq in E1. field. lra.
Qed.

End Ratio.

Lemma compute_f1_Ok_length (y_true y_pred : list Z) (f1 : pyfloat) :
  compute_f1 y_true y_pred = Ok f1 -> length y_true = length y_pred.
Proof.
  intros H. destruct (decide (length y_true = length y_pred)) as [|Hne]; [done|].
  by rewrite compute_f1_mismatch in H.
Qed.

(** X2. Whatever [compute_f1] returns is a finite number between 0 and 1. *)
Theorem compute_f1_range (y_true y_pred : list Z) (f1 : pyfloat) :
  compute_f1 y_true y_pred = Ok f1 ->
  exists q, f1 = Fin q /\ (0 <= q <= 1)%Q.
Proof.
  intros H. pose proof (compute_f1_Ok_length _ _ _ H) as Hlen.
  rewrite compute_f1_value in H by done. injection H as <-.
  eexists. split; [reflexivity|].
  apply f1_policy_facts; apply confusion_count_nonneg.
Qed.

Lemma compute_f1_range_witness :
  compute_f1 [1; 1; 0; 0] [1; 0; 0; 1] = Ok (Fin (f1_policy 1 1 1))
  /\ exists q, Fin (f1_policy 1 1 1) = Fin q /\ (0 <= q <= 1)%Q.
Proof.
  assert (H : compute_f1 [1; 1; 0; 0] [1; 0; 0; 1] = Ok (Fin (f1_policy 1 1 1)))
    by reflexivity.
  split; [exact H|]. exact (compute_f1_range _ _ _ H).
Defined.

(** X3. The F1 score does not depend on which array is called true and which
    predicted: swapping the arguments gives the same error or an equal
    score. *)
Theorem compute_f1_symmetric (y_true y_pred : list Z) :
  match compute_f1 y_true y_pred, compute_f1 y_pred y_true with
  | Ok (Fin a), Ok (Fin b) => (a == b)%Q
  | Raise e, Raise e' => e = e'
  | _, _ => False
  end.
Proof.
  destruct (decide (length y_true = length y_pred)) as [Hlen | Hne].
  - rewrite (compute_f1_value y_true y_pred) by done.
    rewrite (compute_f1_value y_pred y_true) by done.
    rewrite (confusion_count_swap 1 1 y_pred y_true).
    rewrite (confusion_count_swap 0 1 y_pred y_true).
    rewrite (confusion_count_swap 1 0 y_pred y_true).
    apply f1_policy_swap.
  - rewrite (compute_f1_mismatch y_true y_pred) by done.
    rewrite (compute_f1_mismatch y_pred y_true) by congruence. reflexivity.
Qed.

(** X4. For arrays of equal length the F1 score is 0 exactly when there is no
    true positive, and 1 exactly when there is a true positive and neither a
    false positive nor a false negative. *)
Theorem compute_f1_extremes (y_true y_pred : list Z) :
  length y_true = length y_pred ->
  exists q,
    compute_f1 y_true y_pred = Ok (Fin q)
    /\ ((q == 0)%Q <-> confusion_count 1 1 y_true y_pred = 0)
    /\ ((q == 1)%Q <-> 0 < confusion_count 1 1 y_true y_pred
                       /\ confusion_count 0 1 y_true y_pred = 0
                       /\ confusion_count 1 0 y_true y_pred = 0).
Proof.
  intros Hlen. eexists. split; [by apply compute_f1_value|].
  apply f1_policy_facts; apply confusion_count_nonneg.
Qed.

Lemma compute_f1_extremes_witness :
  length [1; 0; 1] = length [1; 0; 1]
  /\ exists q, compute_f1 [1; 0; 1] [1; 0; 1] = Ok (Fin q) /\ (q == 1)%Q.
Proof.
  split; [reflexivity|].
  destruct (compute_f1_extremes [1; 0; 1] [1; 0; 1] eq_refl) as (q & H & _ & H1).
  exists q. split; [exact H|]. apply H1. vm_compute. repeat split.
Defined.

(** * Further properties of the sentinel and NaN density filter *)

Lemma filter_all {A} (P : A -> Prop) `{forall x, Decision (P x)} (l : list A) :
  Forall P l -> filter P l = l.
Proof.
  induction 1 as [|x l Hx _ IH]; [done|]. by rewrite filter_cons_True, IH.
Qed.

Lemma filter_none {A} (P : A -> Prop) `{forall x, Decision (P x)} (l : list A) :
  Forall (fun x => ~ P x) l -> filter P l = [].
Proof.
  induction 1 as [|x l Hx _ IH]; [done|]. by rewrite filter_cons_False.
Qed.

Lemma missing_count_le (X : matrix) (j : nat) :
  (missing_count X j <= shape0 X)%nat.
Proof.
  unfold missing_count. etransitivity; [apply length_filter|].
  unfold column. by rewrite length_map, length_seq.
Qed.

Lemma missing_fraction_range (X : matrix) (j : nat) :
  (0 < shape0 X)%nat -> (0 <= missing_fraction X j <= 1)%Q.
Proof.
  intros Hrows. unfold missing_fraction.
  pose proof (missing_count_le X j) as Hle.
  assert (Hn : (0 < inject_Z (Z.of_nat (shape0 X)))%Q).
  { rewrite <- (Zlt_Qlt 0). lia. }
  assert (Hm : (0 <= inject_Z (Z.of_nat (missing_count X j)))%Q).
  { rewrite <- (Zle_Qle 0). lia. }
  assert (Hmn : (inject_Z (Z.of_nat (missing_count X j))
                 <= inject_Z (Z.of_nat (shape0 X)))%Q).
  { rewrite <- Zle_Qle. lia. }
  split; [apply Qle_shift_div_l | apply Qle_shift_div_r]; lra.
Qed.

Lemma column_flagged_Fin (X : matrix) (t : Q) (j : nat) :
  (0 < shape0 X)%nat ->
  column_flagged X (Fin t) j = Qle_bool t (missing_fraction X j).
Proof.
  intros Hrows. rewrite column_flagged_fraction.
  unfold Float.div, Float.of_nat, Float.of_Z, missing_fraction.
  by rewrite Qzero_inject_Z by lia.
Qed.

(** X5. On a matrix with at least one row, a finite threshold of 0 or less
    removes every column and a threshold above 1 removes none. *)
Theorem columns_to_remove_extremes (x_data : matrix) (t : Q) :
  (0 < shape0 x_data)%nat ->
  ((t <= 0)%Q -> columns_to_remove x_data (Fin t) = seq 0 (shape1 x_data))
  /\ ((1 < t)%Q -> columns_to_remove x_data (Fin t) = []).
Proof.
  intros Hrows. rewrite columns_to_remove_filter. split; intros Ht.
  - apply filter_all, Forall_forall. intros j _.
    rewrite column_flagged_Fin by done. apply Qle_bool_iff.
    pose proof (missing_fraction_range x_data j Hrows). lra.
  - apply filter_none, Forall_forall. intros j _.
    rewrite column_flagged_Fin by done. intros H. apply Qle_bool_iff in H.
    pose proof (missing_fraction_range x_data j Hrows). lra.
Qed.

Lemma columns_to_remove_extremes_witness :
  (0 < shape0 Demo.survey)%nat
  /\ (0 <= 0)%Q
  /\ columns_to_remove Demo.survey (Fin 0) = seq 0 (shape1 Demo.survey).
Proof.
  assert (H : (0 < shape0 Demo.survey)%nat) by (cbn; lia).
  assert (H0 : (0 <= 0)%Q) by apply Qle_refl.
  split; [exact H|]. split; [exact H0|].
  exact (proj1 (columns_to_remove_extremes Demo.survey 0 H) H0).
Defined.

(** X6. Raising a finite threshold never removes more: a column listed for
    the larger threshold is listed for the smaller one. *)
Theorem columns_to_remove_monotone (x_data : matrix) (t t' : Q) (j : nat) :
  (t <= t')%Q ->
  j ∈ columns_to_remove x_data (Fin t') ->
  j ∈ columns_to_remove x_data (Fin t).
Proof.
  intros Ht. rewrite !elem_of_columns_to_remove. intros [Hj H]. split; [done|].
  destruct (Float.div _ _) as [| [|] | q]; cbn in *; try done.
  apply Qle_bool_iff in H. apply Qle_bool_iff. lra.
Qed.

Lemma columns_to_remove_monotone_witness :
  (2 # 5 <= 3 # 5)%Q
  /\ 0%nat ∈ columns_to_remove Demo.survey (Fin (3 # 5))
  /\ 0%nat ∈ columns_to_remove Demo.survey (Fin (2 # 5)).
Proof.
  assert (Ht : (2 # 5 <= 3 # 5)%Q) by (unfold Qle; cbn; lia).
  assert (H : 0%nat ∈ columns_to_remove Demo.survey (Fin (3 # 5))).
  { replace (columns_to_remove Demo.survey (Fin (3 # 5))) with [0%nat]
      by (vm_compute; reflexivity).
    apply list_elem_of_here. }
  split; [exact Ht|]. split; [exact H|].
  exact (columns_to_remove_monotone Demo.survey _ _ 0%nat Ht H).
Defined.

(** X7. Nothing is removed from a matrix without rows, whatever the
    threshold, nor from any matrix when the threshold is NaN: the fraction of
    an empty column is 0/0, and every comparison with NaN is false. *)
Theorem columns_to_remove_degenerate :
  (forall (columns : nat) (cells : nat -> nat -> pyfloat) (t : pyfloat),
     columns_to_remove {| shape0 := 0; shape1 := columns; cell := cells |} t = [])
  /\ (forall x_data : matrix, columns_to_remove x_data NaN = []).
Proof.
  split.
  - intros columns cells t. rewrite columns_to_remove_filter.
    apply filter_none, Forall_forall. intros j _.
    rewrite column_flagged_fraction. cbn. done.
  - intros x_data. rewrite columns_to_remove_filter.
    apply filter_none, Forall_forall. intros j _.
    rewrite column_flagged_fraction.
    destruct (Float.div _ _) as [| [|] | q]; cbn; done.
Qed.

(** ** [reduced_data] *)

Lemma filter_ext_in {A} (P1 P2 : A -> Prop)
    `{forall x, Decision (P1 x)} `{forall x, Decision (P2 x)} (l : list A) :
  (forall x, x ∈ l -> P1 x <-> P2 x) -> filter P1 l = filter P2 l.
Proof.
  induction l as [|x l IH]; intros Hext; [done|].
  assert (Hx : P1 x <-> P2 x) by apply Hext, list_elem_of_here.
  assert (Hl : filter P1 l = filter P2 l).
  { apply IH. intros y Hy. by apply Hext, list_elem_of_further. }
  destruct (decide (P1 x)) as [H1 | H1].
  - rewrite !filter_cons_True by tauto. by rewrite Hl.
  - rewrite !filter_cons_False by tauto. done.
Qed.

Lemma filter_complement_length {A} (P : A -> Prop) `{forall x, Decision (P x)}
    (l : list A) :
  (length (filter P l) + length (filter (fun x => ~ P x) l) = length l)%nat.
Proof. by rewrite <- length_app, filter_app_complement. Qed.

(** The columns [reduced_data] keeps are those the test of
    [columns_to_remove] does not flag. *)
Lemma kept_after_removal (X : matrix) (t : pyfloat) :
  filter (fun j => j ∉ columns_to_remove X t) (seq 0 (shape1 X))
  = filter (fun j => ~ column_flagged X t j = true) (seq 0 (shape1 X)).
Proof.
  apply filter_ext_in. intros j Hj. rewrite columns_to_remove_filter.
  rewrite list_elem_of_filter. tauto.
Qed.

Lemma column_select_columns (X : matrix) (cols : list nat) (c j : nat) :
  cols !! c = Some j -> column (select_columns X cols) c = column X j.
Proof.
  intros H. unfold column. cbn [shape0 cell select_columns].
  by rewrite (nth_lookup_Some _ _ _ _ H).
Qed.

Lemma column_flagged_ext (X Y : matrix) (t : pyfloat) (j j' : nat) :
  shape0 X = shape0 Y -> column X j = column Y j' ->
  column_flagged X t j = column_flagged Y t j'.
Proof. intros H0 Hc. unfold column_flagged. by rewrite H0, Hc. Qed.

(** X8. [reduced_data] keeps every row and removes exactly the listed
    columns: the column counts add up, and the columns of the result are the
    unlisted columns of the input in ascending order. *)
Theorem reduced_data_columns (x_data : matrix) (t : pyfloat) :
  shape0 (reduced_data x_data t) = shape0 x_data
  /\ (shape1 (reduced_data x_data t) + length (columns_to_remove x_data t)
      = shape1 x_data)%nat
  /\ exists kept,
       StronglySorted lt kept
       /\ (forall j, j ∈ kept
                     <-> (j < shape1 x_data)%nat /\ (j ∉ columns_to_remove x_data t))
       /\ length kept = shape1 (reduced_data x_data t)
       /\ forall c j, kept !! c = Some j ->
            column (reduced_data x_data t) c = column x_data j.
Proof.
  split; [reflexivity|]. split.
  - unfold reduced_data, np_delete_columns. cbn [shape1 select_columns].
    rewrite kept_after_removal, columns_to_remove_filter, Nat.add_comm.
    rewrite filter_complement_length. apply length_seq.
  - exists (filter (fun j => j ∉ columns_to_remove x_data t) (seq 0 (shape1 x_data))).
    split; [apply filter_seq_sorted|]. split; [|split; [reflexivity|]].
    + intros j. rewrite list_elem_of_filter, elem_of_seq. intuition lia.
    + intros c j H. by apply column_select_columns.
Qed.

(** X9. Applying [reduced_data] twice with the same threshold changes nothing
    more: no column of the reduced matrix is listed again, and the second
    pass returns the same rows. *)
Theorem reduced_data_idempotent (x_data : matrix) (t : pyfloat) :
  columns_to_remove (reduced_data x_data t) t = []
  /\ shape0 (reduced_data (reduced_data x_data t) t) = shape0 (reduced_data x_data t)
  /\ shape1 (reduced_data (reduced_data x_data t) t) = shape1 (reduced_data x_data t)
  /\ forall r, row (reduced_data (reduced_data x_data t) t) r
               = row (reduced_data x_data t) r.
Proof.
  assert (Hnone : columns_to_remove (reduced_data x_data t) t = []).
  { rewrite columns_to_remove_filter. apply filter_none, Forall_forall.
    intros c Hc. apply elem_of_seq in Hc as [_ Hc]. cbn in Hc.
    unfold reduced_data, np_delete_columns in *. cbn [shape1 select_columns] in Hc.
    destruct (lookup_lt_is_Some_2 _ _ Hc) as [j Hj].
    rewrite (column_flagged_ext _ x_data t c j);
      [| reflexivity | by apply column_select_columns].
    apply list_elem_of_lookup_2 in Hj. rewrite kept_after_removal in Hj.
    by apply list_elem_of_filter in Hj as [Hj _]. }
  split; [exact Hnone|]. split; [reflexivity|].
  set (R := reduced_data x_data t) in *.
  assert (Hseq : filter (fun j => j ∉ columns_to_remove R t) (seq 0 (shape1 R))
                 = seq 0 (shape1 R)).
  { rewrite Hnone. apply filter_all, Forall_forall. intros j _. apply not_elem_of_nil. }
  split.
  - unfold reduced_data at 1, np_delete_columns. cbn [shape1 select_columns].
    by rewrite Hseq, length_seq.
  - intros r. unfold row. unfold reduced_data at 1 2, np_delete_columns.
    cbn [shape1 cell select_columns]. rewrite Hseq, length_seq.
    apply map_ext_in. intros c Hc. apply in_seq in Hc.
    by rewrite seq_nth by lia.
Qed.

(** * Further properties of the correlation filter *)

Lemma correlation_mask_false (c : nat -> nat -> pyfloat) (threshold : pyfloat)
    (n j : nat) :
  (j < n)%nat ->
  (forall i, (i < j)%nat -> ~ correlated c threshold i j) ->
  correlation_mask c threshold n !! j = Some false.
Proof.
  intros Hj Hnone.
  destruct (correlation_mask c threshold n !! j) as [[|]|] eqn:E; [|done|].
  - apply correlation_mask_lookup in E as (_ & i & Hi & H). by apply Hnone in H.
  - apply lookup_ge_None in E. rewrite correlation_mask_length in E. lia.
Qed.

Lemma correlation_mask_none (c : nat -> nat -> pyfloat) (threshold : pyfloat) (n : nat) :
  (forall i j, (i < j < n)%nat -> ~ correlated c threshold i j) ->
  correlation_mask c threshold n = replicate n false.
Proof.
  intros Hnone. apply list_eq. intros j.
  destruct (decide (j < n)%nat) as [Hj | Hj].
  - rewrite correlation_mask_false, lookup_replicate_2; [done.. |].
    intros i Hi. apply Hnone. lia.
  - rewrite !(proj2 (lookup_ge_None _ _)); [done | |].
    + rewrite length_replicate. lia.
    + rewrite correlation_mask_length. lia.
Qed.

Lemma kept_columns_all (n : nat) : kept_columns (replicate n false) = seq 0 n.
Proof.
  unfold kept_columns. rewrite length_replicate.
  apply filter_all, Forall_forall. intros j Hj. apply elem_of_seq in Hj.
  apply lookup_replicate_2. lia.
Qed.

Lemma row_select_all (X : matrix) (r : nat) :
  row (select_columns X (seq 0 (shape1 X))) r = row X r.
Proof.
  unfold row. cbn [shape1 cell select_columns]. rewrite length_seq.
  apply map_ext_in. intros c Hc. apply in_seq in Hc. by rewrite seq_nth by lia.
Qed.

Section FilterEdges.
Variable np_corrcoef : matrix -> corr_array.

Lemma drop_highly_correlated_features_mask
    (data : matrix) (threshold : pyfloat) (reduced : matrix) (drop_cols : list bool) :
  drop_highly_correlated_features np_corrcoef data threshold = Ok (reduced, drop_cols) ->
  exists c, np_corrcoef data = Corr2d (shape1 data) c
            /\ drop_cols = correlation_mask c threshold (shape1 data).
Proof.
  unfold drop_highly_correlated_features.
  destruct (np_corrcoef data) as [v | n c]; [done|].
  unfold bool_index_columns. rewrite length_map, correlation_mask_length.
  destruct (Nat.eqb_spec n (shape1 data)) as [-> |]; [|done].
  cbn [negb]. intros [= _ <-]. eauto.
Qed.

(** X10. A threshold that is NaN or plus infinity drops nothing: every mask
    entry is false and the returned matrix has all the rows of the input
    unchanged. *)
Theorem no_drop_at_nan_threshold
    (data : matrix) (threshold : pyfloat) (c : nat -> nat -> pyfloat) :
  np_corrcoef data = Corr2d (shape1 data) c ->
  threshold = NaN \/ threshold = Inf false ->
  exists reduced,
    drop_highly_correlated_features np_corrcoef data threshold
    = Ok (reduced, replicate (shape1 data) false)
    /\ shape0 reduced = shape0 data
    /\ shape1 reduced = shape1 data
    /\ forall r, row reduced r = row data r.
Proof.
  intros Hc Ht.
  rewrite (drop_highly_correlated_features_run np_corrcoef data threshold c Hc).
  rewrite correlation_mask_none.
  - rewrite kept_columns_all. eexists. split; [reflexivity|].
    split; [reflexivity|]. split; [cbn; apply length_seq | apply row_select_all].
  - intros i j _. unfold correlated.
    destruct Ht as [-> | ->]; destruct (Float.abs (c i j)) as [| [|] | q]; cbn; done.
Qed.

(** X11. A column whose correlations with all earlier columns are NaN, as
    numpy reports for a constant column, is never dropped, whatever the
    threshold. *)
Theorem nan_correlation_never_drops
    (data : matrix) (threshold : pyfloat) (c : nat -> nat -> pyfloat) (j : nat) :
  np_corrcoef data = Corr2d (shape1 data) c ->
  (j < shape1 data)%nat ->
  (forall i, (i < j)%nat -> c i j = NaN) ->
  exists reduced drop_cols,
    drop_highly_correlated_features np_corrcoef data threshold = Ok (reduced, drop_cols)
    /\ drop_cols !! j = Some false
    /\ j ∈ kept_columns drop_cols.
Proof.
  intros Hc Hj Hnan. eexists _, _.
  split; [by apply drop_highly_correlated_features_run|].
  assert (H : correlation_mask c threshold (shape1 data) !! j = Some false).
  { apply correlation_mask_false; [done|]. intros i Hi. unfold correlated.
    rewrite (Hnan i Hi). cbn. done. }
  split; [exact H|]. unfold kept_columns.
  rewrite list_elem_of_filter, elem_of_seq, correlation_mask_length. split; [done | lia].
Qed.

(** X12. Raising a finite threshold never drops more columns: a column
    marked under the larger threshold is marked under the smaller one. *)
Theorem correlation_mask_monotone
    (data : matrix) (t t' : Q) (reduced reduced' : matrix)
    (drop_cols drop_cols' : list bool) (j : nat) :
  drop_highly_correlated_features np_corrcoef data (Fin t) = Ok (reduced, drop_cols) ->
  drop_highly_correlated_features np_corrcoef data (Fin t') = Ok (reduced', drop_cols') ->
  (t <= t')%Q ->
  drop_cols' !! j = Some true ->
  drop_cols !! j = Some true.
Proof.
  intros H H' Ht.
  apply drop_highly_correlated_features_mask in H as (c & Hc & ->).
  apply drop_highly_correlated_features_mask in H' as (c' & Hc' & ->).
  rewrite Hc in Hc'. injection Hc' as <-.
  rewrite !correlation_mask_lookup. intros (Hj & i & Hi & Hcorr).
  split; [done|]. exists i. split; [done|].
  unfold correlated in *.
  destruct (Float.abs (c i j)) as [| [|] | q]; cbn in *; try done.
  destruct (Qle_bool q t) eqn:E; [|done].
  apply Qle_bool_iff in E.
  destruct (Qle_bool q t') eqn:E'; [done|].
  assert (Hq : ~ (q <= t')%Q) by (intros Hq; apply Qle_bool_iff in Hq; congruence).
  lra.
Qed.

End FilterEdges.

Lemma no_drop_at_nan_threshold_witness :
  Demo.corrcoef Demo.features = Corr2d (shape1 Demo.features) Demo.table
  /\ (NaN = NaN \/ NaN = Inf false)
  /\ exists reduced,
       drop_highly_correlated_features Demo.corrcoef Demo.features NaN
       = Ok (reduced, replicate (shape1 Demo.features) false).
Proof.
  assert (Ht : NaN = NaN \/ NaN = Inf false) by (left; reflexivity).
  split; [reflexivity|]. split; [exact Ht|].
  destruct (no_drop_at_nan_threshold Demo.corrcoef Demo.features NaN Demo.table eq_refl Ht)
    as (reduced & H & _).
  exists reduced. exact H.
Defined.

Lemma nan_correlation_never_drops_witness :
  (fun _ : matrix => Corr2d 2 (fun _ _ => NaN)) Demo.survey
  = Corr2d (shape1 Demo.survey) (fun _ _ => NaN)
  /\ (1 < shape1 Demo.survey)%nat
  /\ exists reduced drop_cols,
       drop_highly_correlated_features (fun _ => Corr2d 2 (fun _ _ => NaN))
         Demo.survey (Fin (95 # 100)) = Ok (reduced, drop_cols)
       /\ drop_cols !! 1%nat = Some false.
Proof.
  assert (Hj : (1 < shape1 Demo.survey)%nat) by (cbn; lia).
  split; [reflexivity|]. split; [exact Hj|].
  destruct (nan_correlation_never_drops (fun _ => Corr2d 2 (fun _ _ => NaN))
              Demo.survey (Fin (95 # 100)) (fun _ _ => NaN) 1%nat eq_refl Hj
              (fun _ _ => eq_refl)) as (reduced & drop_cols & H1 & H2 & _).
  exists reduced, drop_cols. split; [exact H1 | exact H2].
Defined.

Lemma correlation_mask_monotone_witness :
  drop_highly_correlated_features Demo.corrcoef Demo.features (Fin (1 # 2))
  = Ok (select_columns Demo.features [0; 1]%nat, [false; false; true])
  /\ drop_highly_correlated_features Demo.corrcoef Demo.features (Fin (95 # 100))
     = Ok (select_columns Demo.features [0; 1]%nat, [false; false; true])
  /\ (1 # 2 <= 95 # 100)%Q
  /\ [false; false; true] !! 2%nat = Some true.
Proof.
  assert (H : drop_highly_correlated_features Demo.corrcoef Demo.features (Fin (1 # 2))
              = Ok (select_columns Demo.features [0; 1]%nat, [false; false; true]))
    by reflexivity.
  assert (H' : drop_highly_correlated_features Demo.corrcoef Demo.features (Fin (95 # 100))
               = Ok (select_columns Demo.features [0; 1]%nat, [false; false; true]))
    by reflexivity.
  assert (Ht : (1 # 2 <= 95 # 100)%Q) by (unfold Qle; cbn; lia).
  split; [exact H|]. split; [exact H'|]. split; [exact Ht|].
  exact (correlation_mask_monotone Demo.corrcoef Demo.features _ _ _ _ _ _ 2%nat
           H H' Ht eq_refl).
Defined.

(** * Further properties of the fold partitioner *)

Section FoldSizes.
Local Open Scope nat_scope.

Lemma slice_NoDup {A} (lo hi : nat) (l : list A) : NoDup l -> NoDup (slice lo hi l).
Proof.
  intros H. unfold slice.
  eapply sublist_NoDup; [|apply sublist_take].
  eapply sublist_NoDup; [done | apply sublist_drop].
Qed.

Lemma slice_subseteq {A} (lo hi : nat) (l : list A) (x : A) :
  x ∈ slice lo hi l -> x ∈ l.
Proof.
  intros H. apply elem_of_slice in H as (p & _ & Hp).
  apply list_elem_of_lookup. eauto.
Qed.

(** A fold's training and test indices together are all the indices. *)
Lemma fold_split_covers (N : nat) (indices : list nat) (fold_size i : nat) :
  indices ≡ₚ seq 0 N ->
  (fold_split indices fold_size i).1 ++ (fold_split indices fold_size i).2 ≡ₚ seq 0 N.
Proof.
  intros Hperm. rewrite (fold_split_train N) by done.
  set (test := (fold_split indices fold_size i).2).
  transitivity (filter (fun x => x ∉ test) (seq 0 N)
                ++ filter (fun x => ~ (x ∉ test)) (seq 0 N));
    [|apply filter_app_complement].
  apply Permutation_app_head. symmetry.
  assert (Hnd : NoDup test).
  { unfold test. rewrite fold_split_test. apply slice_NoDup.
    rewrite Hperm. apply NoDup_seq. }
  apply NoDup_Permutation; [by apply NoDup_filter, NoDup_seq | done |].
  intros x. rewrite list_elem_of_filter. split.
  - intros [Hx _]. by destruct (decide (x ∈ test)).
  - intros Hx. split; [by intros Hn|].
    rewrite <- Hperm. unfold test in Hx. rewrite fold_split_test in Hx.
    by eapply slice_subseteq.
Qed.

Lemma fold_test_length (N k : nat) (indices : list nat) (i : nat) :
  indices ≡ₚ seq 0 N ->
  i < k ->
  length (fold_split indices (N / k) i).2 = N / k.
Proof.
  intros Hperm Hi.
  rewrite fold_split_test, slice_fold, length_take, length_drop.
  rewrite Hperm, length_seq. pose proof (fold_size_fits N k). nia.
Qed.

(** X13. In each of the [k] folds of a shuffled index range, the training
    and test indices together make up all [N] indices, the fold tests
    [N / k] of them and trains on the other [N - N / k]. *)
Theorem fold_sizes (N k : nat) (indices : list nat) (i : nat) :
  indices ≡ₚ seq 0 N ->
  i < k ->
  let train := (fold_split indices (N / k) i).1 in
  let test := (fold_split indices (N / k) i).2 in
  train ++ test ≡ₚ seq 0 N
  /\ length test = N / k
  /\ length train = N - N / k.
Proof.
  intros Hperm Hi train test.
  assert (Hcover : train ++ test ≡ₚ seq 0 N) by by apply fold_split_covers.
  assert (Htest : length test = N / k) by by apply fold_test_length.
  split; [done|]. split; [done|].
  apply Permutation_length in Hcover. rewrite length_app, length_seq in Hcover. lia.
Qed.

Lemma fold_sizes_witness :
  [3; 1; 4; 0; 2] ≡ₚ seq 0 5
  /\ 1 < 2
  /\ length (fold_split [3; 1; 4; 0; 2] (5 / 2) 1).1 = 5 - 5 / 2.
Proof.
  assert (Hperm : [3; 1; 4; 0; 2] ≡ₚ seq 0 5).
  { apply NoDup_Permutation; [| apply NoDup_seq |].
    { repeat (apply NoDup_cons; split;
                [rewrite ?elem_of_cons, elem_of_nil; lia|]).
      apply NoDup_nil_2. }
    intros x. rewrite elem_of_seq, !elem_of_cons, elem_of_nil. lia. }
  assert (Hi : 1 < 2) by lia.
  split; [exact Hperm|]. split; [exact Hi|].
  exact (proj2 (proj2 (fold_sizes 5 2 [3; 1; 4; 0; 2] 1 Hperm Hi))).
Defined.

(** X14. When [k] divides [N], the test folds laid end to end are the whole
    shuffled index array: every sample is tested in exactly one fold. *)
Theorem folds_cover_when_divisible (N k : nat) (indices : list nat) :
  indices ≡ₚ seq 0 N ->
  1 <= k ->
  N mod k = 0 ->
  concat (map (fun i => (fold_split indices (N / k) i).2) (seq 0 k)) = indices.
Proof.
  intros Hperm Hk Hmod.
  change (map (fun i => (fold_split indices (N / k) i).2) (seq 0 k))
    with (map (fun i => slice (i * (N / k)) ((i + 1) * (N / k)) indices) (seq 0 k)).
  rewrite concat_test_folds. apply take_ge.
  rewrite Hperm, length_seq. pose proof (Nat.div_mod_eq N k). lia.
Qed.

Lemma folds_cover_when_divisible_witness :
  [3; 1; 0; 2] ≡ₚ seq 0 4
  /\ 1 <= 2
  /\ 4 mod 2 = 0
  /\ concat (map (fun i => (fold_split [3; 1; 0; 2] (4 / 2) i).2) (seq 0 2))
     = [3; 1; 0; 2].
Proof.
  assert (Hperm : [3; 1; 0; 2] ≡ₚ seq 0 4).
  { apply NoDup_Permutation; [| apply NoDup_seq |].
    { repeat (apply NoDup_cons; split;
                [rewrite ?elem_of_cons, elem_of_nil; lia|]).
      apply NoDup_nil_2. }
    intros x. rewrite elem_of_seq, !elem_of_cons, elem_of_nil. lia. }
  assert (Hk : 1 <= 2) by lia.
  split; [exact Hperm|]. split; [exact Hk|]. split; [reflexivity|].
  exact (folds_cover_when_divisible 4 2 [3; 1; 0; 2] Hperm Hk eq_refl).
Defined.

Lemma fold_split_small (N k : nat) (indices : list nat) (i : nat) :
  indices ≡ₚ seq 0 N ->
  N < k ->
  fold_split indices (N / k) i = (seq 0 N, []).
Proof.
  intros Hperm Hk. rewrite Nat.div_small by done.
  unfold fold_split, slice, np_setdiff1d.
  rewrite !Nat.mul_0_r, Nat.sub_diag, take_0.
  rewrite (np_unique_shuffled N) by done.
  f_equal. apply filter_all, Forall_forall. intros x _. apply not_elem_of_nil.
Qed.

(** X15. With more folds than samples the fold size is 0: every fold tests
    nothing and trains on all the samples. *)
Theorem folds_empty_when_too_many (N k : nat) (indices : list nat) (i : nat) :
  indices ≡ₚ seq 0 N ->
  N < k ->
  fold_split indices (N / k) i = (seq 0 N, []).
Proof.
  apply fold_split_small.
Qed.

Lemma folds_empty_when_too_many_witness :
  [1; 0] ≡ₚ seq 0 2
  /\ 2 < 3
  /\ fold_split [1; 0] (2 / 3) 1 = ([0; 1], []).
Proof.
  assert (Hperm : [1; 0] ≡ₚ seq 0 2) by apply Permutation_swap.
  assert (Hk : 2 < 3) by lia.
  split; [exact Hperm|]. split; [exact Hk|].
  exact (folds_empty_when_too_many 2 3 [1; 0] 1 Hperm Hk).
Defined.

End FoldSizes.

(** * Further properties of cross-validation *)

(** The invariant rule with the knowledge that the item comes from the list. *)
Lemma for_each_invariant_in {S A B} (I : list B -> A -> S -> Prop)
    (body : A -> B -> M S A) (xs : list B) (a : A) (s : S) (a' : A) (s' : S) :
  I [] a s ->
  (forall done x a s a' s',
     x ∈ xs -> I done a s -> body a x s = (Ok a', s') -> I (done ++ [x]) a' s') ->
  for_each xs body a s = (Ok a', s') ->
  I xs a' s'.
Proof.
  revert I a s. induction xs as [|x xs IH]; intros I a s H0 Hstep Hrun.
  - cbn in Hrun. injection Hrun as <- <-. exact H0.
  - cbn [for_each] in Hrun. unfold bind in Hrun.
    destruct (body a x s) as [[a1 | e] s1] eqn:E; [|done].
    apply (IH (fun done => I (x :: done)) a1 s1).
    + apply (Hstep [] x a s a1 s1); [apply list_elem_of_here | done..].
    + intros done x' b t b' t' Hx' Hb Hbody.
      apply (Hstep (x :: done) x' b t b' t'); [by apply list_elem_of_further | done..].
    + exact Hrun.
Qed.

Lemma np_sum_le_length (l : list bool) : 0 <= np_sum l <= Z.of_nat (length l).
Proof. unfold np_sum. pose proof (length_filter (fun b => b = true) l). lia. Qed.

(** The agreement rate of a non-empty fold is a fraction; that of an empty
    fold is NaN. *)
Lemma mean_agreement_Ok (y_pred : list bool) (y_test : list Z) (a : pyfloat) :
  mean_agreement y_pred y_test = Ok a ->
  length y_pred = length y_test
  /\ (y_test = [] -> a = NaN)
  /\ (y_test <> [] -> in_unit a).
Proof.
  unfold mean_agreement.
  destruct (Nat.eqb_spec (length y_pred) (length y_test)) as [Hlen|]; [|done].
  cbn [negb]. intros [= <-]. split; [done|].
  set (hits := np_sum _).
  assert (Hhits : 0 <= hits <= Z.of_nat (length y_pred)).
  { pose proof (np_sum_le_length
                  (zip_with (fun p t => Z.b2z p =? t) y_pred y_test)) as H.
    rewrite length_zip_with, <- Hlen, Nat.min_id in H. exact H. }
  split.
  - intros ->. destruct y_pred; [|done]. reflexivity.
  - intros Hne. assert (Hpos : (0 < length y_pred)%nat).
    { rewrite Hlen. destruct y_test; [done | cbn; lia]. }
    unfold Float.div, Float.of_nat, Float.of_Z. rewrite Qzero_inject_Z by lia.
    eexists. split; [reflexivity|].
    assert (Hn : (0 < inject_Z (Z.of_nat (length y_pred)))%Q).
    { rewrite <- (Zlt_Qlt 0). lia. }
    assert (H0 : (0 <= inject_Z hits)%Q) by (rewrite <- (Zle_Qle 0); lia).
    assert (H1 : (inject_Z hits <= inject_Z (Z.of_nat (length y_pred)))%Q).
    { rewrite <- Zle_Qle. lia. }
    split; [apply Qle_shift_div_l | apply Qle_shift_div_r]; lra.
Qed.

Lemma compute_f1_in_unit (y_true y_pred : list Z) (f1 : pyfloat) :
  compute_f1 y_true y_pred = Ok f1 -> in_unit f1.
Proof.
  intros H. pose proof (compute_f1_Ok_length _ _ _ H) as Hlen.
  rewrite compute_f1_value in H by done. injection H as <-.
  eexists. split; [reflexivity|].
  apply f1_policy_facts; apply confusion_count_nonneg.
Qed.

(** The sum and the mean of scores between 0 and 1. *)
Lemma sum_in_unit (l : list pyfloat) (a : Q) :
  Forall in_unit l ->
  exists s, foldl Float.add (Fin a) l = Fin s
            /\ (a <= s <= a + inject_Z (Z.of_nat (length l)))%Q.
Proof.
  intros H. revert a. induction H as [|x l (q & -> & Hq) _ IH]; intros a.
  - exists a. split; [done|]. cbn [length].
    change (inject_Z (Z.of_nat 0)) with 0%Q. lra.
  - cbn [foldl Float.add]. destruct (IH (a + q)%Q) as (s & -> & Hs).
    exists s. split; [done|].
    cbn [length]. rewrite Nat2Z.inj_succ, <- Z.add_1_r, inject_Z_plus.
    change (inject_Z 1) with 1%Q. lra.
Qed.

Lemma mean_in_unit (l : list pyfloat) :
  l <> [] -> Forall in_unit l -> in_unit (Float.mean l).
Proof.
  intros Hne H. unfold Float.mean, Float.sum, Float.zero.
  destruct (sum_in_unit l 0 H) as (s & -> & Hs).
  assert (Hpos : (0 < length l)%nat) by (destruct l; [done | cbn; lia]).
  unfold Float.div, Float.of_nat, Float.of_Z. rewrite Qzero_inject_Z by lia.
  assert (Hn : (0 < inject_Z (Z.of_nat (length l)))%Q).
  { rewrite <- (Zlt_Qlt 0). lia. }
  eexists. split; [reflexivity|].
  split; [apply Qle_shift_div_l | apply Qle_shift_div_r]; lra.
Qed.

Lemma sum_nan (l : list pyfloat) : foldl Float.add NaN l = NaN.
Proof. induction l as [|x l IH]; [done|]. exact IH. Qed.

Lemma mean_nan (l : list pyfloat) (n : nat) :
  Float.mean (replicate (S n) NaN) = NaN.
Proof. unfold Float.mean, Float.sum. cbn [replicate foldl Float.add]. by rewrite sum_nan. Qed.

Lemma mean_zeros (n : nat) :
  Float.eqb (Float.mean (replicate (S n) Float.zero)) Float.zero = true.
Proof.
  destruct (mean_in_unit (replicate (S n) Float.zero)) as (q & Hq & _).
  { done. }
  { apply Forall_replicate. exists 0%Q. split; [done | lra]. }
  rewrite Hq. cbn. apply Qeq_bool_iff.
  unfold Float.mean, Float.sum in Hq.
  destruct (sum_in_unit (replicate (S n) Float.zero) 0) as (s & Hs & _).
  { apply Forall_replicate. exists 0%Q. split; [done | lra]. }
  assert (Hs0 : forall l a, Forall (fun x => x = Float.zero) l ->
                 exists s', foldl Float.add (Fin a) l = Fin s' /\ (s' == a)%Q).
  { clear. intros l. induction l as [|x l IH]; intros a H.
    - exists a. split; [done | reflexivity].
    - inversion H as [|? ? -> Hl]; subst. cbn [foldl Float.add Float.zero].
      destruct (IH (a + 0)%Q Hl) as (s' & -> & Hs'). exists s'. split; [done | lra]. }
  destruct (Hs0 (replicate (S n) Float.zero) 0%Q) as (s' & Hs' & Hz).
  { by apply Forall_replicate. }
  unfold Float.zero in Hq at 1. rewrite Hs' in Hq.
  unfold Float.div, Float.of_nat, Float.of_Z in Hq.
  rewrite length_replicate, Qzero_inject_Z in Hq by lia.
  injection Hq as <-. rewrite Hz. unfold Qdiv. ring.
Qed.

Section Scores.
Variable RNG : Type.
Variable np_random_shuffle : list nat -> RNG -> list nat * RNG.
Variable sigmoid : pyfloat -> pyfloat.
Variable V : Type.
Hypothesis shuffle_permutes : forall l g, (np_random_shuffle l g).1 ≡ₚ l.

(** What a fold that completes has appended to the two score lists. *)
Lemma cv_fold_Ok (X : matrix) (y : list Z) (model : model_fn RNG V)
    (params : gmap string V) (threshold : pyfloat) (indices : list nat)
    (fold_size : nat) (accuracies f1_scores : list pyfloat) (i : nat) (g : RNG)
    (acc' : list pyfloat * list pyfloat) (g' : RNG) :
  cv_fold RNG sigmoid V X y model params threshold indices fold_size
    (accuracies, f1_scores) i g = (Ok acc', g') ->
  exists (y_test : list Z) (y_pred : list bool) (a f : pyfloat),
    length y_test = length (fold_split indices fold_size i).2
    /\ mean_agreement y_pred y_test = Ok a
    /\ compute_f1 y_test (map Z.b2z y_pred) = Ok f
    /\ acc' = (accuracies ++ [a], f1_scores ++ [f]).
Proof.
  unfold cv_fold, bind, lift_result, ret.
  destruct (fold_split indices fold_size i) as [train_indices test_indices].
  cbn [snd].
  destruct (int_index_rows X train_indices) as [X_train|]; [|done].
  destruct (int_index_rows X test_indices) as [X_test|]; [|done].
  destruct (int_index y train_indices) as [y_train|]; [|done].
  destruct (int_index y test_indices) as [y_test|] eqn:Ey; [|done].
  destruct (model y_train X_train params g) as [[[w loss]|] g1]; [|done].
  destruct (predict_logistic sigmoid X_test w threshold) as [y_pred|]; [|done].
  destruct (mean_agreement y_pred y_test) as [a|] eqn:Ea; [|done].
  destruct (compute_f1 y_test (map Z.b2z y_pred)) as [f|] eqn:Ef; [|done].
  intros [= <- <-]. exists y_test, y_pred, a, f. split; [|done].
  unfold int_index in Ey.
  destruct (mapM _ test_indices) as [l|] eqn:El; [|done].
  injection Ey as ->. symmetry. by eapply length_mapM.
Qed.

Lemma k_fold_in_unit (X : matrix) (y : list Z)
    (model : model_fn RNG V) (k : nat) (params : gmap string V)
    (threshold : pyfloat) (g : RNG) :
  length y = shape0 X ->
  (1 <= k <= shape0 X)%nat ->
  well_behaved model ->
  exists accuracy f1_score g',
    k_fold_cross_validation RNG np_random_shuffle sigmoid V
      X y model k params threshold g = (Ok (accuracy, f1_score), g')
    /\ in_unit accuracy /\ in_unit f1_score.
Proof.
  intros Hlen Hk Hmodel.
  destruct (k_fold_cross_validation_returns RNG np_random_shuffle sigmoid V
              shuffle_permutes X y model k params threshold g Hlen)
    as ([accuracy f1_score] & g' & Hrun); [lia | done |].
  exists accuracy, f1_score, g'. split; [done|].
  unfold k_fold_cross_validation, bind, shuffled, ret in Hrun.
  pose proof (shuffle_permutes (seq 0 (shape0 X)) g) as Hperm.
  destruct (np_random_shuffle (seq 0 (shape0 X)) g) as [indices g1]. cbn [fst] in Hperm.
  destruct (Nat.eqb_spec k 0) as [|_]; [lia|].
  destruct (for_each (seq 0 k) _ _ g1) as [[[accuracies f1_scores]|] g2] eqn:Hloop;
    [|done].
  injection Hrun as <- <- <-.
  apply (for_each_invariant_in
           (fun done acc _ => Forall in_unit acc.1 /\ Forall in_unit acc.2
                              /\ length acc.1 = length done
                              /\ length acc.2 = length done)) in Hloop.
  - cbn [fst snd] in Hloop. destruct Hloop as (Ha & Hf & Hla & Hlf).
    rewrite length_seq in Hla, Hlf.
    split; apply mean_in_unit; try done.
    + intros ->. cbn in Hla. lia.
    + intros ->. cbn in Hlf. lia.
  - cbn. done.
  - intros done i [accs f1s] g3 acc' g4 Hi (Ha & Hf & Hla & Hlf) Hfold.
    cbn [fst snd] in *.
    apply cv_fold_Ok in Hfold as (y_test & y_pred & a & f & Hy & Hacc & Hf1 & ->).
    cbn [fst snd]. apply elem_of_seq in Hi.
    rewrite (fold_test_length (shape0 X) k) in Hy by (done || lia).
    apply mean_agreement_Ok in Hacc as (_ & _ & Hunit).
    apply compute_f1_in_unit in Hf1.
    assert (Hne : y_test <> []).
    { intros ->. cbn in Hy.
      assert (1 <= shape0 X / k)%nat by (apply Nat.div_le_lower_bound; lia). lia. }
    rewrite !Forall_app, !length_app, !Forall_singleton. cbn [length].
    repeat split; try done; by (apply Hunit || lia).
Qed.

Lemma k_fold_nan (X : matrix) (y : list Z)
    (model : model_fn RNG V) (k : nat) (params : gmap string V)
    (threshold : pyfloat) (g : RNG) :
  length y = shape0 X ->
  (shape0 X < k)%nat ->
  well_behaved model ->
  exists f1_score g',
    k_fold_cross_validation RNG np_random_shuffle sigmoid V
      X y model k params threshold g = (Ok (NaN, f1_score), g')
    /\ Float.eqb f1_score Float.zero = true.
Proof.
  intros Hlen Hk Hmodel.
  destruct (k_fold_cross_validation_returns RNG np_random_shuffle sigmoid V
              shuffle_permutes X y model k params threshold g Hlen)
    as ([accuracy f1_score] & g' & Hrun); [lia | done |].
  rewrite Hrun.
  unfold k_fold_cross_validation, bind, shuffled, ret in Hrun.
  pose proof (shuffle_permutes (seq 0 (shape0 X)) g) as Hperm.
  destruct (np_random_shuffle (seq 0 (shape0 X)) g) as [indices g1]. cbn [fst] in Hperm.
  destruct (Nat.eqb_spec k 0) as [|_]; [lia|].
  destruct (for_each (seq 0 k) _ _ g1) as [[[accuracies f1_scores]|] g2] eqn:Hloop;
    [|done].
  injection Hrun as <- <- <-.
  apply (for_each_invariant
           (fun done acc _ => acc.1 = replicate (length done) NaN
                              /\ acc.2 = replicate (length done) Float.zero)) in Hloop.
  - cbn [fst snd] in Hloop. destruct Hloop as [-> ->]. rewrite length_seq.
    destruct k as [|k]; [lia|]. rewrite mean_nan by exact [].
    eexists _, _. split; [reflexivity | apply mean_zeros].
  - cbn. done.
  - intros done i [accs f1s] g3 acc' g4 [Ha Hf] Hfold. cbn [fst snd] in *.
    apply cv_fold_Ok in Hfold as (y_test & y_pred & a & f & Hy & Hacc & Hf1 & ->).
    rewrite (fold_split_small (shape0 X) k) in Hy by done.
    cbn in Hy. destruct y_test; [|done].
    apply mean_agreement_Ok in Hacc as (Hp & Hnan & _).
    destruct y_pred; [|done]. rewrite Hnan in * by done.
    cbn in Hf1. injection Hf1 as <-.
    cbn [fst snd]. rewrite Ha, Hf, length_app. cbn [length].
    rewrite Nat.add_1_r, !replicate_S_end. done.
Qed.

(** X16. With one label per row, between 1 and [N] folds and a well-behaved
    training routine, cross-validation raises nothing and both scores it
    returns are finite numbers between 0 and 1. *)
Theorem k_fold_scores_in_range (X : matrix) (y : list Z)
    (model : model_fn RNG V) (k : nat) (params : gmap string V)
    (threshold : pyfloat) (g : RNG) :
  length y = shape0 X ->
  (1 <= k <= shape0 X)%nat ->
  well_behaved model ->
  exists accuracy f1_score g',
    k_fold_cross_validation RNG np_random_shuffle sigmoid V
      X y model k params threshold g = (Ok (accuracy, f1_score), g')
    /\ in_unit accuracy /\ in_unit f1_score.
Proof. apply k_fold_in_unit. Qed.

(** X17. With more folds than samples every test fold is empty:
    cross-validation still completes, but the mean accuracy is NaN, the mean
    of per-fold means of nothing, and the F1 score is 0. *)
Theorem k_fold_nan_when_too_many_folds (X : matrix) (y : list Z)
    (model : model_fn RNG V) (k : nat) (params : gmap string V)
    (threshold : pyfloat) (g : RNG) :
  length y = shape0 X ->
  (shape0 X < k)%nat ->
  well_behaved model ->
  exists f1_score g',
    k_fold_cross_validation RNG np_random_shuffle sigmoid V
      X y model k params threshold g = (Ok (NaN, f1_score), g')
    /\ Float.eqb f1_score Float.zero = true.
Proof. apply k_fold_nan. Qed.

End Scores.

Lemma int_index_Raise {A} (y : list A) (idx : list nat) (e : exn) :
  int_index y idx = Raise e -> e = IndexError.
Proof. unfold int_index. destruct (mapM _ idx); [done|]. by intros [= <-]. Qed.

Lemma int_index_out_of_range {A} (y : list A) (idx : list nat) (i : nat) :
  i ∈ idx -> (length y <= i)%nat -> int_index y idx = Raise IndexError.
Proof.
  intros Hi Hlen. unfold int_index.
  destruct (mapM (fun i => y !! i) idx) as [l|] eqn:E; [|done].
  apply mapM_Some_1 in E.
  apply list_elem_of_lookup in Hi as [n Hn].
  destruct (Forall2_lookup_l _ _ _ _ _ E Hn) as (v & _ & Hv).
  apply lookup_lt_Some in Hv. lia.
Qed.

Section LabelLengths.
Variable RNG : Type.
Variable np_random_shuffle : list nat -> RNG -> list nat * RNG.
Variable sigmoid : pyfloat -> pyfloat.
Variable V : Type.
Hypothesis shuffle_permutes : forall l g, (np_random_shuffle l g).1 ≡ₚ l.

(** X18. With fewer labels than rows and at least one fold,
    cross-validation fails with IndexError in its first fold, when it indexes
    the labels: the training routine is never called, and the generator is
    left as the shuffle left it. *)
Theorem k_fold_short_labels_fail (X : matrix) (y : list Z)
    (model : model_fn RNG V) (k : nat) (params : gmap string V)
    (threshold : pyfloat) (g : RNG) :
  (length y < shape0 X)%nat ->
  k <> 0%nat ->
  k_fold_cross_validation RNG np_random_shuffle sigmoid V
    X y model k params threshold g
  = (Raise IndexError, (np_random_shuffle (seq 0 (shape0 X)) g).2).
Proof.
  intros Hlen Hk. unfold k_fold_cross_validation, bind, shuffled.
  pose proof (shuffle_permutes (seq 0 (shape0 X)) g) as Hperm.
  destruct (np_random_shuffle (seq 0 (shape0 X)) g) as [indices g1].
  cbn [fst snd] in *.
  destruct (Nat.eqb_spec k 0) as [|_]; [done|].
  destruct k as [|k]; [done|]. cbn [seq for_each]. unfold bind at 1.
  set (fold_size := (shape0 X / S k)%nat).
  enough (cv_fold RNG sigmoid V X y model params threshold indices fold_size
            ([], []) 0%nat g1 = (Raise IndexError, g1)) as -> by done.
  unfold cv_fold, bind, lift_result.
  destruct (fold_split_in_range (shape0 X) indices fold_size 0 Hperm) as [Htrain Htest].
  pose proof (fold_split_covers (shape0 X) indices fold_size 0 Hperm) as Hcover.
  destruct (fold_split indices fold_size 0) as [train_indices test_indices].
  cbn [fst snd] in *.
  rewrite !int_index_rows_Ok by done.
  assert (Hin : length y ∈ train_indices ++ test_indices).
  { rewrite Hcover. apply elem_of_seq. lia. }
  apply elem_of_app in Hin as [Hin | Hin].
  - by rewrite (int_index_out_of_range y train_indices (length y)).
  - destruct (int_index y train_indices) as [y_train | e] eqn:E.
    + by rewrite (int_index_out_of_range y test_indices (length y)).
    + by apply int_index_Raise in E as ->.
Qed.

(** X19. Labels beyond the row count are never read: with more labels than
    rows, cross-validation behaves exactly as on the first [N] labels. *)
Theorem k_fold_reads_first_labels (X : matrix) (y : list Z)
    (model : model_fn RNG V) (k : nat) (params : gmap string V)
    (threshold : pyfloat) (g : RNG) :
  (shape0 X <= length y)%nat ->
  k_fold_cross_validation RNG np_random_shuffle sigmoid V
    X y model k params threshold g
  = k_fold_cross_validation RNG np_random_shuffle sigmoid V
    X (take (shape0 X) y) model k params threshold g.
Proof.
  intros Hlen. rewrite <- (take_drop (shape0 X) y) at 1.
  apply (k_fold_ignores_extra_labels RNG np_random_shuffle sigmoid V shuffle_permutes).
  rewrite length_take. lia.
Qed.

End LabelLengths.

(** ** The stand-ins satisfy the assumptions *)

Lemma demo_shuffle_permutes (l : list nat) (g : unit) : (Demo.shuffle l g).1 ≡ₚ l.
Proof. cbn. symmetry. apply Permutation_rev. Qed.

Lemma demo_ones_model_well_behaved : well_behaved Demo.ones_model.
Proof.
  intros y_train X_train params g. eexists _, _, _. split; [reflexivity|].
  apply length_replicate.
Qed.

Lemma k_fold_scores_in_range_witness :
  length Demo.labels = shape0 Demo.samples
  /\ (1 <= 2 <= shape0 Demo.samples)%nat
  /\ exists accuracy f1_score g',
       k_fold_cross_validation unit Demo.shuffle Demo.squash Q
         Demo.samples Demo.labels Demo.ones_model 2 ∅ (Fin (1 # 2)) tt
       = (Ok (accuracy, f1_score), g')
       /\ in_unit accuracy /\ in_unit f1_score.
Proof.
  assert (Hlen : length Demo.labels = shape0 Demo.samples) by reflexivity.
  assert (Hk : (1 <= 2 <= shape0 Demo.samples)%nat) by (cbn; lia).
  split; [exact Hlen|]. split; [exact Hk|].
  exact (k_fold_scores_in_range unit Demo.shuffle Demo.squash Q demo_shuffle_permutes
           Demo.samples Demo.labels Demo.ones_model 2 ∅ (Fin (1 # 2)) tt
           Hlen Hk demo_ones_model_well_behaved).
Defined.

Lemma k_fold_nan_when_too_many_folds_witness :
  length Demo.labels = shape0 Demo.samples
  /\ (shape0 Demo.samples < 3)%nat
  /\ exists f1_score g',
       k_fold_cross_validation unit Demo.shuffle Demo.squash Q
         Demo.samples Demo.labels Demo.ones_model 3 ∅ (Fin (1 # 2)) tt
       = (Ok (NaN, f1_score), g')
       /\ Float.eqb f1_score Float.zero = true.
Proof.
  assert (Hlen : length Demo.labels = shape0 Demo.samples) by reflexivity.
  assert (Hk : (shape0 Demo.samples < 3)%nat) by (cbn; lia).
  split; [exact Hlen|]. split; [exact Hk|].
  exact (k_fold_nan_when_too_many_folds unit Demo.shuffle Demo.squash Q
           demo_shuffle_permutes Demo.samples Demo.labels Demo.ones_model 3 ∅
           (Fin (1 # 2)) tt Hlen Hk demo_ones_model_well_behaved).
Defined.

Lemma k_fold_short_labels_fail_witness :
  (length [1] < shape0 Demo.samples)%nat
  /\ 2%nat <> 0%nat
  /\ k_fold_cross_validation unit Demo.shuffle Demo.squash Q
       Demo.samples [1] Demo.ones_model 2 ∅ (Fin (1 # 2)) tt
     = (Raise IndexError, (Demo.shuffle (seq 0 (shape0 Demo.samples)) tt).2).
Proof.
  assert (Hlen : (length [1] < shape0 Demo.samples)%nat) by (cbn; lia).
  assert (Hk : 2%nat <> 0%nat) by lia.
  split; [exact Hlen|]. split; [exact Hk|].
  exact (k_fold_short_labels_fail unit Demo.shuffle Demo.squash Q demo_shuffle_permutes
           Demo.samples [1] Demo.ones_model 2 ∅ (Fin (1 # 2)) tt Hlen Hk).
Defined.

Lemma k_fold_reads_first_labels_witness :
  (shape0 Demo.samples <= length [1; 0; 1])%nat
  /\ k_fold_cross_validation unit Demo.shuffle Demo.squash Q
       Demo.samples [1; 0; 1] Demo.ones_model 2 ∅ (Fin (1 # 2)) tt
     = k_fold_cross_validation unit Demo.shuffle Demo.squash Q
         Demo.samples (take (shape0 Demo.samples) [1; 0; 1]) Demo.ones_model 2 ∅
         (Fin (1 # 2)) tt.
Proof.
  assert (Hlen : (shape0 Demo.samples <= length [1; 0; 1])%nat) by (cbn; lia).
  split; [exact Hlen|].
  exact (k_fold_reads_first_labels unit Demo.shuffle Demo.squash Q demo_shuffle_permutes
           Demo.samples [1; 0; 1] Demo.ones_model 2 ∅ (Fin (1 # 2)) tt Hlen).
Defined.

(** * Further properties of the grid search *)

Lemma elem_of_grid {V} (lambdas gammas : list V) (lambda_ gamma : V) :
  (lambda_, gamma) ∈ grid lambdas gammas <-> lambda_ ∈ lambdas /\ gamma ∈ gammas.
Proof.
  unfold grid. rewrite !list_elem_of_In, in_flat_map. split.
  - intros (g & Hg & H). apply in_map_iff in H as (l & [= <- <-] & Hl). done.
  - intros [Hl Hg]. exists gamma. split; [done|]. apply in_map_iff. eauto.
Qed.

Lemma grid_nil_r {V} (lambdas : list V) : grid lambdas [] = [].
Proof. reflexivity. Qed.

Lemma grid_non_empty {V} (lambdas gammas : list V) :
  lambdas <> [] -> gammas <> [] -> grid lambdas gammas <> [].
Proof.
  destruct lambdas as [|l ls]; [done|]. destruct gammas as [|g gs]; [done|]. done.
Qed.

(** The running best stays as it is when no line reaches it. *)
Lemma select_unreached {V} (b : best V) (ps : list (progress V)) :
  Forall (fun q => p_accuracy V q = NaN) ps -> select b ps = b.
Proof.
  induction 1 as [|q ps Hq _ IH]; [done|].
  unfold select in *. cbn [foldl]. unfold update_best at 2.
  rewrite Hq. cbn [Float.geb]. by rewrite andb_false_r.
Qed.

Lemma in_unit_reaches_zero {V} (q : progress V) :
  in_unit (p_accuracy V q) -> in_unit (p_f1_score V q) ->
  reaches q Float.zero Float.zero = true.
Proof.
  intros (a & Ha & Ha0 & _) (f & Hf & Hf0 & _). unfold reaches.
  rewrite Ha, Hf. cbn. apply andb_true_intro.
  split; by apply Qle_bool_iff.
Qed.

Section Search.
Variable RNG : Type.
Variable np_random_shuffle : list nat -> RNG -> list nat * RNG.
Variable sigmoid : pyfloat -> pyfloat.
Variable V : Type.

Local Abbreviation cv := (k_fold_cross_validation RNG np_random_shuffle sigmoid V).
Local Abbreviation search := (hyperparameter_tuning RNG np_random_shuffle sigmoid V).

(** X20. With an empty list of [gamma] values, or an empty list of
    [lambda_] values, the search does nothing: it returns (None, None),
    prints no line, runs no cross-validation and leaves the dictionary and
    the generator untouched. *)
Theorem empty_grid_returns_none (X : matrix) (y : list Z) (model : model_fn RNG V)
    (k : nat) (w : world RNG V) :
  (forall lambdas, search X y model lambdas [] k w = (Ok (None, None), w))
  /\ (forall gammas, search X y model [] gammas k w = (Ok (None, None), w)).
Proof.
  split; [done|]. intros gammas. unfold hyperparameter_tuning, bind.
  replace (for_each gammas _ (best_init V) w) with (@Ok (best V) (best_init V), w);
    [done|].
  generalize (best_init V). induction gammas as [|gamma gammas IH]; intros b; [done|].
  cbn [for_each]. unfold bind, ret. cbn. apply IH.
Qed.

(** X21. With [k = 0] and a non-empty grid the search fails with
    ZeroDivisionError at its first grid point: nothing has been printed, but
    the dictionary already holds the first [lambda_] and the first [gamma],
    and the generator has been advanced by one shuffle. *)
Theorem zero_folds_fail (X : matrix) (y : list Z) (model : model_fn RNG V)
    (lambda_ gamma : V) (lambdas gammas : list V) (w : world RNG V) :
  search X y model (lambda_ :: lambdas) (gamma :: gammas) 0 w
  = (Raise ZeroDivisionError,
     {| np_random := (np_random_shuffle (seq 0 (shape0 X)) (np_random RNG V w)).2;
        model_params :=
          <["gamma" := gamma]> (<["lambda_" := lambda_]> (model_params RNG V w));
        stdout := stdout RNG V w |}).
Proof.
  unfold hyperparameter_tuning, bind. cbn [for_each]. unfold bind.
  unfold tuning_step, bind, set_param, with_params. cbn.
  unfold k_fold_cross_validation, bind, shuffled. cbn.
  by destruct (np_random_shuffle (seq 0 (shape0 X)) (np_random RNG V w)).
Qed.

(** X22. A completed search returns either (None, None) or a value of
    [lambdas] together with a value of [gammas]. *)
Theorem result_from_grid (X : matrix) (y : list Z) (model : model_fn RNG V)
    (lambdas gammas : list V) (k : nat) (w w' : world RNG V)
    (res : option V * option V) :
  search X y model lambdas gammas k w = (Ok res, w') ->
  res = (None, None)
  \/ exists lambda_ gamma,
       res = (Some lambda_, Some gamma) /\ lambda_ ∈ lambdas /\ gamma ∈ gammas.
Proof.
  intros Hrun.
  apply hyperparameter_tuning_Ok in Hrun as (ps & _ & Hpts & -> & _).
  destruct (select_last_winner (best_init V) ps) as [[-> _] | (i & p & Hp & -> & _)].
  - by left.
  - right. exists (p_lambda V p), (p_gamma V p). split; [done|].
    apply elem_of_grid. rewrite <- Hpts.
    apply list_elem_of_lookup_2 in Hp.
    change (p_lambda V p, p_gamma V p) with (point p).
    apply list_elem_of_fmap_2. done.
Qed.

(** One grid point of a completed search: its line carries the scores that
    cross-validation returned for that point. *)
Lemma tuning_step_scores (X : matrix) (y : list Z) (model : model_fn RNG V) (k : nat)
    (gamma lambda_ : V) (b b' : best V) (w w' : world RNG V) :
  tuning_step RNG np_random_shuffle sigmoid V X y model k gamma b lambda_ w
  = (Ok b', w') ->
  exists params g accuracy f1_score g',
    cv X y model k params (Fin (1 # 2)) g = (Ok (accuracy, f1_score), g')
    /\ stdout RNG V w'
       = stdout RNG V w ++ [{| p_lambda := lambda_; p_gamma := gamma;
                               p_accuracy := accuracy; p_f1_score := f1_score |}].
Proof.
  unfold tuning_step, bind, set_param, with_params, print, ret. cbn.
  destruct (k_fold_cross_validation _ _ _ _ _ _ _ _ _ _ _)
    as [[[accuracy f1_score] | e] g] eqn:E; [|done].
  intros [= <- <-]. cbn. eauto 10.
Qed.

(** A property of every result of cross-validation holds of every line a
    completed search prints. *)
Lemma search_lines (R : pyfloat -> pyfloat -> Prop)
    (X : matrix) (y : list Z) (model : model_fn RNG V)
    (lambdas gammas : list V) (k : nat) (w w' : world RNG V)
    (res : option V * option V) :
  (forall params g accuracy f1_score g',
     cv X y model k params (Fin (1 # 2)) g = (Ok (accuracy, f1_score), g') ->
     R accuracy f1_score) ->
  search X y model lambdas gammas k w = (Ok res, w') ->
  exists ps, stdout RNG V w' = stdout RNG V w ++ ps
             /\ Forall (fun q => R (p_accuracy V q) (p_f1_score V q)) ps.
Proof.
  intros HR. unfold hyperparameter_tuning, bind, ret.
  destruct (for_each gammas _ _ w) as [[b | e] w1] eqn:Hrun; [|done].
  intros [= <- <-].
  pose (I := fun (w0 w1 : world RNG V) =>
    exists ps, stdout RNG V w1 = stdout RNG V w0 ++ ps
               /\ Forall (fun q => R (p_accuracy V q) (p_f1_score V q)) ps).
  assert (Hrefl : forall w0, I w0 w0).
  { intros w0. exists []. by rewrite app_nil_r. }
  assert (Htrans : forall w0 w1 w2, I w0 w1 -> I w1 w2 -> I w0 w2).
  { intros w0 w2 w3 (ps & H1 & F1) (qs & H2 & F2). exists (ps ++ qs).
    rewrite H2, H1, app_assoc. split; [done|]. by apply Forall_app. }
  revert Hrun.
  apply (for_each_invariant (fun _ _ w1 => I w w1)); [apply Hrefl|].
  intros _ gamma b0 w0 b1 w2 Hw0 Hinner. apply (Htrans _ _ _ Hw0). revert Hinner.
  apply (for_each_invariant (fun _ _ w1 => I w0 w1)); [apply Hrefl|].
  intros _ lambda_ b2 w3 b3 w4 Hw3 Hstep. apply (Htrans _ _ _ Hw3).
  apply tuning_step_scores in Hstep as (params & g & a & f & g' & Hcv & Hout).
  eexists. split; [exact Hout|]. apply Forall_singleton. cbn. by eapply HR.
Qed.

Hypothesis shuffle_permutes : forall l g, (np_random_shuffle l g).1 ≡ₚ l.

(** X23. With one label per row, between 1 and [N] folds, a well-behaved
    training routine and a non-empty grid, the search completes and returns a
    grid point, never (None, None): the first point already reaches the
    initial record. *)
Theorem search_returns_grid_point (X : matrix) (y : list Z) (model : model_fn RNG V)
    (lambdas gammas : list V) (k : nat) (w : world RNG V) :
  length y = shape0 X ->
  (1 <= k <= shape0 X)%nat ->
  well_behaved model ->
  lambdas <> [] ->
  gammas <> [] ->
  exists lambda_ gamma w',
    search X y model lambdas gammas k w = (Ok (Some lambda_, Some gamma), w')
    /\ lambda_ ∈ lambdas /\ gamma ∈ gammas.
Proof.
  intros Hlen Hk Hmodel Hl Hg.
  destruct (hyperparameter_tuning_returns RNG np_random_shuffle sigmoid V
              shuffle_permutes X y model lambdas gammas k w Hlen)
    as (res & w' & Hrun); [lia | done |].
  pose proof Hrun as Hlines.
  apply (search_lines (fun a f => in_unit a /\ in_unit f)) in Hlines
    as (ps' & Hout' & Hunit).
  2:{ intros params g a f g' Hcv.
      destruct (k_fold_in_unit RNG np_random_shuffle sigmoid V shuffle_permutes
                  X y model k params (Fin (1 # 2)) g Hlen Hk Hmodel)
        as (a0 & f0 & g0 & Hcv0 & Ha & Hf).
      rewrite Hcv in Hcv0. by injection Hcv0 as -> -> _. }
  pose proof Hrun as Hrun'.
  apply hyperparameter_tuning_Ok in Hrun' as (ps & Hout & Hpts & Hres & _).
  assert (ps' = ps) as -> by (rewrite Hout in Hout'; by apply app_inv_head in Hout').
  destruct (select_last_winner (best_init V) ps)
    as [[_ Hnone] | (i & p & Hp & Hsel & _)].
  - exfalso. destruct ps as [|q ps].
    + cbn in Hpts. by apply (grid_non_empty lambdas gammas).
    + apply Forall_cons in Hunit as [[Ha Hf] _].
      specialize (Hnone q (list_elem_of_here _ _)).
      unfold best_init in Hnone. cbn [best_accuracy best_f1_score] in Hnone.
      by rewrite (in_unit_reaches_zero q Ha Hf) in Hnone.
  - rewrite Hsel in Hres. cbn in Hres. subst res.
    exists (p_lambda V p), (p_gamma V p), w'. split; [done|].
    apply elem_of_grid. rewrite <- Hpts.
    apply list_elem_of_lookup_2 in Hp.
    change (p_lambda V p, p_gamma V p) with (point p).
    apply list_elem_of_fmap_2. done.
Qed.

(** X24. With more folds than samples every cross-validated accuracy is NaN,
    which reaches no record: the search completes and returns (None, None),
    whatever the grid. *)
Theorem search_returns_none_when_too_many_folds
    (X : matrix) (y : list Z) (model : model_fn RNG V)
    (lambdas gammas : list V) (k : nat) (w : world RNG V) :
  length y = shape0 X ->
  (shape0 X < k)%nat ->
  well_behaved model ->
  exists w', search X y model lambdas gammas k w = (Ok (None, None), w').
Proof.
  intros Hlen Hk Hmodel.
  destruct (hyperparameter_tuning_returns RNG np_random_shuffle sigmoid V
              shuffle_permutes X y model lambdas gammas k w Hlen)
    as (res & w' & Hrun); [lia | done |].
  exists w'. rewrite Hrun. do 2 f_equal.
  pose proof Hrun as Hlines.
  apply (search_lines (fun a _ => a = NaN)) in Hlines as (ps' & Hout' & Hnan).
  2:{ intros params g a f g' Hcv.
      destruct (k_fold_nan RNG np_random_shuffle sigmoid V shuffle_permutes
                  X y model k params (Fin (1 # 2)) g Hlen Hk Hmodel)
        as (f0 & g0 & Hcv0 & _).
      rewrite Hcv in Hcv0. by injection Hcv0 as -> _ _. }
  apply hyperparameter_tuning_Ok in Hrun as (ps & Hout & _ & -> & _).
  assert (ps' = ps) as -> by (rewrite Hout in Hout'; by apply app_inv_head in Hout').
  by rewrite select_unreached.
Qed.

End Search.

Lemma result_from_grid_witness :
  hyperparameter_tuning unit Demo.shuffle Demo.squash Q Demo.samples Demo.labels
    Demo.model [1; 0]%Q [1 # 10; 1 # 5]%Q 1 Demo.start
  = (Ok (Some 1%Q, Some (1 # 5)%Q), Demo.search.2)
  /\ ((Some 1%Q, Some (1 # 5)%Q) = (None, None)
      \/ exists lambda_ gamma,
           (Some 1%Q, Some (1 # 5)%Q) = (Some lambda_, Some gamma)
           /\ lambda_ ∈ [1; 0]%Q /\ gamma ∈ [1 # 10; 1 # 5]%Q).
Proof.
  split; [exact search_outcome|].
  exact (result_from_grid unit Demo.shuffle Demo.squash Q Demo.samples Demo.labels
           Demo.model [1; 0]%Q [1 # 10; 1 # 5]%Q 1 Demo.start Demo.search.2 _
           search_outcome).
Defined.

Lemma search_returns_grid_point_witness :
  length Demo.labels = shape0 Demo.samples
  /\ (1 <= 2 <= shape0 Demo.samples)%nat
  /\ [1%Q] <> []
  /\ [(1 # 10)%Q] <> []
  /\ exists lambda_ gamma w',
       hyperparameter_tuning unit Demo.shuffle Demo.squash Q Demo.samples Demo.labels
         Demo.ones_model [1%Q] [(1 # 10)%Q] 2 Demo.start
       = (Ok (Some lambda_, Some gamma), w')
       /\ lambda_ ∈ [1%Q] /\ gamma ∈ [(1 # 10)%Q].
Proof.
  assert (Hlen : length Demo.labels = shape0 Demo.samples) by reflexivity.
  assert (Hk : (1 <= 2 <= shape0 Demo.samples)%nat) by (cbn; lia).
  assert (Hl : [1%Q] <> []) by discriminate.
  assert (Hg : [(1 # 10)%Q] <> []) by discriminate.
  split; [exact Hlen|]. split; [exact Hk|]. split; [exact Hl|]. split; [exact Hg|].
  exact (search_returns_grid_point unit Demo.shuffle Demo.squash Q
           demo_shuffle_permutes Demo.samples Demo.labels Demo.ones_model
           [1%Q] [(1 # 10)%Q] 2 Demo.start Hlen Hk demo_ones_model_well_behaved Hl Hg).
Defined.

Lemma search_returns_none_when_too_many_folds_witness :
  length Demo.labels = shape0 Demo.samples
  /\ (shape0 Demo.samples < 5)%nat
  /\ exists w',
       hyperparameter_tuning unit Demo.shuffle Demo.squash Q Demo.samples Demo.labels
         Demo.ones_model [1%Q] [(1 # 10)%Q] 5 Demo.start
       = (Ok (None, None), w').
Proof.
  assert (Hlen : length Demo.labels = shape0 Demo.samples) by reflexivity.
  assert (Hk : (shape0 Demo.samples < 5)%nat) by (cbn; lia).
  split; [exact Hlen|]. split; [exact Hk|].
  exact (search_returns_none_when_too_many_folds unit Demo.shuffle Demo.squash Q
           demo_shuffle_permutes Demo.samples Demo.labels Demo.ones_model
           [1%Q] [(1 # 10)%Q] 5 Demo.start Hlen Hk demo_ones_model_well_behaved).
Defined.

(** * Shuffling and splitting *)

Lemma fmap_nth_seq (y : list Z) :
  (fun j => nth j y 0) <$> seq 0 (length y) = y.
Proof.
  apply list_eq. intros i. rewrite list_lookup_fmap.
  destruct (decide (i < length y)%nat) as [Hi | Hi].
  - rewrite lookup_seq_lt by done. cbn.
    destruct (lookup_lt_is_Some_2 y i Hi) as [v Hv].
    by rewrite Hv, (nth_lookup_Some _ _ _ _ Hv).
  - rewrite lookup_seq_ge, (proj2 (lookup_ge_None y i)) by lia. done.
Qed.

(** Indexing an array with a permutation of its positions. *)
Lemma int_index_permutation (y : list Z) (p : list nat) :
  p ≡ₚ seq 0 (length y) ->
  exists l, int_index y p = Ok l
            /\ length l = length y
            /\ l ≡ₚ y
            /\ forall i j, p !! i = Some j -> l !! i = y !! j.
Proof.
  intros Hperm.
  assert (Hrange : Forall (fun i => (i < length y)%nat) p).
  { apply Forall_forall. intros i Hi. rewrite Hperm in Hi.
    apply elem_of_seq in Hi. lia. }
  destruct (int_index_Ok y p Hrange) as (l & Hl & Hlen).
  exists l. split; [done|].
  unfold int_index in Hl. destruct (mapM _ p) as [l'|] eqn:E; [|done].
  injection Hl as ->. apply mapM_Some_1 in E.
  assert (Hlookup : forall i j, p !! i = Some j -> l !! i = y !! j).
  { intros i j Hj. destruct (Forall2_lookup_l _ _ _ _ _ E Hj) as (v & -> & Hv). done. }
  assert (Hl : l = (fun j => nth j y 0) <$> p).
  { apply list_eq. intros i. rewrite list_lookup_fmap.
    destruct (p !! i) as [j|] eqn:Hj.
    - rewrite (Hlookup i j Hj). cbn.
      destruct (y !! j) as [v|] eqn:Hv; [by rewrite (nth_lookup_Some _ _ _ _ Hv)|].
      apply lookup_ge_None in Hv. rewrite Forall_forall in Hrange.
      apply list_elem_of_lookup_2, Hrange in Hj. lia.
    - apply lookup_ge_None in Hj. apply lookup_ge_None. lia. }
  split; [|split; [|done]].
  - by rewrite Hlen, Hperm, length_seq.
  - rewrite Hl, Hperm. by rewrite fmap_nth_seq.
Qed.

Lemma row_select_rows (X : matrix) (rows : list nat) (i j : nat) :
  rows !! i = Some j -> row (select_rows X rows) i = row X j.
Proof.
  intros H. unfold row. cbn [shape1 cell select_rows].
  by rewrite (nth_lookup_Some _ _ _ _ H).
Qed.

Lemma slice_bound_le (s : Z) (n : nat) : (slice_bound s n <= n)%nat.
Proof. unfold slice_bound. destruct (s <? 0) eqn:E; lia. Qed.

(** Python's [round] returns the integer nearest to a finite number. *)
Lemma py_round_Fin (q : Q) :
  exists z, py_round (Fin q) = Ok z
            /\ (inject_Z z - (1 # 2) <= q <= inject_Z z + (1 # 2))%Q.
Proof.
  pose proof (Qfloor_le q) as Hlo. pose proof (Qlt_floor q) as Hhi.
  rewrite inject_Z_plus in Hhi. change (inject_Z 1) with 1%Q in Hhi.
  unfold py_round.
  destruct (q - inject_Z (Qfloor q) ?= 1 # 2)%Q eqn:E.
  - apply Qeq_alt in E.
    destruct (Z.even (Qfloor q)); eexists; (split; [reflexivity|]);
      rewrite ?inject_Z_plus; change (inject_Z 1) with 1%Q; lra.
  - apply Qlt_alt in E. eexists. split; [reflexivity|]. lra.
  - apply Qgt_alt in E. eexists. split; [reflexivity|].
    rewrite inject_Z_plus. change (inject_Z 1) with 1%Q. lra.
Qed.

Lemma overflow_bound_large : 2 ^ 63 < 2 ^ 1024 - 2 ^ 970.
Proof. vm_compute. reflexivity. Qed.

(** A product of an array length and a float that stays in range. *)
Lemma int_times_float_Fin (n : nat) (r : Q) :
  Z.of_nat n < 2 ^ 63 ->
  (Qabs (inject_Z (Z.of_nat n) * r) < overflow_bound)%Q ->
  int_times_float n (Fin r) = Ok (Fin (inject_Z (Z.of_nat n) * r)).
Proof.
  intros Hn Hr. unfold int_times_float.
  destruct (Qle_bool overflow_bound (inject_Z (Z.of_nat n))) eqn:E.
  { apply Qle_bool_iff in E. unfold overflow_bound in E. rewrite <- Zle_Qle in E.
    pose proof overflow_bound_large. lia. }
  cbn [Float.mul Float.of_nat Float.of_Z overflow].
  destruct (Qle_bool overflow_bound (Qabs _)) eqn:E'; [|reflexivity].
  apply Qle_bool_iff in E'. by apply Qlt_not_le in Hr.
Qed.


Section Shuffled.
Variable RNG : Type.
Variable np_random_seed : Z -> RNG.
Variable np_random_permutation : nat -> RNG -> list nat * RNG.
Hypothesis permutation_valid :
  forall n g, (np_random_permutation n g).1 ≡ₚ seq 0 n.

Lemma unison_shuffled_copies_Ok (a : matrix) (b : list Z) (g : RNG) :
  shape0 a = length b ->
  let p := (np_random_permutation (shape0 a) g).1 in
  exists b',
    unison_shuffled_copies RNG np_random_permutation a b g
    = (Ok (select_rows a p, b'), (np_random_permutation (shape0 a) g).2)
    /\ length b' = length b
    /\ b' ≡ₚ b
    /\ forall i j, p !! i = Some j -> b' !! i = b !! j.
Proof.
  intros Hlen p. unfold unison_shuffled_copies, bind, lift_result, ret.
  rewrite Hlen, Nat.eqb_refl. cbn [negb].
  pose proof (permutation_valid (length b) g) as Hperm.
  subst p. rewrite Hlen.
  destruct (np_random_permutation (length b) g) as [p g']. cbn [fst snd] in *.
  rewrite int_index_rows_Ok.
  2:{ apply Forall_forall. intros i Hi. rewrite Hperm in Hi.
      apply elem_of_seq in Hi. lia. }
  destruct (int_index_permutation b p Hperm) as (l & -> & H1 & H2 & H3).
  exists l. done.
Qed.

(** X25. For a matrix and a label array of the same length,
    [unison_shuffled_copies] raises nothing and keeps every sample with its
    label: row [i] of the shuffled matrix and entry [i] of the shuffled labels
    come from the same position of the inputs, and the shuffled labels are a
    rearrangement of the labels. *)
Theorem unison_keeps_pairs (a : matrix) (b : list Z) (g : RNG) :
  shape0 a = length b ->
  exists p a' b' g',
    unison_shuffled_copies RNG np_random_permutation a b g = (Ok (a', b'), g')
    /\ p ≡ₚ seq 0 (shape0 a)
    /\ shape0 a' = shape0 a /\ shape1 a' = shape1 a /\ length b' = length b
    /\ b' ≡ₚ b
    /\ forall i j, p !! i = Some j -> row a' i = row a j /\ b' !! i = b !! j.
Proof.
  intros Hlen.
  destruct (unison_shuffled_copies_Ok a b g Hlen) as (b' & Hrun & Hb & Hperm & Hpairs).
  exists (np_random_permutation (shape0 a) g).1. eexists _, _, _.
  split; [exact Hrun|]. split; [apply permutation_valid|].
  split; [cbn; by rewrite permutation_valid, length_seq|].
  split; [reflexivity|]. split; [done|]. split; [done|].
  intros i j Hj. split; [by apply row_select_rows | by apply Hpairs].
Qed.

(** [np.random.seed] rejects a seed out of range before anything else
    happens: the generator is left as it was. *)
Lemma split_data_bad_seed (x : matrix) (y : list Z) (ratio : pyfloat) (seed : Z)
    (g : RNG) :
  seed < 0 \/ 2 ^ 32 <= seed ->
  split_data RNG np_random_seed np_random_permutation x y ratio seed g
  = (Raise ValueError, g).
Proof.
  intros Hseed. unfold split_data, bind, seed_generator.
  replace ((0 <=? seed) && (seed <? 2 ^ 32)) with false; [reflexivity|].
  symmetry. apply andb_false_iff.
  destruct Hseed; [left; by apply Z.leb_gt | right; by apply Z.ltb_ge].
Qed.

(** With an accepted seed the call starts from the seeded state, whatever
    the generator held before. *)
Lemma split_data_reseeds (x : matrix) (y : list Z) (ratio : pyfloat) (seed : Z)
    (g g2 : RNG) :
  0 <= seed < 2 ^ 32 ->
  split_data RNG np_random_seed np_random_permutation x y ratio seed g2
  = split_data RNG np_random_seed np_random_permutation x y ratio seed g.
Proof.
  intros Hseed. unfold split_data, bind, seed_generator.
  replace ((0 <=? seed) && (seed <? 2 ^ 32)) with true; [reflexivity|].
  symmetry. apply andb_true_iff. split; [apply Z.leb_le | apply Z.ltb_lt]; lia.
Qed.

Lemma split_data_Ok (x : matrix) (y : list Z) (r : Q) (seed : Z) (g : RNG) :
  shape0 x = length y ->
  0 <= seed < 2 ^ 32 ->
  Z.of_nat (shape0 x) < 2 ^ 63 ->
  (Qabs (inject_Z (Z.of_nat (shape0 x)) * r) < overflow_bound)%Q ->
  let g0 := np_random_seed seed in
  let p := (np_random_permutation (shape0 x) g0).1 in
  exists z y_shuffle,
    py_round (Fin (inject_Z (Z.of_nat (shape0 x)) * r)) = Ok z
    /\ length y_shuffle = length y
    /\ y_shuffle ≡ₚ y
    /\ (forall i j, p !! i = Some j -> y_shuffle !! i = y !! j)
    /\ split_data RNG np_random_seed np_random_permutation x y (Fin r) seed g
       = (Ok (select_rows (select_rows x p) (seq 0 (slice_bound z (shape0 x))),
              select_rows (select_rows x p)
                (seq (slice_bound z (shape0 x))
                     (shape0 x - slice_bound z (shape0 x))),
              take (slice_bound z (shape0 x)) y_shuffle,
              drop (slice_bound z (shape0 x)) y_shuffle),
          (np_random_permutation (shape0 x) g0).2).
Proof.
  intros Hlen Hseed Hrows Hrange g0 p.
  destruct (unison_shuffled_copies_Ok x y g0 Hlen) as (l & Hrun & Hl & Hperm & Hpairs).
  destruct (py_round_Fin (inject_Z (Z.of_nat (shape0 x)) * r)) as (z & Hz & _).
  exists z, l. split; [exact Hz|]. split; [done|]. split; [done|]. split; [done|].
  unfold split_data, bind, lift_result, ret, seed_generator.
  replace ((0 <=? seed) && (seed <? 2 ^ 32)) with true.
  2:{ symmetry. apply andb_true_iff. split; [apply Z.leb_le | apply Z.ltb_lt]; lia. }
  fold g0. rewrite Hrun.
  assert (Hp : length p = shape0 x).
  { unfold p. by rewrite permutation_valid, length_seq. }
  cbn [shape0 select_rows]. unfold p in Hp |- *. rewrite Hp.
  rewrite (int_times_float_Fin _ _ Hrows Hrange), Hz.
  by rewrite Hl, <- Hlen.
Qed.

(** A product that leaves the range of a float is an infinity, which
    [round] refuses: the call fails after the shuffle. *)
Lemma split_data_overflow (x : matrix) (y : list Z) (r : Q) (seed : Z) (g : RNG) :
  shape0 x = length y ->
  0 <= seed < 2 ^ 32 ->
  Z.of_nat (shape0 x) < 2 ^ 63 ->
  (overflow_bound <= Qabs (inject_Z (Z.of_nat (shape0 x)) * r))%Q ->
  split_data RNG np_random_seed np_random_permutation x y (Fin r) seed g
  = (Raise (OtherError "OverflowError"),
     (np_random_permutation (shape0 x) (np_random_seed seed)).2).
Proof.
  intros Hlen Hseed Hrows Hrange.
  destruct (unison_shuffled_copies_Ok x y (np_random_seed seed) Hlen)
    as (l & Hrun & _).
  unfold split_data, bind, lift_result, ret, seed_generator.
  replace ((0 <=? seed) && (seed <? 2 ^ 32)) with true.
  2:{ symmetry. apply andb_true_iff. split; [apply Z.leb_le | apply Z.ltb_lt]; lia. }
  rewrite Hrun.
  assert (Hp : length (np_random_permutation (shape0 x) (np_random_seed seed)).1
               = shape0 x) by (by rewrite permutation_valid, length_seq).
  cbn [shape0 select_rows]. rewrite Hp. unfold int_times_float.
  destruct (Qle_bool overflow_bound (inject_Z (Z.of_nat (shape0 x)))) eqn:E.
  { apply Qle_bool_iff in E. unfold overflow_bound in E. rewrite <- Zle_Qle in E.
    pose proof overflow_bound_large. lia. }
  cbn [Float.mul Float.of_nat Float.of_Z overflow].
  apply Qle_bool_iff in Hrange. rewrite Hrange. reflexivity.
Qed.

(** X26. For a matrix and labels of the same length, a seed that
    [np.random.seed] accepts (between 0 and [2^32 - 1]) and a finite ratio
    whose product with the number of rows stays in the range of a float,
    [split_data] raises nothing; the training and test parts together hold
    every sample once, each part has as many rows as labels, every row keeps
    its label, and the outcome depends on the seed but not on the state the
    generator was in before the call. *)
Theorem split_data_partition (x : matrix) (y : list Z) (r : Q) (seed : Z) (g : RNG) :
  shape0 x = length y ->
  0 <= seed < 2 ^ 32 ->
  Z.of_nat (shape0 x) < 2 ^ 63 ->
  (Qabs (inject_Z (Z.of_nat (shape0 x)) * r) < overflow_bound)%Q ->
  exists p x_tr x_te y_tr y_te g',
    split_data RNG np_random_seed np_random_permutation x y (Fin r) seed g
    = (Ok (x_tr, x_te, y_tr, y_te), g')
    /\ p ≡ₚ seq 0 (shape0 x)
    /\ shape0 x_tr = length y_tr /\ shape0 x_te = length y_te
    /\ (shape0 x_tr + shape0 x_te = shape0 x)%nat
    /\ y_tr ++ y_te ≡ₚ y
    /\ (forall i j, (i < shape0 x_tr)%nat -> p !! i = Some j ->
          row x_tr i = row x j /\ y_tr !! i = y !! j)
    /\ (forall i j, (i < shape0 x_te)%nat -> p !! (shape0 x_tr + i)%nat = Some j ->
          row x_te i = row x j /\ y_te !! i = y !! j)
    /\ forall g2,
         split_data RNG np_random_seed np_random_permutation x y (Fin r) seed g2
         = (Ok (x_tr, x_te, y_tr, y_te), g').
Proof.
  intros Hlen Hseed Hrows Hrange.
  destruct (split_data_Ok x y r seed g Hlen Hseed Hrows Hrange)
    as (z & l & _ & Hl & Hperm & Hpairs & Hrun).
  set (p := (np_random_permutation (shape0 x) (np_random_seed seed)).1) in *.
  set (pos := slice_bound z (shape0 x)) in *.
  assert (Hpos : (pos <= shape0 x)%nat) by apply slice_bound_le.
  exists p. eexists _, _, _, _, _. split; [exact Hrun|].
  split; [apply permutation_valid|].
  split; [cbn; rewrite length_seq, length_take; lia|].
  split; [cbn; rewrite length_seq, length_drop; lia|].
  split; [cbn; rewrite !length_seq; lia|].
  split; [by rewrite take_drop|].
  split; [|split].
  - intros i j Hi Hj. cbn [shape0 select_rows] in Hi. rewrite length_seq in Hi. split.
    + rewrite (row_select_rows _ _ i i) by (by apply lookup_seq_lt).
      by apply row_select_rows.
    + rewrite lookup_take_lt by done. by apply Hpairs.
  - intros i j Hi Hj. cbn [shape0 select_rows] in Hi, Hj.
    rewrite !length_seq in *. split.
    + rewrite (row_select_rows _ _ i (pos + i)) by (by apply lookup_seq_lt).
      by apply row_select_rows.
    + rewrite lookup_drop. by apply Hpairs.
  - intros g2. rewrite <- Hrun. by apply split_data_reseeds.
Qed.

End Shuffled.


Lemma demo_permutation_valid (n : nat) (g : unit) :
  (Demo2.permutation n g).1 ≡ₚ seq 0 n.
Proof. cbn. symmetry. apply Permutation_rev. Qed.

Lemma unison_keeps_pairs_witness :
  shape0 Demo.samples = length Demo.labels
  /\ exists p a' b' g',
       unison_shuffled_copies unit Demo2.permutation Demo.samples Demo.labels tt
       = (Ok (a', b'), g')
       /\ p ≡ₚ seq 0 (shape0 Demo.samples)
       /\ b' ≡ₚ Demo.labels.
Proof.
  assert (Hlen : shape0 Demo.samples = length Demo.labels) by reflexivity.
  split; [exact Hlen|].
  destruct (unison_keeps_pairs unit Demo2.permutation demo_permutation_valid
              Demo.samples Demo.labels tt Hlen)
    as (p & a' & b' & g' & H1 & H2 & _ & _ & _ & H3 & _).
  exists p, a', b', g'. split; [exact H1|]. split; [exact H2 | exact H3].
Defined.

Lemma split_data_partition_witness :
  shape0 Demo.samples = length Demo.labels
  /\ 0 <= 1 < 2 ^ 32
  /\ Z.of_nat (shape0 Demo.samples) < 2 ^ 63
  /\ (Qabs (inject_Z (Z.of_nat (shape0 Demo.samples)) * (1 # 2)) < overflow_bound)%Q
  /\ exists x_tr x_te y_tr y_te g',
       split_data unit Demo2.seed Demo2.permutation Demo.samples Demo.labels
         (Fin (1 # 2)) 1 tt = (Ok (x_tr, x_te, y_tr, y_te), g')
       /\ (shape0 x_tr + shape0 x_te = shape0 Demo.samples)%nat
       /\ y_tr ++ y_te ≡ₚ Demo.labels.
Proof.
  assert (Hlen : shape0 Demo.samples = length Demo.labels) by reflexivity.
  assert (Hseed : 0 <= 1 < 2 ^ 32) by (split; vm_compute; congruence).
  assert (Hrows : Z.of_nat (shape0 Demo.samples) < 2 ^ 63) by (vm_compute; reflexivity).
  assert (Hrange : (Qabs (inject_Z (Z.of_nat (shape0 Demo.samples)) * (1 # 2))
                    < overflow_bound)%Q) by (vm_compute; reflexivity).
  split; [exact Hlen|]. split; [exact Hseed|]. split; [exact Hrows|].
  split; [exact Hrange|].
  destruct (split_data_partition unit Demo2.seed Demo2.permutation
              demo_permutation_valid Demo.samples Demo.labels (1 # 2) 1 tt
              Hlen Hseed Hrows Hrange)
    as (p & x_tr & x_te & y_tr & y_te & g' & H1 & _ & _ & _ & H2 & H3 & _).
  exists x_tr, x_te, y_tr, y_te, g'. split; [exact H1|]. split; [exact H2 | exact H3].
Defined.


(** * Cleaning *)

(** X28. On an array with at least two columns [clean_Y] returns one label
    per row, taken from column 1 with every -1 replaced by 0 and every other
    value unchanged, so the result contains no -1. *)
Theorem clean_Y_labels (y_data : matrix) :
  (2 <= shape1 y_data)%nat ->
  exists l,
    clean_Y y_data = Ok l
    /\ length l = shape0 y_data
    /\ Forall (fun v => Float.eqb v (Float.of_Z (-1)) = false) l
    /\ forall r v, column y_data 1 !! r = Some v ->
         l !! r = Some (if Float.eqb v (Float.of_Z (-1)) then Float.zero else v).
Proof.
  intros Hcols. unfold clean_Y.
  destruct (Nat.leb_spec (shape1 y_data) 1) as [|_]; [lia|].
  eexists. split; [reflexivity|]. split; [|split].
  - unfold column. by rewrite !length_map, length_seq.
  - apply Forall_forall. intros v Hv.
    apply list_elem_of_fmap in Hv as (u & -> & _).
    destruct (Float.eqb u (Float.of_Z (-1))) eqn:E; [reflexivity | exact E].
  - intros r v Hv.
    change (map ?f ?l) with (f <$> l). by rewrite list_lookup_fmap, Hv.
Qed.

Lemma clean_Y_labels_witness :
  (2 <= shape1 Demo2.raw_labels)%nat
  /\ exists l, clean_Y Demo2.raw_labels = Ok l /\ length l = 3%nat.
Proof.
  assert (H : (2 <= shape1 Demo2.raw_labels)%nat) by (cbn; lia).
  split; [exact H|].
  destruct (clean_Y_labels Demo2.raw_labels H) as (l & H1 & H2 & _).
  exists l. split; [exact H1 | exact H2].
Defined.

Lemma sum_finite (l : list pyfloat) (a : Q) :
  Forall is_finite l -> is_finite (foldl Float.add (Fin a) l).
Proof.
  intros H. revert a. induction H as [|x l [q ->] _ IH]; intros a.
  - by exists a.
  - cbn [foldl Float.add]. apply IH.
Qed.

Lemma mean_finite (l : list pyfloat) :
  l <> [] -> Forall is_finite l -> is_finite (Float.mean l).
Proof.
  intros Hne H. unfold Float.mean, Float.sum, Float.zero.
  destruct (sum_finite l 0 H) as [s ->].
  unfold Float.div, Float.of_nat, Float.of_Z. rewrite Qzero_inject_Z.
  - by eexists.
  - destruct l; [done | cbn; lia].
Qed.

Lemma epsilon_positive : (0 < epsilon)%Q.
Proof. unfold epsilon, Qlt. cbn [Qnum Qden]. lia. Qed.

Section Cleaned.
Variable np_std : list pyfloat -> pyfloat.
Variable np_nanmedian : list pyfloat -> pyfloat.

(** X29. When [np.std] of finite values is a finite non-negative number and
    the data holds no infinity, every cell of [clean_X_0 data] is a finite
    number and its first column is made of ones: a NaN has become 0 before
    normalising, and the added [10e-300] keeps every divisor positive. *)
Theorem clean_X_0_finite (data : matrix) :
  (forall col, Forall is_finite col -> exists s, np_std col = Fin s /\ (0 <= s)%Q) ->
  (forall r c s, cell data r c <> Inf s) ->
  (forall r, cell (clean_X_0 np_std data) r 0 = Fin 1)
  /\ forall r c, (r < shape0 (clean_X_0 np_std data))%nat ->
       is_finite (cell (clean_X_0 np_std data) r c).
Proof.
  intros Hstd Hinf. split; [reflexivity|]. intros r [|c] Hr; [by exists 1%Q|].
  unfold clean_X_0 in *. cbn [shape0 prepend_ones normalize fill_nan drop_first_column] in Hr.
  cbn [cell prepend_ones normalize].
  set (d := fill_nan (drop_first_column data) (fun _ => Float.zero)).
  assert (Hcell : forall r' c', is_finite (cell d r' c')).
  { intros r' c'. unfold d. cbn [cell fill_nan drop_first_column].
    destruct (cell data r' (c' + 1)) as [| s | q] eqn:E; cbn [Float.isnan].
    - by exists 0%Q.
    - by apply Hinf in E.
    - by exists q. }
  assert (Hcol : Forall is_finite (column d c)).
  { apply Forall_forall. intros v Hv. unfold column in Hv.
    apply list_elem_of_fmap in Hv as (r' & -> & _). apply Hcell. }
  destruct (Hcell r c) as [v ->].
  destruct (mean_finite (column d c)) as [m ->]; [|done|].
  { unfold column. cbn [shape0 d fill_nan drop_first_column].
    destruct (shape0 data); [lia | done]. }
  destruct (Hstd _ Hcol) as (s & -> & Hs).
  pose proof epsilon_positive as Heps.
  cbn [Float.sub Float.neg Float.add Float.div].
  replace (Float.Qzero (s + epsilon)) with false; [by eexists|].
  symmetry. apply not_true_is_false. intros H. apply Qeq_bool_iff in H.
  revert H Heps. generalize epsilon. intros e H He. lra.
Qed.

(** X30. A feature column that is NaN in every row stays NaN in
    [clean_X_mean]: the mean of its observed values is the mean of nothing,
    NaN, and that is the value written over the missing cells. *)
Theorem clean_X_mean_blank_column (data : matrix) (c : nat) :
  (forall r, (r < shape0 data)%nat -> cell data r (c + 1) = NaN) ->
  forall r, (r < shape0 data)%nat -> cell (clean_X_mean np_std data) r (S c) = NaN.
Proof.
  intros Hnan r Hr. unfold clean_X_mean. cbn [cell prepend_ones normalize].
  set (d := drop_first_column data).
  assert (Hmean : np_nanmean (column d c) = NaN).
  { unfold np_nanmean. rewrite (filter_none _ (column d c)); [reflexivity|].
    apply Forall_forall. intros v Hv. unfold column in Hv.
    apply list_elem_of_fmap in Hv as (r' & -> & Hr'). apply elem_of_seq in Hr'.
    unfold d in *. cbn [cell shape0 drop_first_column] in *.
    intros Hv. rewrite Hnan in Hv by lia. done. }
  assert (Hx : cell d r c = NaN) by (unfold d; cbn; by apply Hnan).
  cbn [cell fill_nan]. rewrite Hx. cbn [Float.isnan]. rewrite Hmean. reflexivity.
Qed.

End Cleaned.

Lemma clean_X_0_finite_witness :
  (forall col, Forall is_finite col -> exists s, Demo2.std col = Fin s /\ (0 <= s)%Q)
  /\ (forall r c s, cell Demo2.blank r c <> Inf s)
  /\ is_finite (cell (clean_X_0 Demo2.std Demo2.blank) 1 1).
Proof.
  assert (Hstd : forall col, Forall is_finite col ->
                   exists s, Demo2.std col = Fin s /\ (0 <= s)%Q).
  { intros col _. exists 1%Q. split; [reflexivity|]. unfold Qle. cbn. lia. }
  assert (Hinf : forall r c s, cell Demo2.blank r c <> Inf s).
  { intros r [|[|c]] s; destruct r; cbn; discriminate. }
  split; [exact Hstd|]. split; [exact Hinf|].
  apply (proj2 (clean_X_0_finite Demo2.std Demo2.blank Hstd Hinf) 1%nat 1%nat).
  cbn. lia.
Defined.

Lemma clean_X_mean_blank_column_witness :
  (forall r, (r < shape0 Demo2.blank)%nat -> cell Demo2.blank r (0 + 1) = NaN)
  /\ cell (clean_X_mean Demo2.std Demo2.blank) 1 1 = NaN.
Proof.
  assert (H : forall r, (r < shape0 Demo2.blank)%nat -> cell Demo2.blank r (0 + 1) = NaN).
  { intros r _. reflexivity. }
  split; [exact H|].
  apply (clean_X_mean_blank_column Demo2.std Demo2.blank 0 H 1%nat). cbn. lia.
Defined.
